(** * export_vdi: a shallow embedding of [main.py] and its specification

    The program exports the root disk of a ZStack virtual machine: it logs
    in to the inventory service, locates the VM by IP address, makes sure it
    is running, trims and shuts down the guest over ssh, converts the disk
    image twice with [qemu-img], and writes an MD5 sidecar file.

    The embedding is a state-and-error monad over a [World] that holds what
    the process can observe (clock, environment variables, local files) and
    the replies of the external collaborators (inventory service, spawned
    processes, free-space readings), together with the trace of the effects
    the program performed. *)

From Stdlib Require Import ZArith Ascii String DecimalString.
From stdpp Require Import gmap strings list.

Open Scope string_scope.
Open Scope list_scope.
Open Scope Z_scope.

(** ** Python strings *)

Module PyStr.

(** The double-quote character, used inside JSON payloads. *)
Definition dq : string := String "034"%char EmptyString.

(** The line feed. *)
Definition nl : string := String "010"%char EmptyString.

(** [str(n)] for an [int]. *)
Definition show_Z (z : Z) : string := NilZero.string_of_int (Z.to_int z).

(** Truth value of a [str]: the empty string is falsy. *)
Definition nonempty (s : string) : bool :=
  match s with EmptyString => false | String _ _ => true end.

(** Truth value of an [Optional[str]]: [None] and [""] are falsy. *)
Definition truthy (o : option string) : bool :=
  match o with Some s => nonempty s | None => false end.

(** [a or b] where [b] is a [str]. *)
Definition or_str (a : option string) (b : string) : string :=
  match a with
  | Some s => if nonempty s then s else b
  | None => b
  end.

Definition lower_ascii (c : ascii) : ascii :=
  let n := nat_of_ascii c in
  if ((65 <=? n)%nat && (n <=? 90)%nat)%bool then ascii_of_nat (n + 32) else c.

(** [s.lower()], on the ASCII letters. *)
Fixpoint lower (s : string) : string :=
  match s with
  | EmptyString => EmptyString
  | String c r => String (lower_ascii c) (lower r)
  end.

(** [str.isspace] on one character of the ASCII range. *)
Definition is_space (c : ascii) : bool :=
  let n := nat_of_ascii c in
  (((9 <=? n)%nat && (n <=? 13)%nat) || ((28 <=? n)%nat && (n <=? 32)%nat))%bool.

Fixpoint lstrip (s : string) : string :=
  match s with
  | EmptyString => EmptyString
  | String c r => if is_space c then lstrip r else s
  end.

(** Drops the trailing characters that satisfy [p]. *)
Fixpoint rstrip_with (p : ascii -> bool) (s : string) : string :=
  match s with
  | EmptyString => EmptyString
  | String c r =>
      match rstrip_with p r with
      | EmptyString => if p c then EmptyString else String c EmptyString
      | r' => String c r'
      end
  end.

(** [s.strip()]. *)
Definition strip (s : string) : string := lstrip (rstrip_with is_space s).

(** [s.rstrip("/")]. *)
Definition rstrip_slash (s : string) : string :=
  rstrip_with (fun c => Ascii.eqb c "/"%char) s.

(** [sep.join(l)]. *)
Fixpoint join (sep : string) (l : list string) : string :=
  match l with
  | [] => ""
  | [x] => x
  | x :: r => x +:+ sep +:+ join sep r
  end.

(** [s.split("/")]: never empty, [""] splits to [[""]]. *)
Fixpoint split_slash (s : string) : list string :=
  match s with
  | EmptyString => [""]
  | String c r =>
      if Ascii.eqb c "/"%char then "" :: split_slash r
      else match split_slash r with
           | h :: t => String c h :: t
           | [] => [String c ""]
           end
  end.

(** [s.rfind(".")] as the pieces around the last dot: [Some (stem, ext)]
    with [s = stem ++ ext], [ext] starting at the last dot; [None] when
    [s] has no dot. *)
Fixpoint rsplit_dot (s : string) : option (string * string) :=
  match s with
  | EmptyString => None
  | String c r =>
      match rsplit_dot r with
      | Some (stem, ext) => Some (String c stem, ext)
      | None => if Ascii.eqb c "."%char then Some ("", s) else None
      end
  end.

Definition starts_with_slash (s : string) : bool :=
  match s with String c _ => Ascii.eqb c "/"%char | EmptyString => false end.

End PyStr.

(** ** pathlib: pure POSIX paths

    A path is its root flag and its components, as [PurePosixPath] parses
    it: empty components and ["."] are dropped.  (A root of exactly two
    slashes, which pathlib keeps apart, is read as ["/"].) *)

Module PyPath.
Import PyStr.

Record Path := mkPath { p_root : bool; p_parts : list string }.

Definition keep_part (x : string) : bool :=
  (nonempty x && negb (String.eqb x "."))%bool.

(** [Path(s)]. *)
Definition of_str (s : string) : Path :=
  {| p_root := starts_with_slash s;
     p_parts := List.filter keep_part (split_slash s) |}.

(** [str(p)]. *)
Definition to_str (p : Path) : string :=
  match p_root p, p_parts p with
  | false, [] => "."
  | false, ps => join "/" ps
  | true, ps => "/" +:+ join "/" ps
  end.

(** [p / s]: an absolute right operand replaces the left one. *)
Definition div (p : Path) (s : string) : Path :=
  let q := of_str s in
  if p_root q then q
  else {| p_root := p_root p; p_parts := p_parts p ++ p_parts q |}.

(** [p.name]: the last component, [""] when there is none. *)
Definition name (p : Path) : string := List.last (p_parts p) "".

(** [p.suffix]: from the last dot of the name, unless that dot is the
    first or the last character. *)
Definition suffix (p : Path) : string :=
  match rsplit_dot (name p) with
  | Some (stem, ext) =>
      if (nonempty stem && Nat.ltb 1 (String.length ext))%bool
      then ext else ""
  | None => ""
  end.

Fixpoint has_slash (s : string) : bool :=
  match s with
  | EmptyString => false
  | String c r => (Ascii.eqb c "/"%char || has_slash r)%bool
  end.

(** [p.with_suffix(sfx)]; [inl msg] is the [ValueError] pathlib raises. *)
Definition with_suffix (p : Path) (sfx : string) : string + Path :=
  if has_slash sfx then inl "ValueError: Invalid suffix"
  else if ((nonempty sfx && negb (String.prefix "." sfx)) || String.eqb sfx ".")%bool
  then inl "ValueError: Invalid suffix"
  else if negb (nonempty (name p)) then inl "ValueError: path has an empty name"
  else
    let old := suffix p in
    let stem := String.substring 0 (Nat.sub (String.length (name p)) (String.length old)) (name p) in
    let new_name := if nonempty old then stem +:+ sfx else name p +:+ sfx in
    inr {| p_root := p_root p; p_parts := List.removelast (p_parts p) ++ [new_name] |}.

End PyPath.

Export PyStr PyPath.

(** ** hashlib: MD5 (RFC 1321)

    Bytes are numbers below 256 and words are numbers below [2^32]; the
    additions wrap around through [w32]. *)

Module MD5.

(** The bytes of a byte string. *)
Definition bytes_of (s : string) : list Z :=
  List.map (fun c => Z.of_nat (nat_of_ascii c)) (list_ascii_of_string s).

(** The [n] low bytes of [z], least significant first. *)
Definition le_bytes (n : nat) (z : Z) : list Z :=
  List.map (fun i => Z.land (Z.shiftr z (8 * Z.of_nat i)) 255) (seq 0 n).

(** Groups bytes four by four into little-endian words. *)
Fixpoint le_words (bs : list Z) : list Z :=
  match bs with
  | b0 :: b1 :: b2 :: b3 :: r =>
      Z.lor b0 (Z.lor (Z.shiftl b1 8) (Z.lor (Z.shiftl b2 16) (Z.shiftl b3 24)))
      :: le_words r
  | _ => []
  end.

(** Padding: a one bit, zeros up to 56 modulo 64, the bit length on
    eight bytes. *)
Definition pad (msg : list Z) : list Z :=
  let len := Z.of_nat (length msg) in
  msg ++ [128] ++ repeat 0 (Z.to_nat ((55 - len) mod 64))
      ++ le_bytes 8 ((8 * len) mod 2 ^ 64).

Definition shifts : list Z :=
  [7; 12; 17; 22; 7; 12; 17; 22; 7; 12; 17; 22; 7; 12; 17; 22;
   5; 9; 14; 20; 5; 9; 14; 20; 5; 9; 14; 20; 5; 9; 14; 20;
   4; 11; 16; 23; 4; 11; 16; 23; 4; 11; 16; 23; 4; 11; 16; 23;
   6; 10; 15; 21; 6; 10; 15; 21; 6; 10; 15; 21; 6; 10; 15; 21].

Definition sines : list Z :=
  [0xd76aa478; 0xe8c7b756; 0x242070db; 0xc1bdceee;
   0xf57c0faf; 0x4787c62a; 0xa8304613; 0xfd469501;
   0x698098d8; 0x8b44f7af; 0xffff5bb1; 0x895cd7be;
   0x6b901122; 0xfd987193; 0xa679438e; 0x49b40821;
   0xf61e2562; 0xc040b340; 0x265e5a51; 0xe9b6c7aa;
   0xd62f105d; 0x02441453; 0xd8a1e681; 0xe7d3fbc8;
   0x21e1cde6; 0xc33707d6; 0xf4d50d87; 0x455a14ed;
   0xa9e3e905; 0xfcefa3f8; 0x676f02d9; 0x8d2a4c8a;
   0xfffa3942; 0x8771f681; 0x6d9d6122; 0xfde5380c;
   0xa4beea44; 0x4bdecfa9; 0xf6bb4b60; 0xbebfbc70;
   0x289b7ec6; 0xeaa127fa; 0xd4ef3085; 0x04881d05;
   0xd9d4d039; 0xe6db99e5; 0x1fa27cf8; 0xc4ac5665;
   0xf4292244; 0x432aff97; 0xab9423a7; 0xfc93a039;
   0x655b59c3; 0x8f0ccc92; 0xffeff47d; 0x85845dd1;
   0x6fa87e4f; 0xfe2ce6e0; 0xa3014314; 0x4e0811a1;
   0xf7537e82; 0xbd3af235; 0x2ad7d2bb; 0xeb86d391].

Definition w32 (z : Z) : Z := z mod 2 ^ 32.
Definition not32 (z : Z) : Z := Z.lxor z 0xffffffff.
Definition rotl (x c : Z) : Z :=
  w32 (Z.lor (Z.shiftl x c) (Z.shiftr x (32 - c))).

Definition State : Type := Z * Z * Z * Z.

Definition init : State := (0x67452301, 0xefcdab89, 0x98badcfe, 0x10325476).

Definition round (M : list Z) (st : State) (i : nat) : State :=
  let '(A, B, C, D) := st in
  let iz := Z.of_nat i in
  let '(F, g) :=
    if iz <? 16 then (Z.lor (Z.land B C) (Z.land (not32 B) D), iz)
    else if iz <? 32 then (Z.lor (Z.land D B) (Z.land (not32 D) C), (5 * iz + 1) mod 16)
    else if iz <? 48 then (Z.lxor B (Z.lxor C D), (3 * iz + 5) mod 16)
    else (Z.lxor C (Z.lor B (not32 D)), (7 * iz) mod 16) in
  let F' := w32 (F + A + nth i sines 0 + nth (Z.to_nat g) M 0) in
  (D, w32 (B + rotl F' (nth i shifts 0)), B, C).

Definition block (st : State) (M : list Z) : State :=
  let '(a0, b0, c0, d0) := st in
  let '(A, B, C, D) := fold_left (round M) (seq 0 64) st in
  (w32 (a0 + A), w32 (b0 + B), w32 (c0 + C), w32 (d0 + D)).

Fixpoint blocks (n : nat) (ws : list Z) (st : State) : State :=
  match n with
  | O => st
  | S n' => blocks n' (skipn 16 ws) (block st (firstn 16 ws))
  end.

Definition digest (msg : list Z) : list Z :=
  let ws := le_words (pad msg) in
  let '(A, B, C, D) := blocks (Nat.div (length ws) 16) ws init in
  le_bytes 4 A ++ le_bytes 4 B ++ le_bytes 4 C ++ le_bytes 4 D.

Definition hexdigits : list ascii :=
  ["0"; "1"; "2"; "3"; "4"; "5"; "6"; "7"; "8"; "9"; "a"; "b"; "c"; "d"; "e"; "f"]%char.

Definition hex_digit (d : Z) : ascii := nth (Z.to_nat (Z.land d 15)) hexdigits "0"%char.

Definition hex_byte (b : Z) : list ascii := [hex_digit (Z.shiftr b 4); hex_digit b].

(** [hashlib.md5(s).hexdigest()]. *)
Definition hexdigest (s : string) : string :=
  string_of_list_ascii (flat_map hex_byte (digest (bytes_of s))).

End MD5.

(** ** Data model *)

(** A volume of a VM record.  The JSON fields are read at the types the
    inventory service gives them; [None] is a key that is absent or null. *)
Record Volume := mkVolume {
  vol_type : option string;       (* vol.get("type") *)
  vol_installPath : option string (* vol.get("installPath") *)
}.

(** A VM record, as returned by the inventory service. *)
Record VM := mkVM {
  vm_uuid : option string;        (* vm.get("uuid") *)
  vm_name : option string;        (* vm.get("name") *)
  vm_state : option string;       (* vm.get("state") *)
  vm_allVolumes : list Volume     (* vm.get("allVolumes", []) *)
}.

(** The JSON bodies the inventory service answers with. *)
Inductive Body :=
| BodyInventory (uuid : option string)  (* an "inventory" object with a "uuid" *)
| BodyInventories (vms : list VM)       (* an "inventories" list *)
| BodyOther.                            (* any other JSON object *)

(** A [requests.Response]: the status code and the body when it is JSON. *)
Record Response := mkResponse {
  status_code : Z;
  json_body : option Body
}.

(** What a request to the inventory service comes back with, after
    [latency] milliseconds: an exception of [requests], or a response. *)
Inductive HttpReply :=
| HttpRaise (latency : N) (exc : string)
| HttpResponse (latency : N) (resp : Response).

(** A local file: its bytes and its execute permission. *)
Record File := mkFile { f_data : string; f_exec : bool }.

(** What a spawned process comes back with: [subprocess.run] fails to
    spawn it, or it completes with a return code, its captured output, and
    whatever it did to the local files. *)
Inductive ProcReply :=
| ProcRaise (exc : string)
| ProcDone (returncode : Z) (out err : string)
           (effect : gmap string File -> gmap string File).

(** [subprocess.CompletedProcess]. *)
Record CompletedProcess := mkCompleted {
  cp_returncode : Z;
  cp_stdout : string;
  cp_stderr : string
}.

(** The effects the program performs on its collaborators. *)
Inductive Event :=
| EHttp (meth url : string) (headers params : list (string * string))
        (data : option string) (timeout : Z)
| ESleep (secs : Z)
| ERun (cmd : list string) (env : option (gmap string string)).

(** The world of one run.  The clock is in milliseconds.  [http_in],
    [proc_in] and [free_in] are the replies the collaborators will give, in
    the order they are asked; [trace] and [stdout] grow at the end. *)
Record World := mkWorld {
  now : Z;
  environ : gmap string string;
  commands : gset string;
  files : gmap string File;
  free_in : list Z;
  http_in : list HttpReply;
  proc_in : list ProcReply;
  trace : list Event;
  stdout : list string
}.

Definition set_now (t : Z) (w : World) : World :=
  mkWorld t (environ w) (commands w) (files w) (free_in w) (http_in w)
          (proc_in w) (trace w) (stdout w).
Definition set_files (f : gmap string File) (w : World) : World :=
  mkWorld (now w) (environ w) (commands w) f (free_in w) (http_in w)
          (proc_in w) (trace w) (stdout w).
Definition set_free_in (l : list Z) (w : World) : World :=
  mkWorld (now w) (environ w) (commands w) (files w) l (http_in w)
          (proc_in w) (trace w) (stdout w).
Definition set_http_in (l : list HttpReply) (w : World) : World :=
  mkWorld (now w) (environ w) (commands w) (files w) (free_in w) l
          (proc_in w) (trace w) (stdout w).
Definition set_proc_in (l : list ProcReply) (w : World) : World :=
  mkWorld (now w) (environ w) (commands w) (files w) (free_in w) (http_in w)
          l (trace w) (stdout w).
Definition set_trace (l : list Event) (w : World) : World :=
  mkWorld (now w) (environ w) (commands w) (files w) (free_in w) (http_in w)
          (proc_in w) l (stdout w).
Definition set_stdout (l : list string) (w : World) : World :=
  mkWorld (now w) (environ w) (commands w) (files w) (free_in w) (http_in w)
          (proc_in w) (trace w) l.

(** ** The monad of the program *)

(** How a computation ends: it returns, an [Exception] propagates,
    [sys.exit] ends the process, or the model ran out of loop fuel. *)
Inductive Res (A : Type) : Type :=
| Ret (a : A)
| Raise (exc : string)
| Exit (code : Z)
| OutOfFuel.
Arguments Ret {A} a.
Arguments Raise {A} exc.
Arguments Exit {A} code.
Arguments OutOfFuel {A}.

Definition M (A : Type) : Type := World -> Res A * World.

Definition ret {A} (a : A) : M A := fun w => (Ret a, w).

Definition bind {A B} (c : M A) (k : A -> M B) : M B :=
  fun w =>
    match c w with
    | (Ret a, w') => k a w'
    | (Raise e, w') => (Raise e, w')
    | (Exit n, w') => (Exit n, w')
    | (OutOfFuel, w') => (OutOfFuel, w')
    end.

Notation "x <- c ;; k" := (bind c (fun x => k))
  (at level 20, c at level 99, k at level 200, format "'[v' x  <-  c  ;; '/' k ']'").
Notation "c ;; k" := (bind c (fun _ => k))
  (at level 100, k at level 200, right associativity, format "'[v' c  ;; '/' k ']'").

Definition raise {A} (exc : string) : M A := fun w => (Raise exc, w).
Definition sys_exit {A} (code : Z) : M A := fun w => (Exit code, w).
Definition out_of_fuel {A} : M A := fun w => (OutOfFuel, w).

(** [try: c except Exception as exc: h exc].  [SystemExit] is not an
    [Exception] and passes through. *)
Definition try_except {A} (c : M A) (h : string -> M A) : M A :=
  fun w =>
    match c w with
    | (Raise e, w') => h e w'
    | r => r
    end.

(** [if c: body] for a statement. *)
Definition when (c : bool) (body : M unit) : M unit :=
  if c then body else ret tt.

(** ** The primitives of the libraries *)

Definition emit (e : Event) : M unit :=
  fun w => (Ret tt, set_trace (trace w ++ [e]) w).

(** [print(s)]. *)
Definition print (s : string) : M unit :=
  fun w => (Ret tt, set_stdout (stdout w ++ [s]) w).

(** [time.time()]. *)
Definition time_time : M Z := fun w => (Ret (now w), w).

(** The clock moves on by [ms] milliseconds. *)
Definition elapse (ms : Z) : M unit :=
  fun w => (Ret tt, set_now (now w + ms) w).

(** [time.sleep(secs)]. *)
Definition time_sleep (secs : Z) : M unit :=
  if secs <? 0 then raise "ValueError: sleep length must be non-negative"
  else emit (ESleep secs) ;; elapse (1000 * secs).

(** [requests.put] and [requests.get]: the request is sent, and the next
    reply of the service comes back. *)
Definition requests_request (meth url : string)
    (headers params : list (string * string)) (data : option string)
    (timeout : Z) : M Response :=
  emit (EHttp meth url headers params data timeout) ;;
  fun w =>
    match http_in w with
    | [] => (Raise "ConnectionError", w)
    | HttpRaise ms exc :: rest =>
        (Raise exc, set_now (now w + Z.of_N ms) (set_http_in rest w))
    | HttpResponse ms resp :: rest =>
        (Ret resp, set_now (now w + Z.of_N ms) (set_http_in rest w))
    end.

(** [resp.raise_for_status()]. *)
Definition raise_for_status (resp : Response) : M unit :=
  if ((400 <=? status_code resp) && (status_code resp <? 600))%bool
  then raise "HTTPError" else ret tt.

(** [resp.json()]. *)
Definition resp_json (resp : Response) : M Body :=
  match json_body resp with
  | Some b => ret b
  | None => raise "JSONDecodeError"
  end.

(** [subprocess.run(cmd, env=env, check=False, ...)] with captured output. *)
Definition subprocess_run (cmd : list string)
    (env : option (gmap string string)) : M CompletedProcess :=
  emit (ERun cmd env) ;;
  fun w =>
    match proc_in w with
    | [] => (Raise "OSError", w)
    | ProcRaise exc :: rest => (Raise exc, set_proc_in rest w)
    | ProcDone rc out err effect :: rest =>
        (Ret (mkCompleted rc out err),
         set_files (effect (files w)) (set_proc_in rest w))
    end.

(** [shutil.which(cmd) is not None]. *)
Definition shutil_which (cmd : string) : M bool :=
  fun w => (Ret (bool_decide (cmd ∈ commands w)), w).

(** [shutil.disk_usage(path).free]. *)
Definition disk_usage_free (path : Path) : M Z :=
  fun w =>
    match free_in w with
    | [] => (Raise "OSError", w)
    | f :: rest => (Ret f, set_free_in rest w)
    end.

(** [os.environ.copy()]. *)
Definition os_environ_copy : M (gmap string string) :=
  fun w => (Ret (environ w), w).

(** [path.exists()]. *)
Definition path_exists (p : Path) : M bool :=
  fun w => (Ret (bool_decide (is_Some (files w !! to_str p))), w).

(** [path.is_file()]. *)
Definition path_is_file (p : Path) : M bool := path_exists p.

(** [os.access(path, os.X_OK)]. *)
Definition os_access_x (p : Path) : M bool :=
  fun w => (Ret (from_option f_exec false (files w !! to_str p)), w).

(** [path.stat().st_size]. *)
Definition path_stat_size (p : Path) : M Z :=
  fun w =>
    match files w !! to_str p with
    | Some f => (Ret (Z.of_nat (String.length (f_data f))), w)
    | None => (Raise "FileNotFoundError", w)
    end.

(** [path.open("rb")]: the bytes still to be read. *)
Definition path_open_rb (p : Path) : M string :=
  fun w =>
    match files w !! to_str p with
    | Some f => (Ret (f_data f), w)
    | None => (Raise "FileNotFoundError", w)
    end.

(** [path.write_text(text, encoding="utf-8")]: creates or truncates. *)
Definition path_write_text (p : Path) (text : string) : M unit :=
  fun w =>
    let x := from_option f_exec false (files w !! to_str p) in
    (Ret tt, set_files (<[to_str p := mkFile text x]> (files w)) w).

(** [path.unlink()]. *)
Definition path_unlink (p : Path) : M unit :=
  fun w =>
    match files w !! to_str p with
    | Some _ => (Ret tt, set_files (delete (to_str p) (files w)) w)
    | None => (Raise "FileNotFoundError", w)
    end.

(** [fh.read(n)]: up to [n] bytes, and what remains. *)
Fixpoint fh_read (n : N) (fh : string) : string * string :=
  match fh with
  | EmptyString => ("", "")
  | String c r =>
      if N.eqb n 0 then ("", fh)
      else let '(chunk, rest) := fh_read (N.pred n) r in (String c chunk, rest)
  end.

(** [hashlib.md5()] as an object: the bytes fed so far. *)
Module hashlib.
Record md5 := mk_md5 { fed : string }.
Definition new : md5 := mk_md5 "".
Definition update (h : md5) (chunk : string) : md5 := mk_md5 (fed h +:+ chunk).
Definition hexdigest (h : md5) : string := MD5.hexdigest (fed h).
End hashlib.

(** ** The program *)

(** [json.loads] of the output of [qemu-img info --output json]: the
    "actual-size" field when it is there. *)
Record ImageInfo := mkImageInfo { actual_size : option Z }.

(** [argparse.Namespace] of [parse_args]: [product] is [None] when the
    optional positional argument is left out. *)
Record Args := mkArgs {
  a_ip : string;
  a_product : option string;
  a_ssh_pass : string
}.

Record Config := mkConfig {
  cfg_host : string;
  cfg_username : string;
  cfg_password : string;
  cfg_ssh_user : string;
  cfg_ssh_pass : string;
  cfg_workdir : Path;
  cfg_qemu_img : Path;
  cfg_lib_path : option string;
  cfg_min_free_bytes : Z
}.

Record ZStackClient := mkClient {
  c_host : string;
  c_username : string;
  c_password : string;
  session_uuid : option string
}.

Record SSHRunner := mkRunner { ssh_user : string; ssh_pass : string }.

(** [range(lo, hi)]. *)
Definition py_range (lo hi : Z) : list Z :=
  List.map (fun i => lo + Z.of_nat i) (seq 0 (Z.to_nat (hi - lo))).

(** [str(x)] for an [Optional[str]]. *)
Definition show_opt (o : option string) : string := from_option id "None" o.

Section Program.

(** The directory of the script, [Path(__file__).resolve().parent]. *)
Variable WORKDIR : Path.
(** [hashlib.sha512(value.encode("utf-8")).hexdigest()]. *)
Variable sha512_hexdigest : string -> string.
(** [json.loads] on the output of [qemu-img info]; [None] when it raises. *)
Variable json_loads : string -> option ImageInfo.

Definition MIN_FREE_BYTES : Z := 50 * 1024 * 1024 * 1024.
Definition DEFAULT_QEMU_IMG : Path := div (div WORKDIR "bin") "qemu-img".
Definition DEFAULT_LIB_PATH : string := to_str WORKDIR +:+ "/lib:/opt/qemu-lib".
Definition HOST : string := "http://localhost:8080/".
Definition USER_NAME : string := "admin".
Definition USER_PASSWORD : string := "password".

Definition log (msg : string) : M unit := print ("[export_vdi] " +:+ msg).

Definition log_stage (msg : string) : M unit := log ("==== " +:+ msg +:+ " ====").

Definition die {A} (msg : string) : M A :=
  log ("ERROR: " +:+ msg) ;; sys_exit 1.

Definition run_cmd (cmd : list string) (env : option (gmap string string))
    (check : bool) : M CompletedProcess :=
  result <- subprocess_run cmd env ;;
  if (check && negb (cp_returncode result =? 0))%bool then
    let stdout := if nonempty (cp_stdout result) then strip (cp_stdout result) else "" in
    let stderr := if nonempty (cp_stderr result) then strip (cp_stderr result) else "" in
    raise ("command failed: " +:+ join " " cmd +:+ nl +:+ "stdout: " +:+ stdout
           +:+ nl +:+ "stderr: " +:+ stderr)
  else ret result.

Definition Config_init (host username password ssh_user ssh_pass : string)
    (workdir qemu_img : Path) (lib_path : option string)
    (min_free_bytes : Z) : Config :=
  mkConfig (rstrip_slash host) username password ssh_user ssh_pass workdir
           qemu_img lib_path min_free_bytes.

Definition ZStackClient_init (host username password : string) : ZStackClient :=
  mkClient (rstrip_slash host) username password None.

Definition _headers (self : ZStackClient) : M (list (string * string)) :=
  when (negb (truthy (session_uuid self)))
       (die "session uuid is missing, login first") ;;
  ret [("Content-Type", "application/json;charset=UTF-8");
       ("Authorization", "OAuth " +:+ show_opt (session_uuid self))].

Definition sha512_hex (value : string) : string := sha512_hexdigest value.

(** Returns the client with its session set, and the session uuid. *)
Definition login (self : ZStackClient) : M (ZStackClient * option string) :=
  let payload :=
    "{" +:+ dq +:+ "logInByAccount" +:+ dq +:+ ": {" +:+ dq +:+ "password" +:+ dq
    +:+ ": " +:+ dq +:+ sha512_hex (c_password self) +:+ dq +:+ ", " +:+ dq
    +:+ "accountName" +:+ dq +:+ ": " +:+ dq +:+ c_username self +:+ dq +:+ "}}" in
  let url := c_host self +:+ "/zstack/v1/accounts/login" in
  let headers := [("Content-Type", "application/json")] in
  resp <- requests_request "PUT" url headers [] (Some payload) 10 ;;
  raise_for_status resp ;;
  body <- resp_json resp ;;
  match body with
  | BodyInventory uuid =>
      ret (mkClient (c_host self) (c_username self) (c_password self) uuid, uuid)
  | _ => raise "KeyError"
  end.

Definition get_vm_by_ip (self : ZStackClient) (target_ip : string) : M (option VM) :=
  let url := c_host self +:+ "/zstack/v1/vm-instances" in
  let params := [("q", "vmNics.ip=" +:+ target_ip)] in
  headers <- _headers self ;;
  resp <- requests_request "GET" url headers params None 15 ;;
  raise_for_status resp ;;
  data <- resp_json resp ;;
  let inventories := match data with BodyInventories l => l | _ => [] end in
  match inventories with
  | [] => ret None
  | first :: _ => ret (Some first)
  end.

Definition start_vm (self : ZStackClient) (vm_uuid : string) : M unit :=
  let url := c_host self +:+ "/zstack/v1/vm-instances/" +:+ vm_uuid +:+ "/actions" in
  let payload := "{" +:+ dq +:+ "startVmInstance" +:+ dq +:+ ": {}}" in
  headers <- _headers self ;;
  resp <- requests_request "PUT" url headers [] (Some payload) 15 ;;
  raise_for_status resp.

Definition ssh_command (self : SSHRunner) (ip remote_cmd : string) : list string :=
  ["sshpass"; "-p"; ssh_pass self; "ssh"; "-o"; "StrictHostKeyChecking=no";
   "-o"; "UserKnownHostsFile=/dev/null"; ssh_user self +:+ "@" +:+ ip; remote_cmd].

(** The body of the [for attempt in range(1, retries + 1)] loop of
    [SSHRunner.run], over the attempts still to make. *)
Fixpoint SSHRunner_run_loop (self : SSHRunner) (ip remote_cmd : string)
    (retries retry_interval : Z) (attempts : list Z) : M unit :=
  match attempts with
  | [] => ret tt
  | attempt :: rest =>
      returned <-
        try_except
          (run_cmd (ssh_command self ip remote_cmd) None true ;; ret true)
          (fun exc =>
             if attempt <? retries then
               log (remote_cmd +:+ " attempt " +:+ show_Z attempt
                    +:+ " failed, retry in " +:+ show_Z retry_interval +:+ "s: " +:+ exc) ;;
               time_sleep retry_interval ;;
               ret false
             else
               die (remote_cmd +:+ " failed after " +:+ show_Z retries
                    +:+ " attempts: " +:+ exc)) ;;
      if returned then ret tt
      else SSHRunner_run_loop self ip remote_cmd retries retry_interval rest
  end.

(** [SSHRunner.run]; the defaults are [retries = 1], [retry_interval = 30]. *)
Definition SSHRunner_run (self : SSHRunner) (ip remote_cmd : string)
    (retries retry_interval : Z) : M unit :=
  SSHRunner_run_loop self ip remote_cmd retries retry_interval
                     (py_range 1 (retries + 1)).

Fixpoint get_root_install_path_loop (vols : list Volume) : option string :=
  match vols with
  | [] => None
  | vol :: rest =>
      if bool_decide (vol_type vol = Some "Root") then vol_installPath vol
      else get_root_install_path_loop rest
  end.

Definition get_root_install_path (vm : VM) : option string :=
  get_root_install_path_loop (vm_allVolumes vm).

Definition require_command (cmd : string) : M unit :=
  found <- shutil_which cmd ;;
  when (negb found) (die ("missing required command: " +:+ cmd)).

(** The [while time.time() < deadline] loop of [ensure_vm_running];
    [true] when the function returned from inside the loop, [false] when
    the loop ended. *)
Fixpoint ensure_vm_running_loop (fuel : nat) (client : ZStackClient)
    (target_ip : string) (settle_secs deadline : Z) : M bool :=
  match fuel with
  | O => out_of_fuel
  | S fuel' =>
      t <- time_time ;;
      if t <? deadline then
        time_sleep 3 ;;
        vm <- get_vm_by_ip client target_ip ;;
        match vm with
        | None => ensure_vm_running_loop fuel' client target_ip settle_secs deadline
        | Some vm =>
            let state := lower (or_str (vm_state vm) "") in
            if String.eqb state "running" then
              when (negb (settle_secs =? 0)) (time_sleep settle_secs) ;;
              ret true
            else ensure_vm_running_loop fuel' client target_ip settle_secs deadline
        end
      else ret false
  end.

(** [ensure_vm_running]; the defaults are [max_wait = 180] and
    [settle_secs = 20].  The deadline is on the millisecond clock. *)
Definition ensure_vm_running (client : ZStackClient)
    (target_ip vm_uuid initial_state : string) (max_wait settle_secs : Z) : M unit :=
  let state := lower (or_str (Some initial_state) "") in
  if String.eqb state "running" then
    when (negb (settle_secs =? 0)) (time_sleep settle_secs)
  else
    log ("VM state is '" +:+ initial_state +:+ "', attempting start via API") ;;
    start_vm client vm_uuid ;;
    t <- time_time ;;
    let deadline := t + 1000 * max_wait in
    returned <- ensure_vm_running_loop (S (Z.to_nat (max_wait / 3 + 1)))
                  client target_ip settle_secs deadline ;;
    if returned then ret tt
    else die ("VM " +:+ vm_uuid +:+ " did not reach Running state within "
              +:+ show_Z max_wait +:+ "s").

Definition ssh_fstrim (ip : string) (runner : SSHRunner) : M unit :=
  log ("running fstrim on " +:+ ssh_user runner +:+ "@" +:+ ip) ;;
  SSHRunner_run runner ip "fstrim /" 3 30.

Definition ssh_shutdown (ip : string) (runner : SSHRunner) : M unit :=
  log ("shutting down via ssh init 0 on " +:+ ssh_user runner +:+ "@" +:+ ip) ;;
  SSHRunner_run runner ip "init 0" 1 30.

Definition build_qemu_env (lib_path : option string) : M (gmap string string) :=
  env <- os_environ_copy ;;
  if truthy lib_path then
    let lib := show_opt lib_path in
    let existing := env !! "LD_LIBRARY_PATH" in
    ret (<["LD_LIBRARY_PATH" :=
             if negb (truthy existing) then lib
             else lib +:+ ":" +:+ show_opt existing]> env)
  else ret env.

Definition ensure_qemu_available (qemu_img_path : Path)
    (env : gmap string string) : M unit :=
  is_file <- path_is_file qemu_img_path ;;
  when (negb is_file) (die ("qemu-img not found: " +:+ to_str qemu_img_path)) ;;
  x_ok <- os_access_x qemu_img_path ;;
  when (negb x_ok) (die ("qemu-img not executable: " +:+ to_str qemu_img_path)) ;;
  run_cmd [to_str qemu_img_path; "--help"] (Some env) true ;;
  ret tt.

Definition ensure_free_space (path : Path) (required_bytes : Z)
    (label : string) : M unit :=
  free <- disk_usage_free path ;;
  when (free <? required_bytes)
       (die ("not enough free space on mount for " +:+ label +:+ ": "
             +:+ "required " +:+ show_Z required_bytes +:+ " bytes, available "
             +:+ show_Z free +:+ " bytes")).

Definition qemu_img_info (qemu_img_path : Path) (env : gmap string string)
    (image_path : string) : M ImageInfo :=
  result <- run_cmd [to_str qemu_img_path; "info"; "--output"; "json"; image_path]
                    (Some env) true ;;
  match json_loads (cp_stdout result) with
  | Some info => ret info
  | None => raise "JSONDecodeError"
  end.

Definition convert_image (qemu_img_path : Path) (env : gmap string string)
    (src dst src_fmt dst_fmt : string) : M unit :=
  run_cmd [to_str qemu_img_path; "convert"; "-f"; src_fmt; "-O"; dst_fmt; src; dst]
          (Some env) true ;;
  ret tt.

(** The [for chunk in iter(lambda: fh.read(1024 * 1024), b"")] loop. *)
Fixpoint md5_file_loop (fuel : nat) (fh : string) (md5 : hashlib.md5) : M hashlib.md5 :=
  match fuel with
  | O => out_of_fuel
  | S fuel' =>
      let '(chunk, rest) := fh_read (1024 * 1024) fh in
      if nonempty chunk then md5_file_loop fuel' rest (hashlib.update md5 chunk)
      else ret md5
  end.

Definition md5_file (path : Path) : M string :=
  let md5 := hashlib.new in
  fh <- path_open_rb path ;;
  md5 <- md5_file_loop (S (String.length fh)) fh md5 ;;
  ret (hashlib.hexdigest md5).

(** What the first half of [main] hands to the second: the configuration,
    the stripped install path, the product name and the environment of
    the converter. *)
Record Job := mkJob {
  job_cfg : Config;
  job_install_path : string;
  job_product_name : string;
  job_qemu_env : gmap string string
}.

(** [main], from its start to the free-space checks before the export
    (source lines 275 to 334).  An inventory record is a JSON object with
    keys, so [if not vm] is the test for [None]. *)
Definition main_prepare (args : Args) : M Job :=
  let cfg := Config_init HOST USER_NAME USER_PASSWORD "root" (a_ssh_pass args)
                         WORKDIR DEFAULT_QEMU_IMG (Some DEFAULT_LIB_PATH)
                         MIN_FREE_BYTES in
  require_command "ssh" ;;
  require_command "sshpass" ;;
  log_stage "环境准备" ;;
  log ("using workdir: " +:+ to_str (cfg_workdir cfg)) ;;
  log ("using qemu-img: " +:+ to_str (cfg_qemu_img cfg)) ;;
  let client := ZStackClient_init (cfg_host cfg) (cfg_username cfg) (cfg_password cfg) in
  logged <- login client ;;
  let '(client, session_uuid) := logged in
  log ("login success, session uuid: " +:+ show_opt session_uuid) ;;
  log_stage "获取 VM 信息" ;;
  found <- get_vm_by_ip client (a_ip args) ;;
  match found with
  | None => die ("VM with IP " +:+ a_ip args +:+ " not found")
  | Some vm =>
      let vm_uuid := vm_uuid vm in
      let install_path := get_root_install_path vm in
      let vm_state := vm_state vm in
      let product_name := or_str (a_product args) (or_str (vm_name vm) "vm_image") in
      when (negb (truthy vm_uuid) || negb (truthy install_path))%bool
           (die ("VM with IP " +:+ a_ip args +:+ " missing uuid or Root installPath")) ;;
      let vm_uuid := show_opt vm_uuid in
      let install_path := strip (show_opt install_path) in
      log ("found vm uuid: " +:+ vm_uuid) ;;
      log ("Root installPath: " +:+ install_path) ;;
      log ("product name: " +:+ product_name) ;;
      local <- path_exists (of_str install_path) ;;
      when (negb local) (die ("installPath not found locally: " +:+ install_path)) ;;
      log_stage "启动与瘦身" ;;
      ensure_vm_running client (a_ip args) vm_uuid (or_str vm_state "") 180 20 ;;
      let ssh_runner := mkRunner (cfg_ssh_user cfg) (cfg_ssh_pass cfg) in
      ssh_fstrim (a_ip args) ssh_runner ;;
      ssh_shutdown (a_ip args) ssh_runner ;;
      log_stage "镜像导出与转换" ;;
      qemu_env <- build_qemu_env (cfg_lib_path cfg) ;;
      ensure_qemu_available (cfg_qemu_img cfg) qemu_env ;;
      image_info <- qemu_img_info (cfg_qemu_img cfg) qemu_env install_path ;;
      let actual_size := default 0 (actual_size image_info) in
      ensure_free_space (cfg_workdir cfg) (cfg_min_free_bytes cfg)
                        "pre-export check (>=50G)" ;;
      too_small <- (if actual_size =? 0 then ret false
                    else free <- disk_usage_free (cfg_workdir cfg) ;;
                         ret (free <? actual_size)) ;;
      when too_small
           (die "free space is smaller than source image actual size, aborting") ;;
      ret (mkJob cfg install_path product_name qemu_env)
  end.

Definition qcow2_path_of (cfg : Config) (product_name : string) : Path :=
  div (cfg_workdir cfg) (product_name +:+ ".qcow2").

Definition vdi_path_of (cfg : Config) (product_name : string) : Path :=
  div (cfg_workdir cfg) (product_name +:+ ".vdi").

(** [main], from the check of the output paths to its end (source lines
    336 to 363). *)
Definition main_export (job : Job) : M unit :=
  let cfg := job_cfg job in
  let install_path := job_install_path job in
  let product_name := job_product_name job in
  let qemu_env := job_qemu_env job in
  let qcow2_path := qcow2_path_of cfg product_name in
  let vdi_path := vdi_path_of cfg product_name in
  qcow2_exists <- path_exists qcow2_path ;;
  collision <- (if qcow2_exists then ret true else path_exists vdi_path) ;;
  when collision
       (die ("output file already exists: " +:+ to_str qcow2_path +:+ " or "
             +:+ to_str vdi_path)) ;;
  log "exporting to qcow2" ;;
  convert_image (cfg_qemu_img cfg) qemu_env install_path (to_str qcow2_path)
                "qcow2" "qcow2" ;;
  qcow2_size <- path_stat_size qcow2_path ;;
  log ("qcow2 output: " +:+ to_str qcow2_path +:+ " (size: " +:+ show_Z qcow2_size
       +:+ " bytes)") ;;
  ensure_free_space (cfg_workdir cfg) (Z.max qcow2_size (cfg_min_free_bytes cfg))
                    "vdi conversion stage" ;;
  log "converting qcow2 to vdi" ;;
  convert_image (cfg_qemu_img cfg) qemu_env (to_str qcow2_path) (to_str vdi_path)
                "qcow2" "vdi" ;;
  vdi_size <- path_stat_size vdi_path ;;
  log ("vdi output: " +:+ to_str vdi_path +:+ " (size: " +:+ show_Z vdi_size
       +:+ " bytes)") ;;
  log "generating vdi md5" ;;
  vdi_md5 <- md5_file vdi_path ;;
  md5_path <- match with_suffix vdi_path (suffix vdi_path +:+ ".md5") with
              | inr p => ret p
              | inl exc => raise exc
              end ;;
  path_write_text md5_path (vdi_md5 +:+ "  " +:+ name vdi_path +:+ nl) ;;
  log ("md5 saved to " +:+ to_str md5_path) ;;
  try_except
    (path_unlink qcow2_path ;;
     log ("removed intermediate qcow2: " +:+ to_str qcow2_path))
    (fun exc => log ("warn: failed to remove " +:+ to_str qcow2_path +:+ ": " +:+ exc)) ;;
  log "flow completed".

Definition main (args : Args) : M unit :=
  job <- main_prepare args ;;
  main_export job.

End Program.

(** ** The vocabulary of the claims *)

(** A volume tagged as the root volume. *)
Definition is_root (vol : Volume) : bool := bool_decide (vol_type vol = Some "Root").

(** The request [get_vm_by_ip] sends. *)
Definition get_request (self : ZStackClient) (target_ip : string) : Event :=
  EHttp "GET" (c_host self +:+ "/zstack/v1/vm-instances")
        [("Content-Type", "application/json;charset=UTF-8");
         ("Authorization", "OAuth " +:+ show_opt (session_uuid self))]
        [("q", "vmNics.ip=" +:+ target_ip)] None 15.

(** The world once a reply has come back after [ms] milliseconds. *)
Definition answered (ms : N) (rest : list HttpReply) (w : World) : World :=
  set_now (now w + Z.of_N ms) (set_http_in rest w).

(** The request [start_vm] sends: the power-on request. *)
Definition start_request (self : ZStackClient) (vm_uuid : string) : Event :=
  EHttp "PUT" (c_host self +:+ "/zstack/v1/vm-instances/" +:+ vm_uuid +:+ "/actions")
        [("Content-Type", "application/json;charset=UTF-8");
         ("Authorization", "OAuth " +:+ show_opt (session_uuid self))]
        [] (Some ("{" +:+ dq +:+ "startVmInstance" +:+ dq +:+ ": {}}")) 15.

(** The status codes [raise_for_status] raises on. *)
Definition bad_status (st : Z) : bool := ((400 <=? st) && (st <? 600))%bool.

(** The state a VM record reports is "running", read as the program reads it. *)
Definition reports_running (vm : VM) : bool :=
  String.eqb (lower (or_str (vm_state vm) "")) "running".

(** A reply to a poll in which the program sees a running VM. *)
Definition observed_running (r : HttpReply) : bool :=
  match r with
  | HttpResponse _ (mkResponse st (Some (BodyInventories (vm :: _)))) =>
      (negb (bad_status st) && reports_running vm)%bool
  | _ => false
  end.

(** [k] polls: each a sleep of three seconds and then a fetch. *)
Definition polls (self : ZStackClient) (target_ip : string) (k : nat) : list Event :=
  concat (replicate k [ESleep 3; get_request self target_ip]).

(** The settle sleep, when there is one. *)
Definition settle_events (settle_secs : Z) : list Event :=
  if settle_secs =? 0 then [] else [ESleep settle_secs].

(** The world after a sleep of [secs] seconds. *)
Definition slept (secs : Z) (w : World) : World :=
  set_now (now w + 1000 * secs) (set_trace (trace w ++ [ESleep secs]) w).

(** The number of PUT requests among some events. *)
Definition http_puts (evs : list Event) : nat :=
  length (List.filter (fun e => match e with
                                | EHttp meth _ _ _ _ _ => String.eqb meth "PUT"
                                | _ => false
                                end) evs).

(** The line [die] prints when the VM did not reach the running state. *)
Definition timeout_message (vm_uuid : string) (max_wait : Z) : string :=
  "[export_vdi] ERROR: VM " +:+ vm_uuid +:+ " did not reach Running state within "
  +:+ show_Z max_wait +:+ "s".

(** An attempt that fails: the process cannot be spawned, or exits non-zero. *)
Definition proc_fails (p : ProcReply) : bool :=
  match p with
  | ProcRaise _ => true
  | ProcDone rc _ _ _ => negb (rc =? 0)
  end.

(** The durations slept, in order. *)
Definition sleeps (evs : list Event) : list Z :=
  omap (fun e => match e with ESleep s => Some s | _ => None end) evs.

(** [k] failed attempts of [cmd], each followed by a sleep of [t]. *)
Definition retried (cmd : list string) (t : Z) (k : nat) : list Event :=
  concat (replicate k [ERun cmd None; ESleep t]).

(** [lib] put in front of what [LD_LIBRARY_PATH] held. *)
Definition prepended (lib : string) (existing : option string) : string :=
  if truthy existing then lib +:+ ":" +:+ show_opt existing else lib.

(** The environment of the converter: the inherited one with the library
    path in front of [LD_LIBRARY_PATH]. *)
Definition augmented (lib : string) (env : gmap string string) : gmap string string :=
  <["LD_LIBRARY_PATH" := prepended lib (env !! "LD_LIBRARY_PATH")]> env.

(** [runs env0 P c Q]: from a world whose environment is [env0], [c] leaves
    the environment as it is, adds to the trace only events that satisfy
    [P], and returns only values that satisfy [Q]. *)
Definition runs {A} (env0 : gmap string string) (P : Event -> Prop)
    (c : M A) (Q : A -> Prop) : Prop :=
  forall w r w', environ w = env0 -> c w = (r, w') ->
    environ w' = env0 /\
    (exists evs, trace w' = trace w ++ evs /\ Forall P evs) /\
    (forall a, r = Ret a -> Q a).

(** The postcondition that asks nothing. *)
Definition anything {A} : A -> Prop := fun _ => True.

(** Processes are spawned either as ssh commands with the inherited
    environment or with the environment [E]. *)
Definition env_rule (E : gmap string string) (e : Event) : Prop :=
  match e with
  | ERun cmd env => (head cmd = Some "sshpass" /\ env = None) \/ env = Some E
  | _ => True
  end.

(** An outcome that is not a return. *)
Definition not_ret {A} (r : Res A) : Prop :=
  match r with Ret _ => False | _ => True end.

(** The command line of a conversion. *)
Definition convert_event (cfg : Config) (env : gmap string string)
    (src dst src_fmt dst_fmt : string) : Event :=
  ERun [to_str (cfg_qemu_img cfg); "convert"; "-f"; src_fmt; "-O"; dst_fmt; src; dst]
       (Some env).

(** A spawned command that is a conversion. *)
Definition is_convert (e : Event) : bool :=
  match e with
  | ERun (_ :: "convert" :: _) _ => true
  | _ => false
  end.

(** The line [die] prints when an output path exists. *)
Definition collision_message (cfg : Config) (product_name : string) : string :=
  "[export_vdi] ERROR: output file already exists: "
  +:+ to_str (qcow2_path_of cfg product_name) +:+ " or "
  +:+ to_str (vdi_path_of cfg product_name).

(** The line [die] prints when free space is short. *)
Definition space_message (label : string) (required_bytes free : Z) : string :=
  "[export_vdi] ERROR: not enough free space on mount for " +:+ label +:+ ": "
  +:+ "required " +:+ show_Z required_bytes +:+ " bytes, available "
  +:+ show_Z free +:+ " bytes".

(** An extension that keeps a component a component: no slash, and the
    component it ends is neither empty nor ["."]. *)
Definition extension (ext : string) : Prop :=
  has_slash ext = false /\ starts_with_slash ext = false /\
  forall l, keep_part (l +:+ ext) = true.

(** A lowercase hexadecimal digit. *)
Definition is_lower_hex (c : ascii) : bool :=
  let n := nat_of_ascii c in
  (((48 <=? n)%nat && (n <=? 57)%nat) || ((97 <=? n)%nat && (n <=? 102)%nat))%bool.

(** The configuration [main] builds. *)
Definition main_cfg (WORKDIR : Path) (args : Args) : Config :=
  Config_init HOST USER_NAME USER_PASSWORD "root" (a_ssh_pass args) WORKDIR
              (DEFAULT_QEMU_IMG WORKDIR) (Some (DEFAULT_LIB_PATH WORKDIR)) MIN_FREE_BYTES.

(** A request to the inventory service. *)
Definition is_http (e : Event) : Prop :=
  match e with EHttp _ _ _ _ _ _ => True | _ => False end.

(** A reply that logs the client in: a good status and a body with a
    session uuid. *)
Definition good_login (r : HttpReply) : bool :=
  match r with
  | HttpResponse _ (mkResponse st (Some (BodyInventory uuid))) =>
      (negb (bad_status st) && truthy uuid)%bool
  | _ => false
  end.

(** The line [die] prints when the VM record has no uuid or no root
    install path. *)
Definition missing_message (ip : string) : string :=
  "[export_vdi] ERROR: VM with IP " +:+ ip +:+ " missing uuid or Root installPath".

(** ** Concrete runs

    The worlds of two runs in the working directory [/opt/export], used to
    evaluate the program: a stopped VM that is started, polled twice,
    trimmed at the second attempt, shut down and exported; and a VM whose
    record has no root volume. *)

Module Scenario.

Definition workdir : Path := of_str "/opt/export".

(** A stand-in for SHA-512: no claim depends on the digest. *)
Definition sha512 (value : string) : string := "sha512(" +:+ value +:+ ")".

(** [qemu-img info] reports four allocated bytes. *)
Definition json_loads (out : string) : option ImageInfo :=
  Some (mkImageInfo (Some 4)).

Definition args : Args := mkArgs "10.0.0.5" None "letsg0".

Definition volumes : list Volume :=
  [mkVolume (Some "Data") (Some "/data/pool/data1.img");
   mkVolume (Some "Root") (Some "/data/pool/vm1.img");
   mkVolume (Some "Root") (Some "/data/pool/vm1-old.img")].

Definition vm_stopped : VM := mkVM (Some "u-1") (Some "myvm") (Some "Stopped") volumes.
Definition vm_running : VM := mkVM (Some "u-1") (Some "myvm") (Some "Running") volumes.
Definition vm_unnamed : VM := mkVM (Some "u-1") None (Some "Running") volumes.
Definition vm_no_root : VM :=
  mkVM (Some "u-1") (Some "myvm") (Some "Running")
       [mkVolume (Some "Data") (Some "/data/pool/data1.img")].

Definition ok (b : Body) : HttpReply := HttpResponse 5 (mkResponse 200 (Some b)).

Definition client : ZStackClient :=
  mkClient "http://localhost:8080" "admin" "password" (Some "session-1").

Definition runner : SSHRunner := mkRunner "root" "letsg0".

Definition local_files : gmap string File :=
  <["/data/pool/vm1.img" := mkFile "disk" false]>
    (<["/opt/export/bin/qemu-img" := mkFile "elf" true]> ∅).

(** The replies of the spawned processes: fstrim fails once, then all
    succeed; the conversions write the intermediate and the final image. *)
Definition processes : list ProcReply :=
  [ProcDone 255 "" "ssh: connect to host 10.0.0.5: No route to host" id;
   ProcDone 0 "" "" id;
   ProcDone 0 "" "" id;
   ProcDone 0 "usage: qemu-img" "" id;
   ProcDone 0 "{}" "" id;
   ProcDone 0 "" "" (fun f => <["/opt/export/myvm.qcow2" := mkFile "QCOW" false]> f);
   ProcDone 0 "" "" (fun f => <["/opt/export/myvm.vdi" := mkFile "abc" false]> f)].

(** The run that exports [myvm]. *)
Definition world : World :=
  mkWorld 0 (<["LD_LIBRARY_PATH" := "/usr/lib"]> ∅) {["ssh"; "sshpass"]} local_files
          [60000000000; 60000000000; 60000000000]
          [ok (BodyInventory (Some "session-1")); ok (BodyInventories [vm_stopped]);
           ok BodyOther; ok (BodyInventories [vm_stopped]);
           ok (BodyInventories [vm_running])]
          processes [] [].

(** The same run when the final image is already there. *)
Definition world_collision : World :=
  set_files (<["/opt/export/myvm.vdi" := mkFile "old" false]> local_files) world.

(** The run in which the record has no root volume. *)
Definition world_no_root : World :=
  set_http_in [ok (BodyInventory (Some "session-1")); ok (BodyInventories [vm_no_root])]
              world.

(** The run of a VM without a display name, with no product argument. *)
Definition world_unnamed : World :=
  set_http_in [ok (BodyInventory (Some "session-1")); ok (BodyInventories [vm_unnamed])]
              world.

(** The world [ensure_vm_running] starts in: the power-on is accepted,
    the first poll sees the VM stopped, the second sees it running. *)
Definition world_polling : World :=
  set_http_in [ok BodyOther; ok (BodyInventories [vm_stopped]);
               ok (BodyInventories [vm_running])] world.

(** The world of a lookup that matches two records. *)
Definition world_lookup : World :=
  set_http_in [ok (BodyInventories [vm_stopped; vm_running])] world.

(** The world of a command that fails twice and then succeeds. *)
Definition world_retry : World :=
  set_proc_in [ProcDone 255 "" "timed out" id; ProcRaise "OSError";
               ProcDone 0 "" "" id] world.

(** The job of the run that exports [myvm]. *)
Definition job : Job :=
  mkJob (main_cfg workdir args) "/data/pool/vm1.img" "myvm"
        (augmented (DEFAULT_LIB_PATH workdir) (environ world)).

End Scenario.

(** ** The vocabulary of the further properties *)

(** [k] slashes. *)
Fixpoint slashes (k : nat) : string :=
  match k with
  | O => ""
  | S k' => String "/" (slashes k')
  end.

(** The last character of [s] is a slash. *)
Fixpoint ends_with_slash (s : string) : bool :=
  match s with
  | EmptyString => false
  | String c EmptyString => Ascii.eqb c "/"
  | String _ r => ends_with_slash r
  end.

(** The line [die] prints. *)
Definition error_line (msg : string) : string := "[export_vdi] ERROR: " +:+ msg.

(** The world after [lines] have been printed. *)
Definition printed (lines : list string) (w : World) : World :=
  set_stdout (stdout w ++ lines) w.

(** The request [login] sends. *)
Definition login_request (sha512_hexdigest : string -> string)
    (self : ZStackClient) : Event :=
  EHttp "PUT" (c_host self +:+ "/zstack/v1/accounts/login")
        [("Content-Type", "application/json")] []
        (Some ("{" +:+ dq +:+ "logInByAccount" +:+ dq +:+ ": {" +:+ dq +:+ "password" +:+ dq
               +:+ ": " +:+ dq +:+ sha512_hexdigest (c_password self) +:+ dq +:+ ", " +:+ dq
               +:+ "accountName" +:+ dq +:+ ": " +:+ dq +:+ c_username self +:+ dq +:+ "}}"))
        10.

(** The client once its session is [session]. *)
Definition with_session (self : ZStackClient) (session : option string) : ZStackClient :=
  mkClient (c_host self) (c_username self) (c_password self) session.

(** [c] leaves the observation [f] of the world as it found it, however
    it ends. *)
Definition keeps {X A} (f : World -> X) (c : M A) : Prop :=
  forall w, f (snd (c w)) = f w.

(** The text of the [RuntimeError] that [run_cmd] raises. *)
Definition failure_message (cmd : list string) (out err : string) : string :=
  "command failed: " +:+ join " " cmd +:+ nl +:+ "stdout: " +:+ strip out
  +:+ nl +:+ "stderr: " +:+ strip err.

(** The exception a checked run of [cmd] ends with, given the reply of
    the process ([None]: the process cannot be spawned); [None] when the
    run succeeds. *)
Definition attempt_error (cmd : list string) (reply : option ProcReply) : option string :=
  match reply with
  | None => Some "OSError"
  | Some (ProcRaise exc) => Some exc
  | Some (ProcDone rc out err _) =>
      if rc =? 0 then None else Some (failure_message cmd out err)
  end.

(** The world once [cmd] has been spawned and has come back. *)
Definition spawned (cmd : list string) (env : option (gmap string string))
    (w : World) : World :=
  let w1 := set_trace (trace w ++ [ERun cmd env]) w in
  match proc_in w with
  | [] => w1
  | ProcRaise _ :: rest => set_proc_in rest w1
  | ProcDone _ _ _ effect :: rest => set_files (effect (files w)) (set_proc_in rest w1)
  end.

(** The line [SSHRunner.run] prints when it gives up. *)
Definition gave_up_line (remote_cmd : string) (retries : Z) (exc : string) : string :=
  error_line (remote_cmd +:+ " failed after " +:+ show_Z retries +:+ " attempts: " +:+ exc).

(** The line [SSHRunner.run] prints before it tries again. *)
Definition retry_line (remote_cmd : string) (attempt retry_interval : Z)
    (exc : string) : string :=
  "[export_vdi] " +:+ remote_cmd +:+ " attempt " +:+ show_Z attempt
  +:+ " failed, retry in " +:+ show_Z retry_interval +:+ "s: " +:+ exc.

(** The spawn of [remote_cmd] over ssh, as [main] does it. *)
Definition ssh_event (args : Args) (remote_cmd : string) : Event :=
  ERun (ssh_command (mkRunner "root" (a_ssh_pass args)) (a_ip args) remote_cmd) None.

(** The events by which [main] makes sure the VM runs: nothing but the
    settle sleep when it is found running, and otherwise the power-on
    request, [S j] polls and the settle sleep. *)
Definition wake_events (client : ZStackClient) (ip uuid : string)
    (polled : option nat) : list Event :=
  match polled with
  | None => settle_events 20
  | Some j => [start_request client uuid] ++ polls client ip (S j) ++ settle_events 20
  end.

(** The events of the first half of [main] when it hands over to the
    export: the login, the lookup, the waking of the VM, the trim (after
    [k] failed attempts), the shutdown, and the two probes of the
    converter. *)
Definition prepare_events (WORKDIR : Path) (sha512_hexdigest : string -> string)
    (args : Args) (session : option string) (vm : VM) (polled : option nat) (k : nat)
    (env : gmap string string) : list Event :=
  let client0 := ZStackClient_init HOST USER_NAME USER_PASSWORD in
  let client := with_session client0 session in
  let qemu := to_str (DEFAULT_QEMU_IMG WORKDIR) in
  [login_request sha512_hexdigest client0; get_request client (a_ip args)]
  ++ wake_events client (a_ip args) (show_opt (vm_uuid vm)) polled
  ++ retried (ssh_command (mkRunner "root" (a_ssh_pass args)) (a_ip args) "fstrim /") 30 k
  ++ [ssh_event args "fstrim /"; ssh_event args "init 0";
      ERun [qemu; "--help"] (Some env);
      ERun [qemu; "info"; "--output"; "json";
            strip (show_opt (get_root_install_path vm))] (Some env)].

(** ** Runs that go wrong

    Variations of the run that exports [myvm], one for each way the
    program stops short. *)

Module Incidents.
Import Scenario.

(** [sshpass] is not installed. *)
Definition world_no_sshpass : World :=
  mkWorld 0 (environ world) {["ssh"]} local_files (free_in world) (http_in world)
          processes [] [].

(** The login is answered with a null session uuid. *)
Definition world_null_session : World :=
  set_http_in [ok (BodyInventory None)] world.

(** The login is refused. *)
Definition world_refused_login : World :=
  set_http_in [HttpResponse 5 (mkResponse 401 None)] world.

(** No VM has the address. *)
Definition world_empty_lookup : World :=
  set_http_in [ok (BodyInventory (Some "session-1")); ok (BodyInventories [])] world.

(** A lookup that the service refuses, with a record in its body. *)
Definition world_refused_lookup : World :=
  set_http_in [HttpResponse 5 (mkResponse 503 (Some (BodyInventories [vm_running])))] world.

(** The root image is on another host. *)
Definition world_remote_image : World := set_files ∅ world.

(** The first conversion exits with code 1. *)
Definition world_bad_convert : World :=
  set_proc_in (take 5 processes ++ [ProcDone 1 "" "qemu-img: error" id]) world.

(** The disk is full once the intermediate image is written. *)
Definition world_short : World :=
  set_free_in [60000000000; 60000000000; 10] world.

End Incidents.

(** * Verification *)

(** ** Strings and paths *)

Lemma append_cons (x : ascii) (a b : string) : String x a +:+ b = String x (a +:+ b).
Proof. reflexivity. Qed.

Lemma append_assoc (a b c : string) : (a +:+ b) +:+ c = a +:+ (b +:+ c).
Proof. induction a as [|x a IH]; [reflexivity|]. rewrite !append_cons. by rewrite IH. Qed.

Lemma length_append (a b : string) :
  String.length (a +:+ b) = (String.length a + String.length b)%nat.
Proof.
  induction a as [|x a IH]; [reflexivity|]. rewrite append_cons.
  change (S (String.length (a +:+ b)) = S (String.length a + String.length b)).
  by rewrite IH.
Qed.

Lemma append_nil_r (a : string) : a +:+ "" = a.
Proof. induction a as [|x a IH]; [reflexivity|]. rewrite !append_cons. by rewrite IH. Qed.

Lemma substring_append_l (a b : string) :
  substring 0 (String.length a) (a +:+ b) = a.
Proof.
  induction a as [|c a IH]; [by destruct b|]. rewrite append_cons. simpl. by rewrite IH.
Qed.

(** Joining components whose last one is [x]: the text ends with [x]. *)
Lemma join_snoc (l : list string) (x : string) :
  exists pre, join "/" (l ++ [x]) = pre +:+ x /\ forall y, join "/" (l ++ [y]) = pre +:+ y.
Proof.
  induction l as [|a l (pre & IH & IHy)].
  - exists "". split; [reflexivity|]. intros y. reflexivity.
  - exists (a +:+ "/" +:+ pre).
    assert (H : forall y, join "/" ((a :: l) ++ [y]) = (a +:+ "/" +:+ pre) +:+ y).
    { intros y. cbn [app join]. destruct (l ++ [y]) as [|b m] eqn:E.
      { by destruct l. }
      rewrite <- E, IHy, !append_assoc. reflexivity. }
    split; [apply H|exact H].
Qed.

(** The text of a path ends with its last component. *)
Lemma to_str_snoc (root : bool) (l : list string) :
  exists pre, forall x, to_str (mkPath root (l ++ [x])) = pre +:+ x.
Proof.
  destruct (join_snoc l "") as (pre & _ & H).
  exists ((if root then "/" else "") +:+ pre). intros x. unfold to_str. cbn [p_root p_parts].
  destruct (l ++ [x]) as [|b m] eqn:E; [by destruct l|]. rewrite <- E, H.
  destruct root; reflexivity.
Qed.

Lemma to_str_DEFAULT_QEMU_IMG WORKDIR :
  to_str (DEFAULT_QEMU_IMG WORKDIR) <> "sshpass".
Proof.
  unfold DEFAULT_QEMU_IMG.
  change (div (div WORKDIR "bin") "qemu-img")
    with (mkPath (p_root WORKDIR) ((p_parts WORKDIR ++ ["bin"]) ++ ["qemu-img"])).
  destruct (to_str_snoc (p_root WORKDIR) (p_parts WORKDIR ++ ["bin"])) as (pre & H).
  rewrite H. intros E. apply (f_equal String.length) in E.
  rewrite length_append in E. simpl in E. lia.
Qed.

Lemma split_slash_nonempty s : split_slash s <> [].
Proof.
  destruct s as [|c s]; [discriminate|]. simpl.
  destruct (Ascii.eqb c "/"); [discriminate|]. destruct (split_slash s); discriminate.
Qed.

Lemma split_slash_no_slash ext : has_slash ext = false -> split_slash ext = [ext].
Proof.
  induction ext as [|c ext IH]; intros H; [reflexivity|].
  simpl in *. destruct (Ascii.eqb c "/"); [discriminate|]. by rewrite IH.
Qed.

(** Appending an extension that has no slash extends the last piece. *)
Lemma split_slash_append (s ext : string) :
  has_slash ext = false ->
  split_slash (s +:+ ext)
  = removelast (split_slash s) ++ [List.last (split_slash s) "" +:+ ext].
Proof.
  intros Hext. induction s as [|c s IH].
  - change ("" +:+ ext) with ext. by rewrite split_slash_no_slash.
  - rewrite append_cons. cbn [split_slash]. rewrite IH.
    pose proof (split_slash_nonempty s) as Hne.
    destruct (Ascii.eqb c "/").
    + destruct (split_slash s) as [|h t]; [done|]. reflexivity.
    + destruct (split_slash s) as [|h [|h' t]]; [done|reflexivity|reflexivity].
Qed.

Lemma extension_dot (c : ascii) (rest : string) :
  has_slash (String "." (String c rest)) = false ->
  extension (String "." (String c rest)).
Proof.
  intros H. split; [exact H|]. split; [reflexivity|].
  intros l. destruct l as [|a l]; [reflexivity|].
  unfold keep_part. rewrite append_cons. cbn [nonempty andb String.eqb].
  destruct (Ascii.eqb a "."); [|reflexivity].
  destruct l; reflexivity.
Qed.

Lemma extension_qcow2 : extension ".qcow2".
Proof. by apply extension_dot. Qed.

Lemma extension_vdi : extension ".vdi".
Proof. by apply extension_dot. Qed.

Lemma starts_with_slash_append s ext :
  starts_with_slash ext = false ->
  starts_with_slash (s +:+ ext) = starts_with_slash s.
Proof. intros H. destruct s; [exact H|reflexivity]. Qed.

(** The shape of [WORKDIR / (product + ext)]: the same directory for every
    extension, and a last component that ends with the extension. *)
Lemma div_extension (W : Path) (product : string) :
  exists root dir base, forall ext,
    extension ext -> div W (product +:+ ext) = mkPath root (dir ++ [base +:+ ext]).
Proof.
  set (pieces := split_slash product).
  set (dir := List.filter keep_part (removelast pieces)).
  set (base := List.last pieces "").
  assert (Hparts : forall ext, extension ext ->
            p_parts (of_str (product +:+ ext)) = dir ++ [base +:+ ext]).
  { intros ext (Hs & _ & Hk). unfold of_str. cbn [p_parts].
    rewrite split_slash_append by exact Hs. rewrite List.filter_app. cbn [List.filter].
    fold pieces base. rewrite Hk. reflexivity. }
  destruct (starts_with_slash product) eqn:Eroot.
  - exists true, dir, base. intros ext Hext. unfold div.
    assert (Hr : p_root (of_str (product +:+ ext)) = true).
    { cbn [of_str p_root]. rewrite starts_with_slash_append; [exact Eroot|apply Hext]. }
    rewrite Hr. rewrite <- (Hparts ext Hext), <- Hr. by destruct (of_str _).
  - exists (p_root W), (p_parts W ++ dir), base. intros ext Hext. unfold div.
    assert (Hr : p_root (of_str (product +:+ ext)) = false).
    { cbn [of_str p_root]. rewrite starts_with_slash_append; [exact Eroot|apply Hext]. }
    rewrite Hr, (Hparts ext Hext), <- app_assoc. reflexivity.
Qed.

Lemma rsplit_dot_vdi base : rsplit_dot (base +:+ ".vdi") = Some (base, ".vdi").
Proof.
  induction base as [|c base IH]; [reflexivity|].
  rewrite append_cons. cbn [rsplit_dot]. rewrite IH. reflexivity.
Qed.

(** The sidecar path: the name of the final artifact with [".md5"] added. *)
Lemma with_suffix_md5 (root : bool) (dir : list string) (base : string) :
  let vdi := mkPath root (dir ++ [base +:+ ".vdi"]) in
  with_suffix vdi (suffix vdi +:+ ".md5")
  = inr (mkPath root (dir ++ [(base +:+ ".vdi") +:+ ".md5"])).
Proof.
  intros vdi.
  assert (Hname : name vdi = base +:+ ".vdi") by apply last_last.
  assert (Hsuf : suffix vdi = if nonempty base then ".vdi" else "").
  { unfold suffix. rewrite Hname, rsplit_dot_vdi. cbn. by rewrite andb_true_r. }
  unfold with_suffix. rewrite Hsuf, Hname. cbn [p_root p_parts vdi].
  rewrite removelast_last.
  destruct base as [|c base].
  - reflexivity.
  - cbn [nonempty]. cbn -[String.append String.length substring].
    replace (nonempty (String c base +:+ ".vdi")) with true by reflexivity.
    cbn [negb]. rewrite length_append.
    replace (String.length (String c base) + String.length ".vdi" - String.length ".vdi")%nat
      with (String.length (String c base)) by (simpl; lia).
    rewrite substring_append_l, append_assoc. reflexivity.
Qed.

(** ** The MD5 digest *)

Lemma hex_digit_lower d : is_lower_hex (MD5.hex_digit d) = true.
Proof.
  unfold MD5.hex_digit. generalize (Z.to_nat (Z.land d 15)). intros n.
  do 16 (destruct n as [|n]; [reflexivity|]). destruct n; reflexivity.
Qed.

Lemma hexdigest_format (data : string) :
  String.length (MD5.hexdigest data) = 32%nat /\
  Forall (fun c => is_lower_hex c = true) (list_ascii_of_string (MD5.hexdigest data)).
Proof.
  unfold MD5.hexdigest, MD5.digest.
  destruct (MD5.blocks _ _ _) as [[[A B] C] D].
  cbn [MD5.le_bytes seq List.map app flat_map MD5.hex_byte string_of_list_ascii].
  split; [reflexivity|].
  cbn [list_ascii_of_string]. repeat (constructor; [apply hex_digit_lower|]). constructor.
Qed.

Lemma fh_read_split (n : N) (fh : string) :
  fh = fst (fh_read n fh) +:+ snd (fh_read n fh) /\
  (n <> 0%N -> fh <> "" -> nonempty (fst (fh_read n fh)) = true) /\
  (fh = "" -> fst (fh_read n fh) = "").
Proof.
  revert n. induction fh as [|c fh IH]; intros n; [done|].
  cbn [fh_read]. destruct (N.eqb_spec n 0) as [->|Hn].
  - split; [reflexivity|]. split; [done|discriminate].
  - specialize (IH (N.pred n)). destruct (fh_read (N.pred n) fh) as [chunk rest].
    cbn [fst snd] in *. destruct IH as (IH & _). split; [|split; [reflexivity|discriminate]].
    rewrite append_cons. by rewrite <- IH.
Qed.

Lemma md5_file_loop_run (fuel : nat) : forall (fh : string) (md5 : hashlib.md5) (w : World),
  (String.length fh < fuel)%nat ->
  md5_file_loop fuel fh md5 w = (Ret (hashlib.mk_md5 (hashlib.fed md5 +:+ fh)), w).
Proof.
  induction fuel as [|n IH]; intros fh md5 w Hlen; [lia|].
  cbn [md5_file_loop].
  destruct (fh_read_split (1024 * 1024) fh) as (Hsplit & Hsome & Hnone).
  destruct (fh_read (1024 * 1024) fh) as [chunk rest]. cbn [fst snd] in *.
  destruct fh as [|c fh].
  - rewrite Hnone by reflexivity. cbn [nonempty]. rewrite append_nil_r.
    by destruct md5.
  - rewrite Hsome by done. rewrite IH.
    + unfold hashlib.update. cbn [hashlib.fed]. rewrite append_assoc, <- Hsplit. reflexivity.
    + assert (Hc : nonempty chunk = true) by (apply Hsome; done).
      apply (f_equal String.length) in Hsplit. rewrite length_append in Hsplit.
      destruct chunk; [discriminate|]. simpl in *. lia.
Qed.

Lemma md5_file_run (p : Path) (w : World) (f : File) :
  files w !! to_str p = Some f ->
  md5_file p w = (Ret (MD5.hexdigest (f_data f)), w).
Proof.
  intros Hf. unfold md5_file, bind, path_open_rb. rewrite Hf.
  rewrite md5_file_loop_run by lia. reflexivity.
Qed.

(** ** Running the monad *)

Lemma bind_Ret {A B} (c : M A) (k : A -> M B) w b w' :
  bind c k w = (Ret b, w') ->
  exists a w1, c w = (Ret a, w1) /\ k a w1 = (Ret b, w').
Proof.
  unfold bind. destruct (c w) as [[a|e|n|] w1]; try discriminate. eauto.
Qed.

Lemma bind_goes {A B} (c : M A) (k : A -> M B) w a w1 :
  c w = (Ret a, w1) -> bind c k w = k a w1.
Proof. intros Hc. unfold bind. by rewrite Hc. Qed.

(** A run is its outcome and its final world. *)
Lemma run_result {A} (x : Res A * World) (r : Res A) : fst x = r -> x = (r, snd x).
Proof. intros <-. apply surjective_pairing. Qed.

Lemma log_run msg w :
  log msg w = (Ret tt, set_stdout (stdout w ++ ["[export_vdi] " +:+ msg]) w).
Proof. reflexivity. Qed.

Lemma die_run {A} msg w :
  @die A msg w = (Exit 1, set_stdout (stdout w ++ ["[export_vdi] ERROR: " +:+ msg]) w).
Proof. reflexivity. Qed.

Lemma time_sleep_run secs w : 0 <= secs -> time_sleep secs w = (Ret tt, slept secs w).
Proof.
  intros H. unfold time_sleep. destruct (secs <? 0) eqn:E; [lia|]. reflexivity.
Qed.

(** ** The inventory client *)

Lemma get_root_install_path_loop_find vols :
  get_root_install_path_loop vols =
  match List.find is_root vols with Some vol => vol_installPath vol | None => None end.
Proof.
  induction vols as [|vol rest IH]; simpl; [done|].
  unfold is_root at 1. destruct (bool_decide _); auto.
Qed.

Lemma get_root_install_path_loop_app pre vols :
  Forall (fun x => vol_type x <> Some "Root") pre ->
  get_root_install_path_loop (pre ++ vols) = get_root_install_path_loop vols.
Proof.
  induction 1 as [|x pre Hx _ IH]; simpl; [done|].
  rewrite bool_decide_eq_false_2; done.
Qed.

(** C10: [get_root_install_path] scans the volume list in order and returns
    the [installPath] of the first volume whose type is "Root", and [None]
    when no volume has that type; volumes tagged Root further down the list
    are not looked at, so that a second root volume is neither used nor
    refused. *)
Theorem get_root_install_path_first_root (vm : VM) :
  get_root_install_path vm =
    match List.find is_root (vm_allVolumes vm) with
    | Some vol => vol_installPath vol
    | None => None
    end /\
  (forall pre vol post,
      vm_allVolumes vm = pre ++ vol :: post ->
      Forall (fun x => vol_type x <> Some "Root") pre ->
      vol_type vol = Some "Root" ->
      get_root_install_path vm = vol_installPath vol) /\
  (Forall (fun x => vol_type x <> Some "Root") (vm_allVolumes vm) ->
   get_root_install_path vm = None).
Proof.
  unfold get_root_install_path. split; [apply get_root_install_path_loop_find|]. split.
  - intros pre vol post -> Hpre Hvol.
    rewrite get_root_install_path_loop_app by done. simpl.
    rewrite bool_decide_eq_true_2; done.
  - intros Hnone. rewrite <- (app_nil_r (vm_allVolumes vm)).
    rewrite get_root_install_path_loop_app; done.
Qed.

Lemma get_vm_by_ip_cases self ip w :
  truthy (session_uuid self) = true ->
  get_vm_by_ip self ip w =
  let w1 := set_trace (trace w ++ [get_request self ip]) w in
  match http_in w with
  | [] => (Raise "ConnectionError", w1)
  | HttpRaise ms exc :: rest => (Raise exc, answered ms rest w1)
  | HttpResponse ms resp :: rest =>
      if bad_status (status_code resp) then (Raise "HTTPError", answered ms rest w1)
      else match json_body resp with
           | None => (Raise "JSONDecodeError", answered ms rest w1)
           | Some b => (Ret (head (match b with BodyInventories l => l | _ => [] end)),
                        answered ms rest w1)
           end
  end.
Proof.
  intros Hs. unfold get_vm_by_ip, _headers, when, bind. rewrite Hs. simpl.
  unfold requests_request, bind, emit. simpl.
  destruct (http_in w) as [|[ms exc|ms resp] rest]; try reflexivity.
  unfold raise_for_status, bad_status.
  destruct ((400 <=? status_code resp) && (status_code resp <? 600))%bool; [reflexivity|].
  simpl. unfold resp_json. destruct (json_body resp) as [b|]; [|reflexivity].
  simpl. destruct b as [|[|]|]; reflexivity.
Qed.

(** C5: a lookup by IP address that the service answers with a list of
    records returns [None] when the list is empty, without an error, and
    the first record of the list when it has one or more. *)
Theorem get_vm_by_ip_first_or_none (self : ZStackClient) (target_ip : string)
    (w : World) (ms : N) (st : Z) (vms : list VM) (rest : list HttpReply) :
  truthy (session_uuid self) = true ->
  http_in w = HttpResponse ms (mkResponse st (Some (BodyInventories vms))) :: rest ->
  bad_status st = false ->
  get_vm_by_ip self target_ip w
  = (Ret (head vms),
     answered ms rest (set_trace (trace w ++ [get_request self target_ip]) w)) /\
  (vms = [] -> fst (get_vm_by_ip self target_ip w) = Ret None) /\
  (forall first others, vms = first :: others ->
                        fst (get_vm_by_ip self target_ip w) = Ret (Some first)).
Proof.
  intros Hs Hin Hst.
  assert (E : get_vm_by_ip self target_ip w
              = (Ret (head vms),
                 answered ms rest (set_trace (trace w ++ [get_request self target_ip]) w))).
  { rewrite get_vm_by_ip_cases by exact Hs. cbv zeta. rewrite Hin.
    cbn [status_code json_body]. rewrite Hst. reflexivity. }
  split; [exact E|]. rewrite E. split.
  - intros ->. reflexivity.
  - intros first others ->. reflexivity.
Qed.

Lemma get_vm_by_ip_Ret self ip w found w' reply rest :
  get_vm_by_ip self ip w = (Ret found, w') -> http_in w = reply :: rest ->
  truthy (session_uuid self) = true /\
  exists ms resp body,
    reply = HttpResponse ms resp /\ bad_status (status_code resp) = false /\
    json_body resp = Some body /\
    found = head (match body with BodyInventories l => l | _ => [] end).
Proof.
  intros Hrun Hin.
  destruct (truthy (session_uuid self)) eqn:Hs.
  2:{ unfold get_vm_by_ip, bind at 1, _headers, bind at 1, when in Hrun.
      rewrite Hs in Hrun. cbn [negb] in Hrun. rewrite die_run in Hrun. discriminate. }
  split; [reflexivity|].
  rewrite get_vm_by_ip_cases in Hrun by exact Hs. cbv zeta in Hrun. rewrite Hin in Hrun.
  destruct reply as [ms exc|ms resp]; [discriminate|].
  destruct (bad_status (status_code resp)) eqn:Est; [discriminate|].
  destruct (json_body resp) as [body|] eqn:Ebody; [|discriminate].
  injection Hrun as <- _. exists ms, resp, body. auto.
Qed.

Lemma start_vm_cases self uuid w :
  truthy (session_uuid self) = true ->
  start_vm self uuid w =
  let w1 := set_trace (trace w ++ [start_request self uuid]) w in
  match http_in w with
  | [] => (Raise "ConnectionError", w1)
  | HttpRaise ms exc :: rest => (Raise exc, answered ms rest w1)
  | HttpResponse ms resp :: rest =>
      if bad_status (status_code resp) then (Raise "HTTPError", answered ms rest w1)
      else (Ret tt, answered ms rest w1)
  end.
Proof.
  intros Hs. unfold start_vm, _headers, when, bind. rewrite Hs. simpl.
  unfold requests_request, bind, emit. simpl.
  destruct (http_in w) as [|[ms exc|ms resp] rest]; try reflexivity.
  unfold raise_for_status, bad_status.
  destruct ((400 <=? status_code resp) && (status_code resp <? 600))%bool; reflexivity.
Qed.

Lemma login_Ret sha self w client session w' :
  login sha self w = (Ret (client, session), w') ->
  exists reply0 rest, http_in w = reply0 :: rest /\ http_in w' = rest /\
                      session_uuid client = session.
Proof.
  unfold login, bind at 1, requests_request, bind at 1, emit. cbn [http_in set_trace].
  destruct (http_in w) as [|[ms exc|ms resp] rest]; try discriminate.
  unfold bind at 1. destruct (raise_for_status resp _) as [[[]| | |] w2] eqn:Est;
    try discriminate.
  assert (Hw2 : http_in w2 = rest).
  { unfold raise_for_status in Est. destruct (_ && _)%bool; [discriminate|].
    by injection Est as <-. }
  unfold bind at 1, resp_json. destruct (json_body resp) as [[uuid|vms|]|]; try discriminate.
  intros [= <- <- <-]. eauto.
Qed.

(** ** Waiting for the VM to run *)

Lemma polls_S self ip k :
  polls self ip (S k) = [ESleep 3; get_request self ip] ++ polls self ip k.
Proof. reflexivity. Qed.

Lemma settle_run settle w :
  0 <= settle ->
  when (negb (settle =? 0)) (time_sleep settle) w
  = (Ret tt, set_now (now w + (if settle =? 0 then 0 else 1000 * settle))
                     (set_trace (trace w ++ settle_events settle) w)).
Proof.
  intros H. unfold when, settle_events. destruct (settle =? 0) eqn:E; simpl.
  - unfold ret. destruct w; unfold set_now, set_trace; simpl.
    rewrite app_nil_r, Z.add_0_r. reflexivity.
  - unfold time_sleep. destruct (settle <? 0) eqn:E2; [lia|]. reflexivity.
Qed.

Lemma ensure_vm_running_loop_S n client ip settle deadline w :
  ensure_vm_running_loop (S n) client ip settle deadline w =
  if now w <? deadline then
    match get_vm_by_ip client ip (slept 3 w) with
    | (Ret None, w2) => ensure_vm_running_loop n client ip settle deadline w2
    | (Ret (Some vm), w2) =>
        if reports_running vm then
          match when (negb (settle =? 0)) (time_sleep settle) w2 with
          | (Ret _, w3) => (Ret true, w3)
          | (Raise e, w3) => (Raise e, w3)
          | (Exit c, w3) => (Exit c, w3)
          | (OutOfFuel, w3) => (OutOfFuel, w3)
          end
        else ensure_vm_running_loop n client ip settle deadline w2
    | (Raise e, w2) => (Raise e, w2)
    | (Exit c, w2) => (Exit c, w2)
    | (OutOfFuel, w2) => (OutOfFuel, w2)
    end
  else (Ret false, w).
Proof.
  cbn [ensure_vm_running_loop]. unfold bind at 1, time_time.
  destruct (now w <? deadline); [|reflexivity].
  unfold bind at 1. rewrite time_sleep_run by lia.
  unfold bind at 1. destruct (get_vm_by_ip client ip (slept 3 w)) as [[[vm|]| | |] w2];
    try reflexivity.
  unfold reports_running. destruct (String.eqb _ _); [|reflexivity].
  unfold bind. destruct (when _ _ w2) as [[] w3]; reflexivity.
Qed.

Section Loop.
Variables (client : ZStackClient) (target_ip : string) (settle_secs deadline : Z).
Hypothesis Hsession : truthy (session_uuid client) = true.

Lemma ensure_vm_running_loop_spec (fuel : nat) : forall (w : World) r w',
  deadline - now w <= 3000 * (Z.of_nat fuel - 1) -> (0 < fuel)%nat ->
  ensure_vm_running_loop fuel client target_ip settle_secs deadline w = (r, w') ->
  exists (k : nat) (polled : list HttpReply) (tail : list Event),
    trace w' = trace w ++ polls client target_ip k ++ tail /\
    (k = 0%nat \/ now w + 3000 * (Z.of_nat k - 1) < deadline) /\
    now w <= now w' /\
    ((r = Ret true /\ http_in w = polled ++ http_in w' /\ length polled = k /\
      tail = settle_events settle_secs /\ 0 <= settle_secs /\
      exists init last, polled = init ++ [last] /\
        Forall (fun p => observed_running p = false) init /\ observed_running last = true)
     \/ (r = Ret false /\ http_in w = polled ++ http_in w' /\ length polled = k /\
         tail = [] /\ Forall (fun p => observed_running p = false) polled /\
         deadline <= now w')
     \/ ((exists e, r = Raise e) /\ tail = [])).
Proof.
  induction fuel as [|n IH]; intros w r w' Hfuel Hpos Hrun; [lia|].
  rewrite ensure_vm_running_loop_S in Hrun.
  destruct (now w <? deadline) eqn:Et.
  2:{ injection Hrun as <- <-. exists 0%nat, [], []. simpl. rewrite app_nil_r.
      split; [reflexivity|]. split; [auto|]. split; [lia|].
      right; left. repeat split; auto. lia. }
  apply Z.ltb_lt in Et.
  rewrite get_vm_by_ip_cases in Hrun by exact Hsession. cbv zeta in Hrun.
  change (http_in (slept 3 w)) with (http_in w) in Hrun.
  set (w1 := set_trace _ (slept 3 w)) in Hrun.
  assert (Htr : trace w1 = trace w ++ [ESleep 3; get_request client target_ip]).
  { subst w1. simpl. rewrite <- app_assoc. reflexivity. }
  assert (Hnow1 : now w1 = now w + 3000) by reflexivity.
  (* a poll that ends the function with an exception *)
  match goal with |- ?G =>
    assert (Hraise : forall e w2, trace w2 = trace w1 -> now w1 <= now w2 ->
                                  (@Raise bool e, w2) = (r, w') -> G)
  end.
  { intros e w2 Ht2 Hn2 [= <- <-]. exists 1%nat, [], [].
    rewrite Ht2, Htr. split; [reflexivity|]. split; [right; lia|].
    split; [lia|]. right; right. eauto. }
  destruct (http_in w) as [|reply rest] eqn:Ein.
  { eapply Hraise; [| |exact Hrun]; [reflexivity|lia]. }
  destruct reply as [ms exc|ms [st body]].
  { eapply Hraise; [| |exact Hrun]; [reflexivity|simpl; lia]. }
  cbn [status_code json_body] in Hrun.
  set (w3 := answered ms rest w1) in Hrun.
  assert (Htr3 : trace w3 = trace w ++ [ESleep 3; get_request client target_ip])
    by exact Htr.
  assert (Hnow3 : now w + 3000 <= now w3) by (subst w3; simpl; lia).
  assert (Hin3 : http_in w3 = rest) by reflexivity.
  destruct (bad_status st) eqn:Est.
  { eapply Hraise; [| |exact Hrun]; [reflexivity|simpl; lia]. }
  destruct body as [body|].
  2:{ eapply Hraise; [| |exact Hrun]; [reflexivity|simpl; lia]. }
  (* what the recursive call gives, whenever this poll did not see "running" *)
  match goal with |- ?G =>
    assert (Hrec : observed_running (HttpResponse ms (mkResponse st (Some body))) = false ->
                   ensure_vm_running_loop n client target_ip settle_secs deadline w3 = (r, w') ->
                   G)
  end.
  { intros Hobs Hrun'.
    destruct (IH w3 r w') as (k & polled & tail & Htrace & Hk & Hmono & Hcases);
      [lia|lia|exact Hrun'|].
    exists (S k), (HttpResponse ms (mkResponse st (Some body)) :: polled), tail.
    rewrite Htrace, Htr3, polls_S, <- !app_assoc.
    split; [reflexivity|]. split; [right; lia|]. split; [lia|].
    rewrite Hin3 in Hcases.
    destruct Hcases as [(Hr & Hh & Hl & Ht & Hs & init & last & Hp & Hi & Hlast)
                       |[(Hr & Hh & Hl & Ht & Hf & Hd)|(Hr & Ht)]].
    - left. repeat split; auto.
      + rewrite Hh at 1. reflexivity.
      + simpl; lia.
      + exists (HttpResponse ms (mkResponse st (Some body)) :: init), last.
        rewrite Hp. repeat split; auto.
    - right; left. repeat split; auto.
      + rewrite Hh at 1. reflexivity.
      + simpl; lia.
    - right; right. auto. }
  assert (Hbad : ((400 <=? st) && (st <? 600))%bool = false) by exact Est.
  destruct body as [uuid|vms|]; cbn [head] in Hrun.
  1,3: apply Hrec; [simpl; rewrite ?Hbad; reflexivity|exact Hrun].
  destruct vms as [|vm others]; cbn [head] in Hrun.
  { apply Hrec; [reflexivity|exact Hrun]. }
  destruct (reports_running vm) eqn:Erun.
  2:{ apply Hrec; [|exact Hrun]. simpl. rewrite Erun. apply andb_false_r. }
  (* the poll saw "running" *)
  destruct (Z_lt_le_dec settle_secs 0) as [Hneg|Hsettle].
  { unfold when, time_sleep in Hrun.
    destruct (settle_secs =? 0) eqn:E0; [lia|]. cbn [negb] in Hrun.
    destruct (settle_secs <? 0) eqn:E1; [|lia].
    eapply Hraise; [| |exact Hrun]; [reflexivity|simpl; lia]. }
  rewrite settle_run in Hrun by done. clearbody w3. injection Hrun as <- <-.
  exists 1%nat, [HttpResponse ms (mkResponse st (Some (BodyInventories (vm :: others))))],
    (settle_events settle_secs).
  cbn [trace set_now set_trace now http_in]. rewrite Htr3, <- app_assoc.
  split; [reflexivity|]. split; [right; lia|].
  split; [destruct (settle_secs =? 0); lia|].
  left. rewrite Hin3. repeat split; auto.
  exists [], (HttpResponse ms (mkResponse st (Some (BodyInventories (vm :: others))))).
  repeat split; auto. simpl. unfold bad_status. rewrite Hbad, Erun. reflexivity.
Qed.
End Loop.

Lemma http_puts_app a b : http_puts (a ++ b) = (http_puts a + http_puts b)%nat.
Proof. unfold http_puts. rewrite List.filter_app, length_app. reflexivity. Qed.

Lemma http_puts_polls self ip k : http_puts (polls self ip k) = 0%nat.
Proof.
  induction k as [|k IH]; [reflexivity|]. rewrite polls_S, http_puts_app, IH. reflexivity.
Qed.

Lemma http_puts_settle s : http_puts (settle_events s) = 0%nat.
Proof. unfold settle_events. destruct (s =? 0); reflexivity. Qed.


(** ** Remote commands and their retries *)

Lemma py_range_cons lo hi : lo < hi -> py_range lo hi = lo :: py_range (lo + 1) hi.
Proof.
  intros H. unfold py_range.
  replace (Z.to_nat (hi - lo)) with (S (Z.to_nat (hi - (lo + 1)))) by lia.
  cbn [seq List.map]. rewrite <- seq_shift, List.map_map. f_equal; [lia|].
  apply List.map_ext. intros i. lia.
Qed.

Lemma sleeps_app a b : sleeps (a ++ b) = sleeps a ++ sleeps b.
Proof. unfold sleeps. apply omap_app. Qed.

Lemma sleeps_retried cmd t k : sleeps (retried cmd t k) = replicate k t.
Proof.
  induction k as [|k IH]; [reflexivity|].
  change (retried cmd t (S k)) with ([ERun cmd None; ESleep t] ++ retried cmd t k).
  rewrite sleeps_app, IH. reflexivity.
Qed.

Section Retry.
Variables (self : SSHRunner) (ip remote_cmd : string) (retries retry_interval : Z).
Hypothesis Hinterval : 0 <= retry_interval.

Local Notation cmd := (ssh_command self ip remote_cmd).

(** One attempt that fails before the last one: it is logged and slept on. *)
Lemma SSHRunner_run_loop_retry attempt rest p ps w :
  attempt < retries -> proc_fails p = true -> proc_in w = p :: ps ->
  exists w1,
    SSHRunner_run_loop self ip remote_cmd retries retry_interval (attempt :: rest) w
    = SSHRunner_run_loop self ip remote_cmd retries retry_interval rest w1 /\
    trace w1 = trace w ++ [ERun cmd None; ESleep retry_interval] /\
    proc_in w1 = ps.
Proof.
  intros Hlt Hp Hin. cbn [SSHRunner_run_loop]. unfold bind at 1, try_except.
  unfold bind at 1, run_cmd, bind at 1, subprocess_run, bind at 1, emit.
  cbn [proc_in set_trace]. rewrite Hin.
  apply Z.ltb_lt in Hlt. 
  destruct p as [exc|rc out err eff]; simpl in Hp.
  - rewrite Hlt. unfold bind, log, print. rewrite time_sleep_run by exact Hinterval.
    eexists. split; [reflexivity|]. simpl. rewrite <- app_assoc. split; reflexivity.
  - cbn [cp_returncode andb]. rewrite Hp. unfold raise. rewrite Hlt.
    unfold bind, log, print. rewrite time_sleep_run by exact Hinterval.
    eexists. split; [reflexivity|]. simpl. rewrite <- app_assoc. split; reflexivity.
Qed.

(** An attempt that succeeds ends the loop. *)
Lemma SSHRunner_run_loop_success attempt rest p ps w :
  proc_fails p = false -> proc_in w = p :: ps ->
  exists w1,
    SSHRunner_run_loop self ip remote_cmd retries retry_interval (attempt :: rest) w
    = (Ret tt, w1) /\
    trace w1 = trace w ++ [ERun cmd None] /\ proc_in w1 = ps.
Proof.
  intros Hp Hin. cbn [SSHRunner_run_loop]. unfold bind at 1, try_except.
  unfold bind at 1, run_cmd, bind at 1, subprocess_run, bind at 1, emit.
  cbn [proc_in set_trace]. rewrite Hin.
  destruct p as [exc|rc out err eff]; simpl in Hp; [discriminate|].
  cbn [cp_returncode andb]. rewrite Hp. unfold ret.
  eexists. split; [reflexivity|]. split; reflexivity.
Qed.

(** The last attempt, when it fails, ends the process. *)
Lemma SSHRunner_run_loop_give_up attempt rest p ps w :
  retries <= attempt -> proc_fails p = true -> proc_in w = p :: ps ->
  exists w1,
    SSHRunner_run_loop self ip remote_cmd retries retry_interval (attempt :: rest) w
    = (Exit 1, w1) /\
    trace w1 = trace w ++ [ERun cmd None] /\ proc_in w1 = ps.
Proof.
  intros Hge Hp Hin. cbn [SSHRunner_run_loop]. unfold bind at 1, try_except.
  unfold bind at 1, run_cmd, bind at 1, subprocess_run, bind at 1, emit.
  cbn [proc_in set_trace]. rewrite Hin.
  assert (Hlt : (attempt <? retries) = false) by lia.
  destruct p as [exc|rc out err eff]; simpl in Hp.
  - rewrite Hlt. unfold die, bind, log, print, sys_exit.
    eexists. split; [reflexivity|]. split; reflexivity.
  - cbn [cp_returncode andb]. rewrite Hp. unfold raise. rewrite Hlt.
    unfold die, bind, log, print, sys_exit.
    eexists. split; [reflexivity|]. split; reflexivity.
Qed.

Lemma SSHRunner_run_loop_succeeds (fails : list ProcReply) :
  forall (attempt : Z) (ok : ProcReply) (rest : list ProcReply) (w : World),
    attempt + Z.of_nat (length fails) <= retries ->
    Forall (fun p => proc_fails p = true) fails -> proc_fails ok = false ->
    proc_in w = fails ++ ok :: rest ->
    exists w',
      SSHRunner_run_loop self ip remote_cmd retries retry_interval
                         (py_range attempt (retries + 1)) w = (Ret tt, w') /\
      trace w' = trace w ++ retried cmd retry_interval (length fails) ++ [ERun cmd None] /\
      proc_in w' = rest.
Proof.
  induction fails as [|p ps IH]; intros attempt ok rest w Hn Hfails Hok Hin.
  - simpl in Hn. rewrite py_range_cons by lia.
    destruct (SSHRunner_run_loop_success attempt (py_range (attempt + 1) (retries + 1))
                ok rest w Hok Hin) as (w1 & -> & Ht & Hp).
    exists w1. auto.
  - apply Forall_cons in Hfails as [Hp Hps]. simpl in Hn.
    rewrite py_range_cons by lia.
    destruct (SSHRunner_run_loop_retry attempt (py_range (attempt + 1) (retries + 1))
                p (ps ++ ok :: rest) w) as (w1 & -> & Ht & Hin1); [lia|exact Hp|exact Hin|].
    destruct (IH (attempt + 1) ok rest w1) as (w' & -> & Ht' & Hin'); [lia|done..|].
    exists w'. split; [reflexivity|]. split; [|exact Hin'].
    rewrite Ht', Ht. cbn [length]. 
    change (retried cmd retry_interval (S (length ps)))
      with ([ERun cmd None; ESleep retry_interval] ++ retried cmd retry_interval (length ps)).
    rewrite <- !app_assoc. reflexivity.
Qed.

Lemma SSHRunner_run_loop_exhausts (fails : list ProcReply) :
  forall (attempt : Z) (p : ProcReply) (rest : list ProcReply) (w : World),
    attempt + Z.of_nat (length fails) = retries ->
    Forall (fun p => proc_fails p = true) (fails ++ [p]) ->
    proc_in w = fails ++ p :: rest ->
    exists w',
      SSHRunner_run_loop self ip remote_cmd retries retry_interval
                         (py_range attempt (retries + 1)) w = (Exit 1, w') /\
      trace w' = trace w ++ retried cmd retry_interval (length fails) ++ [ERun cmd None] /\
      proc_in w' = rest.
Proof.
  induction fails as [|q ps IH]; intros attempt p rest w Hn Hfails Hin.
  - simpl in Hn. rewrite py_range_cons by lia.
    apply Forall_cons in Hfails as [Hp _].
    destruct (SSHRunner_run_loop_give_up attempt (py_range (attempt + 1) (retries + 1))
                p rest w) as (w1 & -> & Ht & Hp1); [lia|exact Hp|exact Hin|].
    exists w1. auto.
  - simpl in Hfails. apply Forall_cons in Hfails as [Hq Hps]. simpl in Hn.
    rewrite py_range_cons by lia.
    destruct (SSHRunner_run_loop_retry attempt (py_range (attempt + 1) (retries + 1))
                q (ps ++ p :: rest) w) as (w1 & -> & Ht & Hin1); [lia|exact Hq|exact Hin|].
    destruct (IH (attempt + 1) p rest w1) as (w' & -> & Ht' & Hin'); [lia|done..|].
    exists w'. split; [reflexivity|]. split; [|exact Hin'].
    rewrite Ht', Ht. cbn [length].
    change (retried cmd retry_interval (S (length ps)))
      with ([ERun cmd None; ESleep retry_interval] ++ retried cmd retry_interval (length ps)).
    rewrite <- !app_assoc. reflexivity.
Qed.
End Retry.

(** C4: [SSHRunner.run] with a budget of [n] attempts and an interval of
    [t] seconds.  When the first [k < n] attempts fail and the next one
    succeeds, it returns, having slept [t] exactly [k] times.  When all [n]
    attempts fail it ends the process, having slept [n - 1] times: the
    sleeps stand between the failed attempts and none follows the last. *)
Theorem SSHRunner_run_sleeps_between_failures
    (self : SSHRunner) (ip remote_cmd : string) (n t : Z) (w : World)
    (fails : list ProcReply) (last : ProcReply) (rest : list ProcReply) :
  0 <= t ->
  proc_in w = fails ++ last :: rest ->
  Forall (fun p => proc_fails p = true) fails ->
  let cmd := ssh_command self ip remote_cmd in
  let k := length fails in
  let r := fst (SSHRunner_run self ip remote_cmd n t w) in
  let w' := snd (SSHRunner_run self ip remote_cmd n t w) in
  (Z.of_nat k < n -> proc_fails last = false ->
   r = Ret tt /\
   trace w' = trace w ++ retried cmd t k ++ [ERun cmd None] /\
   sleeps (retried cmd t k ++ [ERun cmd None]) = replicate k t) /\
  (Z.of_nat k + 1 = n -> proc_fails last = true ->
   r = Exit 1 /\
   trace w' = trace w ++ retried cmd t k ++ [ERun cmd None] /\
   sleeps (retried cmd t k ++ [ERun cmd None]) = replicate k t).
Proof.
  intros Ht Hin Hfails cmd k r w'.
  assert (Hsl : sleeps (retried cmd t k ++ [ERun cmd None]) = replicate k t).
  { rewrite sleeps_app, sleeps_retried. apply app_nil_r. }
  split.
  - intros Hk Hok.
    destruct (SSHRunner_run_loop_succeeds self ip remote_cmd n t Ht fails 1 last rest w)
      as (w1 & Hrun & Htr & _); [lia|done..|].
    subst r w'. unfold SSHRunner_run. rewrite Hrun. auto.
  - intros Hk Hlast.
    destruct (SSHRunner_run_loop_exhausts self ip remote_cmd n t Ht fails 1 last rest w)
      as (w1 & Hrun & Htr & _); [lia| |done|].
    { apply Forall_app. split; [done|]. constructor; [done|constructor]. }
    subst r w'. unfold SSHRunner_run. rewrite Hrun. auto.
Qed.

(** ** The events of a run *)

Section Runs.
Variables (env0 : gmap string string) (P : Event -> Prop).

Lemma runs_quiet {A} (c : M A) (Q : A -> Prop) :
  (forall w, environ (snd (c w)) = environ w /\ trace (snd (c w)) = trace w) ->
  (forall w a, fst (c w) = Ret a -> Q a) ->
  runs env0 P c Q.
Proof.
  intros Hq HQ w r w' He Hrun. destruct (Hq w) as [H1 H2].
  pose proof (HQ w) as H3. rewrite Hrun in *. simpl in *.
  split; [congruence|]. split; [|exact H3].
  exists []. rewrite app_nil_r. auto.
Qed.

Lemma runs_weaken {A} (c : M A) (Q Q' : A -> Prop) :
  runs env0 P c Q -> (forall a, Q a -> Q' a) -> runs env0 P c Q'.
Proof.
  intros Hc HQ w r w' He Hrun. destruct (Hc w r w' He Hrun) as (H1 & H2 & H3).
  repeat split; auto.
Qed.

Lemma runs_ret {A} (a : A) (Q : A -> Prop) : Q a -> runs env0 P (ret a) Q.
Proof.
  intros HQ. apply runs_quiet; [split; reflexivity|]. intros w b [= <-]. exact HQ.
Qed.

Lemma runs_bind {A B} (c : M A) (k : A -> M B) (Q : A -> Prop) (R : B -> Prop) :
  runs env0 P c Q -> (forall a, Q a -> runs env0 P (k a) R) ->
  runs env0 P (bind c k) R.
Proof.
  intros Hc Hk w r w' He Hrun. unfold bind in Hrun.
  destruct (c w) as [r1 w1] eqn:Ec.
  destruct (Hc w r1 w1 He Ec) as (He1 & (evs1 & Ht1 & HP1) & HQ1).
  destruct r1 as [a|e|n|].
  - destruct (Hk a (HQ1 a eq_refl) w1 r w' He1 Hrun) as (He2 & (evs2 & Ht2 & HP2) & HR).
    split; [exact He2|]. split; [|exact HR].
    exists (evs1 ++ evs2). rewrite Ht2, Ht1, <- app_assoc.
    split; [reflexivity|]. apply Forall_app; auto.
  - injection Hrun as <- <-. split; [exact He1|]. split; [eauto|]. discriminate.
  - injection Hrun as <- <-. split; [exact He1|]. split; [eauto|]. discriminate.
  - injection Hrun as <- <-. split; [exact He1|]. split; [eauto|]. discriminate.
Qed.

Lemma runs_seq {A B} (c : M A) (k : M B) (R : B -> Prop) :
  runs env0 P c anything -> runs env0 P k R -> runs env0 P (bind c (fun _ => k)) R.
Proof. intros Hc Hk. eapply runs_bind; [exact Hc|]. intros _ _. exact Hk. Qed.

Lemma runs_try_except {A} (c : M A) (h : string -> M A) (Q : A -> Prop) :
  runs env0 P c Q -> (forall e, runs env0 P (h e) Q) ->
  runs env0 P (try_except c h) Q.
Proof.
  intros Hc Hh w r w' He Hrun. unfold try_except in Hrun.
  destruct (c w) as [r1 w1] eqn:Ec.
  destruct (Hc w r1 w1 He Ec) as (He1 & (evs1 & Ht1 & HP1) & HQ1).
  destruct r1 as [a|e|n|]; try (injection Hrun as <- <-; split; [exact He1|]; split; eauto).
  destruct (Hh e w1 r w' He1 Hrun) as (He2 & (evs2 & Ht2 & HP2) & HR).
  split; [exact He2|]. split; [|exact HR].
  exists (evs1 ++ evs2). rewrite Ht2, Ht1, <- app_assoc.
  split; [reflexivity|]. apply Forall_app; auto.
Qed.

Lemma runs_emit (e : Event) : P e -> runs env0 P (emit e) anything.
Proof.
  intros HP w r w' He [= <- <-]. split; [exact He|]. split; [|done].
  exists [e]. split; [reflexivity|]. constructor; [exact HP|constructor].
Qed.

Lemma runs_when (c : bool) (body : M unit) :
  runs env0 P body anything -> runs env0 P (when c body) anything.
Proof. intros H. destruct c; [exact H|]. apply runs_ret. done. Qed.

Lemma runs_print s : runs env0 P (print s) anything.
Proof. apply runs_quiet; [split; reflexivity|done]. Qed.

Lemma runs_die {A} msg (Q : A -> Prop) : runs env0 P (die msg) Q.
Proof. apply runs_quiet; [split; reflexivity|]. intros w a. discriminate. Qed.

Lemma runs_raise {A} e (Q : A -> Prop) : runs env0 P (raise e) Q.
Proof. apply runs_quiet; [split; reflexivity|]. intros w a. discriminate. Qed.

Lemma runs_log s : runs env0 P (log s) anything.
Proof. apply runs_print. Qed.

Lemma runs_log_stage s : runs env0 P (log_stage s) anything.
Proof. apply runs_print. Qed.
End Runs.

Section RunsProgram.
Variables (env0 : gmap string string) (P : Event -> Prop).
Hypothesis P_http : forall meth url headers params data timeout,
    P (EHttp meth url headers params data timeout).
Hypothesis P_sleep : forall secs, P (ESleep secs).

Local Ltac quiet := apply runs_quiet; [intros ?; split; reflexivity|intros; exact I].

Lemma runs_time_sleep secs : runs env0 P (time_sleep secs) anything.
Proof.
  unfold time_sleep. destruct (secs <? 0); [apply runs_raise|].
  apply runs_seq; [apply runs_emit, P_sleep|]. quiet.
Qed.

Lemma runs_requests_request meth url headers params data timeout :
  runs env0 P (requests_request meth url headers params data timeout) anything.
Proof.
  unfold requests_request. apply runs_seq; [apply runs_emit, P_http|].
  apply runs_quiet; [|done].
  intros w. destruct (http_in w) as [|[]]; split; reflexivity.
Qed.

Lemma runs_raise_for_status resp : runs env0 P (raise_for_status resp) anything.
Proof.
  unfold raise_for_status. destruct (_ && _)%bool; [apply runs_raise|by apply runs_ret].
Qed.

Lemma runs_resp_json resp : runs env0 P (resp_json resp) anything.
Proof.
  unfold resp_json. destruct (json_body resp); [by apply runs_ret|apply runs_raise].
Qed.

Lemma runs__headers self : runs env0 P (_headers self) anything.
Proof.
  unfold _headers. apply runs_seq; [apply runs_when, runs_die|by apply runs_ret].
Qed.

Lemma runs_login sha self : runs env0 P (login sha self) anything.
Proof.
  unfold login. eapply runs_bind; [apply runs_requests_request|]. intros resp _.
  apply runs_seq; [apply runs_raise_for_status|].
  eapply runs_bind; [apply runs_resp_json|]. intros body _.
  destruct body; first [by apply runs_ret|apply runs_raise].
Qed.

Lemma runs_get_vm_by_ip self ip : runs env0 P (get_vm_by_ip self ip) anything.
Proof.
  unfold get_vm_by_ip. eapply runs_bind; [apply runs__headers|]. intros headers _.
  eapply runs_bind; [apply runs_requests_request|]. intros resp _.
  apply runs_seq; [apply runs_raise_for_status|].
  eapply runs_bind; [apply runs_resp_json|]. intros data _.
  destruct (match data with BodyInventories l => l | _ => [] end); by apply runs_ret.
Qed.

Lemma runs_start_vm self uuid : runs env0 P (start_vm self uuid) anything.
Proof.
  unfold start_vm. eapply runs_bind; [apply runs__headers|]. intros headers _.
  eapply runs_bind; [apply runs_requests_request|]. intros resp _.
  apply runs_raise_for_status.
Qed.

Lemma runs_ensure_vm_running_loop fuel client ip settle deadline :
  runs env0 P (ensure_vm_running_loop fuel client ip settle deadline) anything.
Proof.
  induction fuel as [|n IH]; cbn [ensure_vm_running_loop]; [quiet|].
  eapply runs_bind with (Q := anything); [quiet|]. intros t _.
  destruct (t <? deadline); [|by apply runs_ret].
  apply runs_seq; [apply runs_time_sleep|].
  eapply runs_bind; [apply runs_get_vm_by_ip|]. intros [vm|] _; [|exact IH].
  destruct (String.eqb _ _); [|exact IH].
  apply runs_seq; [apply runs_when, runs_time_sleep|by apply runs_ret].
Qed.

Lemma runs_ensure_vm_running client ip uuid st max_wait settle :
  runs env0 P (ensure_vm_running client ip uuid st max_wait settle) anything.
Proof.
  unfold ensure_vm_running. destruct (String.eqb _ _).
  { apply runs_when, runs_time_sleep. }
  apply runs_seq; [apply runs_log|]. apply runs_seq; [apply runs_start_vm|].
  eapply runs_bind with (Q := anything); [quiet|]. intros t _.
  eapply runs_bind; [apply runs_ensure_vm_running_loop|]. intros [] _;
    [by apply runs_ret|apply runs_die].
Qed.

Lemma runs_subprocess_run cmd env :
  P (ERun cmd env) -> runs env0 P (subprocess_run cmd env) anything.
Proof.
  intros HP. unfold subprocess_run. apply runs_seq; [by apply runs_emit|].
  apply runs_quiet; [|done].
  intros w. destruct (proc_in w) as [|[]]; split; reflexivity.
Qed.

Lemma runs_run_cmd cmd env check :
  P (ERun cmd env) -> runs env0 P (run_cmd cmd env check) anything.
Proof.
  intros HP. unfold run_cmd. eapply runs_bind; [by apply runs_subprocess_run|].
  intros result _. destruct (_ && _)%bool; [apply runs_raise|by apply runs_ret].
Qed.

Lemma runs_SSHRunner_run_loop self ip remote_cmd retries interval attempts :
  P (ERun (ssh_command self ip remote_cmd) None) ->
  runs env0 P (SSHRunner_run_loop self ip remote_cmd retries interval attempts) anything.
Proof.
  intros HP. induction attempts as [|attempt rest IH]; cbn [SSHRunner_run_loop];
    [by apply runs_ret|].
  eapply runs_bind with (Q := anything).
  - apply runs_try_except.
    + apply runs_seq; [by apply runs_run_cmd|by apply runs_ret].
    + intros exc. destruct (attempt <? retries); [|apply runs_die].
      apply runs_seq; [apply runs_log|].
      apply runs_seq; [apply runs_time_sleep|by apply runs_ret].
  - intros [] _; [by apply runs_ret|exact IH].
Qed.

Lemma runs_SSHRunner_run self ip remote_cmd retries interval :
  P (ERun (ssh_command self ip remote_cmd) None) ->
  runs env0 P (SSHRunner_run self ip remote_cmd retries interval) anything.
Proof. apply runs_SSHRunner_run_loop. Qed.

Lemma runs_require_command cmd : runs env0 P (require_command cmd) anything.
Proof.
  unfold require_command. eapply runs_bind with (Q := anything); [quiet|]. intros found _.
  apply runs_when, runs_die.
Qed.

Lemma runs_ensure_free_space path required label :
  runs env0 P (ensure_free_space path required label) anything.
Proof.
  unfold ensure_free_space. eapply runs_bind with (Q := anything).
  - apply runs_quiet; [|done]. intros w. unfold disk_usage_free.
    destruct (free_in w); split; reflexivity.
  - intros free _. apply runs_when, runs_die.
Qed.

Lemma runs_build_qemu_env lib :
  runs env0 P (build_qemu_env lib)
       (fun env => env = if truthy lib then augmented (show_opt lib) env0 else env0).
Proof.
  intros w r w' He Hrun. unfold build_qemu_env, bind, os_environ_copy in Hrun.
  rewrite He in Hrun.
  destruct (truthy lib); injection Hrun as <- <-;
    (split; [exact He|]; split; [exists []; by rewrite app_nil_r|]);
    intros a [= <-]; [|reflexivity].
  unfold augmented, prepended. destruct (truthy (env0 !! "LD_LIBRARY_PATH")); reflexivity.
Qed.
End RunsProgram.

Section RunsMain.
Variables (WORKDIR : Path) (sha512_hexdigest : string -> string)
          (json_loads : string -> option ImageInfo).
Variable env0 : gmap string string.
Variable P : Event -> Prop.

Local Notation E := (augmented (DEFAULT_LIB_PATH WORKDIR) env0).

Hypothesis P_http : forall meth url headers params data timeout,
    P (EHttp meth url headers params data timeout).
Hypothesis P_sleep : forall secs, P (ESleep secs).
Hypothesis P_ssh : forall self ip remote_cmd,
    P (ERun (ssh_command self ip remote_cmd) None).
Hypothesis P_help : forall path, P (ERun [path; "--help"] (Some E)).
Hypothesis P_info : forall path image,
    P (ERun [path; "info"; "--output"; "json"; image] (Some E)).

Local Ltac quiet := apply runs_quiet; [intros ?; split; reflexivity|intros; exact I].
Local Ltac any_bind := eapply runs_bind with (Q := anything).

Lemma DEFAULT_LIB_PATH_truthy : truthy (Some (DEFAULT_LIB_PATH WORKDIR)) = true.
Proof. unfold DEFAULT_LIB_PATH. simpl. destruct (to_str WORKDIR); reflexivity. Qed.

Lemma runs_ensure_qemu_available path :
  runs env0 P (ensure_qemu_available path E) anything.
Proof.
  unfold ensure_qemu_available. any_bind; [quiet|]. intros is_file _.
  apply runs_seq; [apply runs_when, runs_die|].
  any_bind; [quiet|]. intros x_ok _.
  apply runs_seq; [apply runs_when, runs_die|].
  apply runs_seq; [apply runs_run_cmd, P_help|by apply runs_ret].
Qed.

Lemma runs_qemu_img_info path image :
  runs env0 P (qemu_img_info json_loads path E image) anything.
Proof.
  unfold qemu_img_info. any_bind; [apply runs_run_cmd, P_info|]. intros result _.
  destruct (json_loads _); [by apply runs_ret|apply runs_raise].
Qed.

Lemma runs_md5_file_loop fuel fh md5 : runs env0 P (md5_file_loop fuel fh md5) anything.
Proof.
  revert fh md5. induction fuel as [|n IH]; intros fh md5; cbn [md5_file_loop]; [quiet|].
  destruct (fh_read _ fh) as [chunk rest]. destruct (nonempty chunk); [apply IH|].
  by apply runs_ret.
Qed.

Lemma runs_path_stat_size p : runs env0 P (path_stat_size p) anything.
Proof.
  apply runs_quiet; [|done]. intros w. unfold path_stat_size.
  destruct (files w !! to_str p); split; reflexivity.
Qed.

Lemma runs_md5_file p : runs env0 P (md5_file p) anything.
Proof.
  unfold md5_file. any_bind.
  { apply runs_quiet; [|done]. intros w. unfold path_open_rb.
    destruct (files w !! to_str p); split; reflexivity. }
  intros fh _. any_bind; [apply runs_md5_file_loop|]. intros md5 _. by apply runs_ret.
Qed.

Lemma runs_main_prepare args :
  runs env0 P (main_prepare WORKDIR sha512_hexdigest json_loads args)
       (fun job => job_qemu_env job = E /\ job_cfg job = main_cfg WORKDIR args).
Proof.
  unfold main_prepare. cbv zeta.
  apply runs_seq; [apply runs_require_command|].
  apply runs_seq; [apply runs_require_command|].
  do 3 (apply runs_seq; [apply runs_log|]).
  any_bind; [by apply runs_login|]. intros [client session] _.
  do 2 (apply runs_seq; [apply runs_log|]).
  any_bind; [by apply runs_get_vm_by_ip|].
  intros [vm|] _; [|apply runs_die].
  apply runs_seq; [apply runs_when, runs_die|].
  do 3 (apply runs_seq; [apply runs_log|]).
  any_bind; [quiet|]. intros local _.
  apply runs_seq; [apply runs_when, runs_die|].
  apply runs_seq; [apply runs_log|].
  apply runs_seq; [by apply runs_ensure_vm_running|].
  apply runs_seq.
  { unfold ssh_fstrim. apply runs_seq; [apply runs_log|].
    apply runs_SSHRunner_run; [exact P_sleep|apply P_ssh]. }
  apply runs_seq.
  { unfold ssh_shutdown. apply runs_seq; [apply runs_log|].
    apply runs_SSHRunner_run; [exact P_sleep|apply P_ssh]. }
  apply runs_seq; [apply runs_log|].
  eapply runs_bind; [apply runs_build_qemu_env|]. cbv beta. intros qemu_env ->.
  cbn [cfg_lib_path Config_init]. rewrite DEFAULT_LIB_PATH_truthy.
  change (augmented _ env0) with E.
  apply runs_seq; [apply runs_ensure_qemu_available|].
  any_bind; [apply runs_qemu_img_info|]. intros info _.
  apply runs_seq; [apply runs_ensure_free_space|].
  any_bind.
  { destruct (_ =? 0); [by apply runs_ret|]. any_bind; [|intros; by apply runs_ret].
    apply runs_quiet; [|done]. intros w. unfold disk_usage_free.
    destruct (free_in w); split; reflexivity. }
  intros too_small _. apply runs_seq; [apply runs_when, runs_die|].
  apply runs_ret. split; reflexivity.
Qed.

Hypothesis P_convert : forall path src dst src_fmt dst_fmt,
    P (ERun [path; "convert"; "-f"; src_fmt; "-O"; dst_fmt; src; dst] (Some E)).

Lemma runs_convert_image path src dst src_fmt dst_fmt :
  runs env0 P (convert_image path E src dst src_fmt dst_fmt) anything.
Proof.
  unfold convert_image. apply runs_seq; [apply runs_run_cmd, P_convert|by apply runs_ret].
Qed.

Lemma runs_main_export job :
  job_qemu_env job = E ->
  runs env0 P (main_export job) anything.
Proof.
  intros HE. unfold main_export. cbv zeta. rewrite HE.
  any_bind; [quiet|]. intros qcow2_exists _.
  any_bind; [destruct qcow2_exists; [by apply runs_ret|quiet]|]. intros collision _.
  apply runs_seq; [apply runs_when, runs_die|].
  apply runs_seq; [apply runs_log|].
  apply runs_seq; [apply runs_convert_image|].
  any_bind; [apply runs_path_stat_size|]. intros qcow2_size _.
  apply runs_seq; [apply runs_log|].
  apply runs_seq; [apply runs_ensure_free_space|].
  apply runs_seq; [apply runs_log|].
  apply runs_seq; [apply runs_convert_image|].
  any_bind; [apply runs_path_stat_size|]. intros vdi_size _.
  do 2 (apply runs_seq; [apply runs_log|]).
  any_bind; [apply runs_md5_file|]. intros vdi_md5 _.
  any_bind; [destruct (with_suffix _ _); [apply runs_raise|by apply runs_ret]|].
  intros md5_path _.
  apply runs_seq; [quiet|].
  apply runs_seq; [apply runs_log|].
  apply runs_seq; [|apply runs_log].
  apply runs_try_except.
  - apply runs_seq; [|apply runs_log].
    apply runs_quiet; [|done]. intros w. unfold path_unlink.
    destruct (files w !! _); split; reflexivity.
  - intros exc. apply runs_log.
Qed.

Lemma runs_main args :
  runs env0 P (main WORKDIR sha512_hexdigest json_loads args) anything.
Proof.
  unfold main. eapply runs_bind; [apply runs_main_prepare|].
  intros job [HE _]. by apply runs_main_export.
Qed.
End RunsMain.

Lemma env_rule_main WORKDIR sha512_hexdigest json_loads env0 args :
  runs env0 (env_rule (augmented (DEFAULT_LIB_PATH WORKDIR) env0))
       (main WORKDIR sha512_hexdigest json_loads args) anything.
Proof.
  apply runs_main; intros; first [exact I | by left | by right].
Qed.

Lemma not_convert_main_prepare WORKDIR sha512_hexdigest json_loads env0 args :
  runs env0 (fun e => is_convert e = false)
       (main_prepare WORKDIR sha512_hexdigest json_loads args)
       (fun job => job_qemu_env job = augmented (DEFAULT_LIB_PATH WORKDIR) env0 /\
                   job_cfg job = main_cfg WORKDIR args).
Proof. apply runs_main_prepare; intros; reflexivity. Qed.

(** ** The environment of the converter *)

(** C8: [build_qemu_env] leaves the world, and so [os.environ], as it
    found it; with a library path it returns the inherited environment
    with that path put in front of [LD_LIBRARY_PATH]; and every time a run
    of [main] spawns the conversion binary, it does so with that
    environment, the process's own environment being the same at the end of
    the run. *)
Theorem converter_env_prepends_bundled_libs
    (WORKDIR : Path) (sha512_hexdigest : string -> string)
    (json_loads : string -> option ImageInfo) :
  (forall (lib_path : option string) (w : World),
      snd (build_qemu_env lib_path w) = w) /\
  (forall (lib : string) (w : World),
      nonempty lib = true ->
      fst (build_qemu_env (Some lib) w) = Ret (augmented lib (environ w)) /\
      augmented lib (environ w) !! "LD_LIBRARY_PATH"
      = Some (prepended lib (environ w !! "LD_LIBRARY_PATH")) /\
      String.prefix lib (prepended lib (environ w !! "LD_LIBRARY_PATH")) = true) /\
  (forall (args : Args) (w : World) (evs : list Event) (cmd_args : list string)
          (env : option (gmap string string)),
      trace (snd (main WORKDIR sha512_hexdigest json_loads args w)) = trace w ++ evs ->
      In (ERun (to_str (DEFAULT_QEMU_IMG WORKDIR) :: cmd_args) env) evs ->
      env = Some (augmented (DEFAULT_LIB_PATH WORKDIR) (environ w)) /\
      environ (snd (main WORKDIR sha512_hexdigest json_loads args w)) = environ w).
Proof.
  split; [|split].
  - intros lib w. unfold build_qemu_env, bind, os_environ_copy, ret.
    destruct (truthy lib); reflexivity.
  - intros lib w Hlib. split; [|split].
    + unfold build_qemu_env, bind, os_environ_copy, ret. simpl. rewrite Hlib.
      unfold augmented, prepended.
      destruct (truthy (environ w !! "LD_LIBRARY_PATH")); reflexivity.
    + unfold augmented. apply lookup_insert_eq.
    + apply prefix_correct. unfold prepended.
      destruct (truthy _).
      * clear. induction lib as [|c lib IH]; [reflexivity|].
        rewrite append_cons. simpl. by rewrite IH.
      * clear. induction lib as [|c lib IH]; simpl; [reflexivity|]. by rewrite IH.
  - intros args w evs cmd_args env Htrace Hin.
    destruct (main WORKDIR sha512_hexdigest json_loads args w) as [r w'] eqn:Hrun.
    destruct (env_rule_main WORKDIR sha512_hexdigest json_loads (environ w) args w r w'
                eq_refl Hrun) as (Henv & (evs' & Htrace' & HP) & _).
    split; [|exact Henv]. cbn [snd] in Htrace. rewrite Htrace' in Htrace.
    apply app_inv_head in Htrace. subst evs'.
    rewrite List.Forall_forall in HP. specialize (HP _ Hin). cbn in HP.
    destruct HP as [[Hhead _]|HP]; [|exact HP].
    injection Hhead as Hhead. by apply to_str_DEFAULT_QEMU_IMG in Hhead.
Qed.

(** ** The first half of [main] *)

Lemma require_command_Ret cmd w a w' :
  require_command cmd w = (Ret a, w') -> w' = w.
Proof.
  unfold require_command, bind, shutil_which, when.
  destruct (bool_decide _); cbn [negb]; [by intros [= _ <-]|]. rewrite die_run. discriminate.
Qed.

Section Prepared.
Variables (WORKDIR : Path) (sha512_hexdigest : string -> string)
          (json_loads : string -> option ImageInfo).

Lemma main_prepare_located args w job w1 :
  main_prepare WORKDIR sha512_hexdigest json_loads args w = (Ret job, w1) ->
  exists reply0 ms resp rest vm others,
    http_in w = reply0 :: HttpResponse ms resp :: rest /\
    json_body resp = Some (BodyInventories (vm :: others)) /\
    truthy (vm_uuid vm) = true /\
    truthy (get_root_install_path vm) = true /\
    job = mkJob (main_cfg WORKDIR args)
                (strip (show_opt (get_root_install_path vm)))
                (or_str (a_product args) (or_str (vm_name vm) "vm_image"))
                (job_qemu_env job).
Proof.
  intros H. unfold main_prepare in H. cbv zeta in H.
  apply bind_Ret in H as (? & wa & Ha & H). apply require_command_Ret in Ha as ->.
  apply bind_Ret in H as (? & wa & Ha & H). apply require_command_Ret in Ha as ->.
  do 3 (apply bind_Ret in H as (? & ? & [= _ <-] & H)).
  apply bind_Ret in H as ([client session] & w2 & Hlogin & H).
  apply login_Ret in Hlogin as (reply0 & rest0 & Hin0 & Hin2 & Hsession).
  cbn [http_in set_stdout] in Hin0.
  do 2 (apply bind_Ret in H as (? & ? & [= _ <-] & H)).
  apply bind_Ret in H as (found & w3 & Hget & H).
  cbn [http_in set_stdout] in Hget.
  destruct rest0 as [|reply rest].
  { exfalso. rewrite get_vm_by_ip_cases in Hget.
    - cbv zeta in Hget. cbn [http_in set_stdout] in Hget. rewrite Hin2 in Hget. discriminate.
    - destruct (truthy (session_uuid client)) eqn:Hs; [reflexivity|].
      unfold get_vm_by_ip, bind at 1, _headers, bind at 1, when in Hget.
      rewrite Hs in Hget. cbn [negb] in Hget. rewrite die_run in Hget. discriminate. }
  destruct (get_vm_by_ip_Ret _ _ _ _ _ reply rest Hget Hin2)
    as (_ & ms & resp & body & -> & _ & Hbody & ->).
  destruct body as [|[|vm others]|]; cbn [head] in H;
    try (rewrite die_run in H; discriminate).
  exists reply0, ms, resp, rest, vm, others.
  split; [exact Hin0|]. split; [exact Hbody|].
  apply bind_Ret in H as (? & w4 & Hwhen & H).
  destruct (truthy (vm_uuid vm)); cbn [negb orb when] in Hwhen;
    [|rewrite die_run in Hwhen; discriminate].
  destruct (truthy (get_root_install_path vm)); cbn [negb orb when] in Hwhen;
    [|rewrite die_run in Hwhen; discriminate].
  split; [reflexivity|]. split; [reflexivity|].
  repeat (apply bind_Ret in H; destruct H as (? & ? & _ & H)).
  injection H as <- _. reflexivity.
Qed.
End Prepared.


Section Locate.
Variables (WORKDIR : Path) (sha512_hexdigest : string -> string)
          (json_loads : string -> option ImageInfo).

Local Ltac leaf H :=
  unfold raise in H; cbv beta iota in H; injection H as <- <-;
  split; [exact I|]; split; [reflexivity|]; split; [reflexivity|];
  split;
  [ first [ exists []; split; [symmetry; apply app_nil_r|constructor]
          | eexists; split;
            [cbn [trace set_trace set_stdout set_now set_http_in];
             rewrite <- ?app_assoc; reflexivity
            |repeat constructor] ]
  | intros Hssh Hpass Hlogin Hstatus;
    first [ discriminate Hssh | discriminate Hpass | discriminate Hstatus
          | cbn in Hlogin; discriminate Hlogin
          | split; [reflexivity|apply last_last] ] ].

Lemma main_prepare_lacking args w reply0 ms resp rest vm others r w' :
  http_in w = reply0 :: HttpResponse ms resp :: rest ->
  json_body resp = Some (BodyInventories (vm :: others)) ->
  truthy (vm_uuid vm) = false \/ truthy (get_root_install_path vm) = false ->
  main_prepare WORKDIR sha512_hexdigest json_loads args w = (r, w') ->
  not_ret r /\ files w' = files w /\ proc_in w' = proc_in w /\
  (exists evs, trace w' = trace w ++ evs /\ Forall is_http evs) /\
  (bool_decide ("ssh" ∈ commands w) = true ->
   bool_decide ("sshpass" ∈ commands w) = true ->
   good_login reply0 = true -> bad_status (status_code resp) = false ->
   r = Exit 1 /\ List.last (stdout w') "" = missing_message (a_ip args)).
Proof.
  intros Hin Hbody Hlacks H. unfold main_prepare in H. cbv zeta in H.
  unfold log_stage in H.
  (* the required commands *)
  unfold bind at 1, require_command at 1, bind at 1, shutil_which at 1, when in H.
  destruct (bool_decide ("ssh" ∈ commands w)) eqn:Essh; cbn [negb] in H;
    [|rewrite die_run in H; leaf H].
  unfold ret at 1 in H.
  unfold bind at 1, require_command at 1, bind at 1, shutil_which at 1, when in H.
  destruct (bool_decide ("sshpass" ∈ commands w)) eqn:Epass; cbn [negb] in H;
    [|rewrite die_run in H; leaf H].
  unfold ret at 1 in H.
  do 3 (unfold bind at 1 in H; rewrite log_run in H).
  (* the login *)
  unfold bind at 1, login at 1, bind at 1, requests_request at 1, bind at 1, emit at 1 in H.
  cbn [http_in set_trace set_stdout] in H. rewrite Hin in H.
  destruct reply0 as [ms0 exc|ms0 [st0 body0]]; [leaf H|].
  unfold bind at 1, raise_for_status at 1 in H. cbn [status_code] in H.
  fold (bad_status st0) in H.
  destruct body0 as [[uuid|vms|]|]; cbn [good_login];
    (destruct (bad_status st0) eqn:Est0; [leaf H|]);
    unfold ret at 1 in H; unfold bind at 1, resp_json at 1 in H; cbn [json_body] in H;
    try (leaf H).
  unfold ret at 1 in H. cbv beta iota in H. unfold ret at 1 in H. cbv beta iota in H.
  do 2 (unfold bind at 1 in H; rewrite log_run in H).
  (* the lookup *)
  unfold bind at 1 in H.
  destruct (truthy uuid) eqn:Euuid.
  2:{ unfold get_vm_by_ip at 1, bind at 1, _headers at 1, bind at 1, when in H.
      cbn [session_uuid] in H. rewrite Euuid in H. cbn [negb] in H.
      rewrite die_run in H. leaf H. }
  rewrite get_vm_by_ip_cases in H by exact Euuid. cbv zeta in H.
  cbn [http_in set_trace set_stdout set_now set_http_in] in H.
  destruct (bad_status (status_code resp)) eqn:Est; [leaf H|].
  rewrite Hbody in H. cbn [head] in H.
  (* the record lacks its uuid or its root install path *)
  unfold bind at 1 in H.
  assert (Hcond : (negb (truthy (vm_uuid vm)) || negb (truthy (get_root_install_path vm)))%bool
                  = true).
  { destruct Hlacks as [-> | ->]; [reflexivity|apply orb_true_r]. }
  rewrite Hcond in H. cbn [when] in H. rewrite die_run in H. leaf H.
Qed.
End Locate.


(** ** The second half of [main] *)

Lemma main_export_collision (job : Job) (w : World) :
  is_Some (files w !! to_str (qcow2_path_of (job_cfg job) (job_product_name job))) \/
  is_Some (files w !! to_str (vdi_path_of (job_cfg job) (job_product_name job))) ->
  main_export job w
  = (Exit 1, set_stdout (stdout w ++ [collision_message (job_cfg job) (job_product_name job)]) w).
Proof.
  intros Hex. unfold main_export. cbv zeta. unfold bind at 1, path_exists at 1.
  unfold bind at 1.
  set (q := bool_decide (is_Some (files w !! to_str (qcow2_path_of _ _)))).
  assert (Hc : (if q then ret true else path_exists (vdi_path_of (job_cfg job) (job_product_name job))) w
               = (Ret true, w)).
  { subst q. destruct Hex as [Hq|Hv].
    - rewrite bool_decide_eq_true_2 by exact Hq. reflexivity.
    - destruct (bool_decide _); [reflexivity|]. unfold path_exists.
      rewrite bool_decide_eq_true_2 by exact Hv. reflexivity. }
  rewrite Hc. unfold bind at 1. cbn [when]. rewrite die_run. reflexivity.
Qed.

(** C2: when the intermediate path [<product>.qcow2] or the final path
    [<product>.vdi] exists once [main] reaches the check of the output
    paths, the run exits with status 1 and the collision message, no
    conversion has been invoked in the whole run, and the local files are
    those found at the check. *)
Theorem main_aborts_on_existing_output
    (WORKDIR : Path) (sha512_hexdigest : string -> string)
    (json_loads : string -> option ImageInfo)
    (args : Args) (w : World) (job : Job) (w1 : World) :
  main_prepare WORKDIR sha512_hexdigest json_loads args w = (Ret job, w1) ->
  is_Some (files w1 !! to_str (qcow2_path_of (job_cfg job) (job_product_name job))) \/
  is_Some (files w1 !! to_str (vdi_path_of (job_cfg job) (job_product_name job))) ->
  exists w',
    main WORKDIR sha512_hexdigest json_loads args w = (Exit 1, w') /\
    files w' = files w1 /\
    List.last (stdout w') "" = collision_message (job_cfg job) (job_product_name job) /\
    exists evs, trace w' = trace w ++ evs /\ Forall (fun e => is_convert e = false) evs.
Proof.
  intros Hprep Hex. eexists. split.
  { unfold main. rewrite (bind_goes _ _ _ _ _ Hprep). by apply main_export_collision. }
  split; [reflexivity|]. split; [apply last_last|].
  destruct (not_convert_main_prepare WORKDIR sha512_hexdigest json_loads (environ w) args
              w (Ret job) w1 eq_refl Hprep) as (_ & Hevs & _).
  exact Hevs.
Qed.

Lemma ensure_free_space_run path required label w free rest :
  free_in w = free :: rest ->
  ensure_free_space path required label w =
  if free <? required
  then (Exit 1, set_stdout (stdout w ++ [space_message label required free])
                           (set_free_in rest w))
  else (Ret tt, set_free_in rest w).
Proof.
  intros Hin. unfold ensure_free_space, bind, disk_usage_free. rewrite Hin.
  destruct (free <? required); reflexivity.
Qed.

Lemma convert_image_run path env src dst src_fmt dst_fmt w :
  let e := ERun [to_str path; "convert"; "-f"; src_fmt; "-O"; dst_fmt; src; dst]
                (Some env) in
  let w1 := set_trace (trace w ++ [e]) w in
  (exists out err effect rest,
      proc_in w = ProcDone 0 out err effect :: rest /\
      convert_image path env src dst src_fmt dst_fmt w
      = (Ret tt, set_files (effect (files w)) (set_proc_in rest w1))) \/
  (exists exc w2,
      convert_image path env src dst src_fmt dst_fmt w = (Raise exc, w2) /\
      trace w2 = trace w ++ [e] /\ stdout w2 = stdout w).
Proof.
  intros e w1. unfold convert_image, bind, run_cmd, bind, subprocess_run, bind, emit.
  cbn [proc_in set_trace].
  destruct (proc_in w) as [|[exc|rc out err effect] rest].
  - right. eexists _, _. split; [reflexivity|]. split; reflexivity.
  - right. eexists _, _. split; [reflexivity|]. split; reflexivity.
  - cbn [cp_returncode andb]. destruct (rc =? 0) eqn:Erc.
    + apply Z.eqb_eq in Erc. subst rc. left. eexists _, _, _, _. split; reflexivity.
    + right. eexists _, _. split; [reflexivity|]. split; reflexivity.
Qed.

Lemma free_space_checks (job : Job) (w : World) :
  (forall (path : Path) (required free : Z) (label : string) (rest : list Z) (w0 : World),
      free_in w0 = free :: rest ->
      (fst (ensure_free_space path required label w0) = Exit 1 <-> free < required) /\
      (fst (ensure_free_space path required label w0) = Ret tt <-> required <= free)) /\
  (forall evs : list Event,
      let cfg := job_cfg job in
      let qcow2 := to_str (qcow2_path_of cfg (job_product_name job)) in
      let vdi := to_str (vdi_path_of cfg (job_product_name job)) in
      trace (snd (main_export job w)) = trace w ++ evs ->
      In (convert_event cfg (job_qemu_env job) qcow2 vdi "qcow2" "vdi") evs ->
      exists out err effect procs intermediate free frees,
        proc_in w = ProcDone 0 out err effect :: procs /\
        effect (files w) !! qcow2 = Some intermediate /\
        free_in w = free :: frees /\
        Z.max (Z.of_nat (String.length (f_data intermediate))) (cfg_min_free_bytes cfg)
        <= free).
Proof.
  split.
  { intros path required free label rest w0 Hin.
    rewrite (ensure_free_space_run _ _ _ _ _ _ Hin).
    destruct (free <? required) eqn:E; cbn [fst]; split; split; intros H;
      try discriminate; try lia; reflexivity. }
  intros evs cfg qcow2 vdi Htrace Hin.
  destruct (main_export job w) as [r w'] eqn:Hrun. cbn [snd] in Htrace.
  (* the runs that stop before the second conversion *)
  assert (Hstop : forall evs0, trace w' = trace w ++ evs0 ->
            ~ In (convert_event cfg (job_qemu_env job) qcow2 vdi "qcow2" "vdi") evs0 -> False).
  { intros evs0 Ht Hnot. rewrite Ht in Htrace. apply app_inv_head in Htrace.
    subst evs0. contradiction. }
  unfold main_export in Hrun. cbv zeta in Hrun. fold cfg qcow2 vdi in Hrun.
  unfold bind at 1, path_exists at 1 in Hrun. unfold bind at 1 in Hrun.
  assert (Hc : exists b,
             (if bool_decide (is_Some (files w !! to_str (qcow2_path_of cfg (job_product_name job))))
              then ret true else path_exists (vdi_path_of cfg (job_product_name job))) w
             = (Ret b, w))
    by (destruct (bool_decide _); eexists; reflexivity).
  destruct Hc as [collision Hc]. rewrite Hc in Hrun. unfold bind at 1 in Hrun.
  destruct collision; cbn [when] in Hrun.
  { rewrite die_run in Hrun. injection Hrun as <- <-. exfalso.
    apply (Hstop []); [by rewrite app_nil_r|]. intros []. }
  unfold ret at 1 in Hrun. unfold bind at 1 in Hrun. rewrite log_run in Hrun.
  unfold bind at 1 in Hrun.
  match type of Hrun with context [convert_image ?p ?env ?src ?dst ?sf ?df ?w0] =>
    destruct (convert_image_run p env src dst sf df w0)
      as [(out & err & effect & procs & Hproc & Hconv)|(exc & w2 & Hconv & Ht2 & _)];
    rewrite Hconv in Hrun end.
  2:{ injection Hrun as <- <-. exfalso. eapply Hstop; [exact Ht2|].
      intros [[=]|[]]. }
  cbn [proc_in set_stdout] in Hproc. cbv beta iota in Hrun. unfold bind at 1 in Hrun.
  match type of Hrun with context [path_stat_size _ ?w0] => set (w3 := w0) in Hrun end.
  assert (Ht3 : trace w3 = trace w ++
            [ERun [to_str (cfg_qemu_img cfg); "convert"; "-f"; "qcow2"; "-O"; "qcow2";
                   job_install_path job; qcow2] (Some (job_qemu_env job))]) by reflexivity.
  assert (Hf3 : files w3 = effect (files w)) by reflexivity.
  assert (Hfree3 : free_in w3 = free_in w) by reflexivity.
  clearbody w3.
  unfold path_stat_size at 1 in Hrun. fold qcow2 in Hrun. rewrite Hf3 in Hrun.
  destruct (effect (files w) !! qcow2) as [intermediate|] eqn:Eq.
  2:{ injection Hrun as <- <-. exfalso. eapply Hstop; [exact Ht3|]. intros [[=]|[]]. }
  unfold bind at 1 in Hrun. rewrite log_run in Hrun. unfold bind at 1 in Hrun.
  match type of Hrun with context [ensure_free_space _ _ _ ?w0] => set (w4 := w0) in Hrun end.
  assert (Ht4 : trace w4 = trace w3) by reflexivity.
  assert (Hfree4 : free_in w4 = free_in w) by exact Hfree3.
  clearbody w4.
  destruct (free_in w) as [|free frees] eqn:Efree.
  { unfold ensure_free_space, bind at 1, disk_usage_free in Hrun. rewrite Hfree4 in Hrun.
    injection Hrun as <- <-. exfalso. eapply Hstop; [by rewrite Ht4, Ht3|]. intros [[=]|[]]. }
  rewrite (ensure_free_space_run _ _ _ _ _ _ Hfree4) in Hrun.
  destruct (free <? _) eqn:Elt.
  { injection Hrun as <- <-. exfalso. eapply Hstop; [cbn [trace set_stdout set_free_in]; by rewrite Ht4, Ht3|].
    intros [[=]|[]]. }
  exists out, err, effect, procs, intermediate, free, frees.
  repeat split; auto. lia.
Qed.


Lemma main_export_success (job : Job) (w w' : World) :
  main_export job w = (Ret tt, w') ->
  let vdi := vdi_path_of (job_cfg job) (job_product_name job) in
  exists final sidecar,
    files w' !! to_str vdi = Some final /\
    files w' !! (to_str vdi +:+ ".md5") = Some sidecar /\
    f_data sidecar = MD5.hexdigest (f_data final) +:+ "  " +:+ name vdi +:+ nl /\
    files w' !! to_str (qcow2_path_of (job_cfg job) (job_product_name job)) = None.
Proof.
  intros Hrun vdi. unfold main_export in Hrun. cbv zeta in Hrun. fold vdi in Hrun.
  unfold vdi, vdi_path_of, qcow2_path_of in *.
  destruct (div_extension (cfg_workdir (job_cfg job)) (job_product_name job))
    as (root & dir & base & Hdiv).
  rewrite (Hdiv _ extension_vdi), (Hdiv _ extension_qcow2) in *. clear Hdiv vdi.
  destruct (to_str_snoc root dir) as (pre & Hstr).
  assert (Hname : name (mkPath root (dir ++ [base +:+ ".vdi"])) = base +:+ ".vdi")
    by apply last_last.
  rewrite with_suffix_md5, Hname in Hrun. rewrite Hname.
  rewrite !Hstr in *.
  set (qcow2 := pre +:+ base +:+ ".qcow2") in *.
  set (vdi := pre +:+ base +:+ ".vdi") in *.
  assert (Hmd5 : pre +:+ (base +:+ ".vdi") +:+ ".md5" = vdi +:+ ".md5").
  { unfold vdi. by rewrite !append_assoc. }
  assert (Hqv : qcow2 <> vdi).
  { unfold qcow2, vdi. intros E. do 2 apply String.app_inj in E. discriminate. }
  assert (Hqm : qcow2 <> vdi +:+ ".md5").
  { unfold qcow2, vdi. rewrite !append_assoc. intros E.
    do 2 apply String.app_inj in E. discriminate. }
  assert (Hvm : vdi <> vdi +:+ ".md5").
  { intros E. apply (f_equal String.length) in E. rewrite length_append in E.
    simpl in E. lia. }
  (* the check of the output paths *)
  unfold bind at 1, path_exists at 1 in Hrun. unfold bind at 1 in Hrun.
  rewrite Hstr in Hrun. fold qcow2 in Hrun.
  assert (Hc : exists b,
             (if bool_decide (is_Some (files w !! qcow2))
              then ret true else path_exists (mkPath root (dir ++ [base +:+ ".vdi"]))) w
             = (Ret b, w))
    by (destruct (bool_decide (is_Some (files w !! qcow2))); eexists; reflexivity).
  destruct Hc as [collision Hc]. rewrite Hc in Hrun. unfold bind at 1 in Hrun.
  destruct collision; cbn [when] in Hrun; [discriminate|].
  unfold ret at 1 in Hrun. unfold bind at 1 in Hrun. rewrite log_run in Hrun.
  (* the first conversion *)
  unfold bind at 1 in Hrun.
  match type of Hrun with context [convert_image ?p ?env ?src ?dst ?sf ?df ?w0] =>
    destruct (convert_image_run p env src dst sf df w0)
      as [(out & err & effect & procs & _ & Hconv)|(exc & w2 & Hconv & _)];
    rewrite Hconv in Hrun; clear Hconv end; [|discriminate].
  cbv beta iota in Hrun. unfold bind at 1, path_stat_size at 1 in Hrun.
  match type of Hrun with context [files ?w0 !! _] => destruct (files w0 !! _) end;
    [|discriminate].
  unfold bind at 1 in Hrun. rewrite log_run in Hrun. unfold bind at 1 in Hrun.
  match type of Hrun with context [ensure_free_space ?p ?r ?l ?w0] =>
    destruct (ensure_free_space p r l w0) as [[[]| | |] w3] eqn:Espace end;
    try discriminate.
  clear Espace.
  unfold bind at 1 in Hrun. rewrite log_run in Hrun.
  (* the second conversion *)
  unfold bind at 1 in Hrun.
  match type of Hrun with context [convert_image ?p ?env ?src ?dst ?sf ?df ?w0] =>
    destruct (convert_image_run p env src dst sf df w0)
      as [(out' & err' & effect' & procs' & _ & Hconv)|(exc & w2 & Hconv & _)];
    rewrite Hconv in Hrun; clear Hconv end; [|discriminate].
  cbv beta iota in Hrun. unfold bind at 1 in Hrun.
  match type of Hrun with context [path_stat_size _ ?w0] => set (w4 := w0) in Hrun end.
  clearbody w4.
  unfold path_stat_size at 1 in Hrun. rewrite Hstr in Hrun. fold vdi in Hrun.
  destruct (files w4 !! vdi) as [final|] eqn:Efinal; [|discriminate].
  unfold bind at 1 in Hrun. rewrite log_run in Hrun.
  unfold bind at 1 in Hrun. rewrite log_run in Hrun.
  (* the digest and the sidecar *)
  unfold bind at 1 in Hrun.
  rewrite (md5_file_run _ _ final) in Hrun by (rewrite Hstr; exact Efinal).
  unfold bind at 1, ret at 1 in Hrun. unfold bind at 1, path_write_text at 1 in Hrun.
  rewrite Hstr, Hmd5 in Hrun. cbn [files set_stdout] in Hrun.
  unfold bind at 1 in Hrun. rewrite log_run in Hrun.
  (* the clean-up *)
  unfold bind at 1, try_except, bind at 1, path_unlink in Hrun.
  cbn [files set_stdout set_files] in Hrun. rewrite Hstr in Hrun. fold qcow2 in Hrun.
  set (text := MD5.hexdigest (f_data final) +:+ "  " +:+ (base +:+ ".vdi") +:+ nl) in *.
  set (x := from_option f_exec false (files w4 !! (vdi +:+ ".md5"))) in *.
  destruct (<[vdi +:+ ".md5" := mkFile text x]> (files w4) !! qcow2) as [old|] eqn:Eold.
  - rewrite !log_run in Hrun. injection Hrun as <-.
    cbn [files set_stdout set_files].
    exists final, (mkFile text x).
    rewrite !lookup_delete_ne, lookup_insert_ne, lookup_insert_eq, lookup_delete_eq by done.
    auto.
  - rewrite !log_run in Hrun. injection Hrun as <-.
    cbn [files set_stdout set_files].
    exists final, (mkFile text x).
    rewrite lookup_insert_ne, lookup_insert_eq by done. auto.
Qed.

(** C7: after a successful run the file [<final-name>.md5] next to the
    final image holds the MD5 digest of the final image in 32 lowercase
    hexadecimal digits, two spaces, the name of the final image and a line
    feed; computing the digest of the final image again gives the digest
    the sidecar records. *)
Theorem md5_sidecar_records_digest
    (WORKDIR : Path) (sha512_hexdigest : string -> string)
    (json_loads : string -> option ImageInfo)
    (args : Args) (w w' : World) :
  main WORKDIR sha512_hexdigest json_loads args w = (Ret tt, w') ->
  exists (job : Job) (w1 : World) (final sidecar : File),
    main_prepare WORKDIR sha512_hexdigest json_loads args w = (Ret job, w1) /\
    let vdi := vdi_path_of (job_cfg job) (job_product_name job) in
    let digest := MD5.hexdigest (f_data final) in
    files w' !! to_str vdi = Some final /\
    files w' !! (to_str vdi +:+ ".md5") = Some sidecar /\
    f_data sidecar = digest +:+ "  " +:+ name vdi +:+ nl /\
    String.length digest = 32%nat /\
    Forall (fun c => is_lower_hex c = true) (list_ascii_of_string digest) /\
    md5_file vdi w' = (Ret (substring 0 32 (f_data sidecar)), w').
Proof.
  intros Hrun. unfold main in Hrun. apply bind_Ret in Hrun as (job & w1 & Hprep & Hexp).
  exists job, w1.
  apply main_export_success in Hexp as (final & sidecar & Hfinal & Hside & Hdata & _).
  exists final, sidecar. split; [exact Hprep|]. cbv zeta.
  destruct (hexdigest_format (f_data final)) as [Hlen Hhex].
  repeat split; auto.
  rewrite (md5_file_run _ _ _ Hfinal), Hdata, <- Hlen, substring_append_l. reflexivity.
Qed.

(** * Further properties *)

(** ** What a computation leaves alone *)

Lemma keeps_run {X A} (f : World -> X) (c : M A) w r w' :
  keeps f c -> c w = (r, w') -> f w' = f w.
Proof. intros Hc Hrun. specialize (Hc w). rewrite Hrun in Hc. exact Hc. Qed.

Lemma keeps_ret {X A} (f : World -> X) (a : A) : keeps f (ret a).
Proof. intros w. reflexivity. Qed.

Lemma keeps_raise {X A} (f : World -> X) e : keeps f (@raise A e).
Proof. intros w. reflexivity. Qed.

Lemma keeps_bind {X A B} (f : World -> X) (c : M A) (k : A -> M B) :
  keeps f c -> (forall a, keeps f (k a)) -> keeps f (bind c k).
Proof.
  intros Hc Hk w. unfold bind. specialize (Hc w).
  destruct (c w) as [[a|e|n|] w1]; cbn [snd] in *; try exact Hc.
  rewrite (Hk a w1). exact Hc.
Qed.

Lemma keeps_seq {X A B} (f : World -> X) (c : M A) (k : M B) :
  keeps f c -> keeps f k -> keeps f (bind c (fun _ => k)).
Proof. intros Hc Hk. apply keeps_bind; [exact Hc|intros _; exact Hk]. Qed.

Lemma keeps_try_except {X A} (f : World -> X) (c : M A) (h : string -> M A) :
  keeps f c -> (forall e, keeps f (h e)) -> keeps f (try_except c h).
Proof.
  intros Hc Hh w. unfold try_except. specialize (Hc w).
  destruct (c w) as [[a|e|n|] w1]; cbn [snd] in *; try exact Hc.
  rewrite (Hh e w1). exact Hc.
Qed.

Lemma keeps_when {X} (f : World -> X) (b : bool) (body : M unit) :
  keeps f body -> keeps f (when b body).
Proof. intros H. destruct b; [exact H|apply keeps_ret]. Qed.

Section Keeps.
Context {X : Type} (f : World -> X).
Hypothesis f_trace : forall l w, f (set_trace l w) = f w.
Hypothesis f_stdout : forall l w, f (set_stdout l w) = f w.
Hypothesis f_now : forall t w, f (set_now t w) = f w.

Lemma keeps_log msg : keeps f (log msg).
Proof. intros w. apply f_stdout. Qed.

Lemma keeps_die {A} msg : keeps f (@die A msg).
Proof. intros w. apply f_stdout. Qed.

Lemma keeps_time_sleep secs : keeps f (time_sleep secs).
Proof.
  intros w. unfold time_sleep. destruct (secs <? 0); [reflexivity|].
  cbn. rewrite f_now. apply f_trace.
Qed.

Lemma keeps_require_command cmd : keeps f (require_command cmd).
Proof.
  apply keeps_bind; [intros w; reflexivity|]. intros found. apply keeps_when, keeps_die.
Qed.

Lemma keeps__headers self : keeps f (_headers self).
Proof. apply keeps_seq; [apply keeps_when, keeps_die|apply keeps_ret]. Qed.

Section Http.
Hypothesis f_http : forall l w, f (set_http_in l w) = f w.

Lemma keeps_requests_request meth url headers params data timeout :
  keeps f (requests_request meth url headers params data timeout).
Proof.
  intros w. unfold requests_request, bind, emit. cbn [http_in set_trace].
  destruct (http_in w) as [|[]]; cbn [snd]; rewrite ?f_now, ?f_http; apply f_trace.
Qed.

Lemma keeps_raise_for_status resp : keeps f (raise_for_status resp).
Proof. intros w. unfold raise_for_status. destruct (_ && _)%bool; reflexivity. Qed.

Lemma keeps_resp_json resp : keeps f (resp_json resp).
Proof. intros w. unfold resp_json. destruct (json_body resp); reflexivity. Qed.

Lemma keeps_login sha self : keeps f (login sha self).
Proof.
  apply keeps_bind; [apply keeps_requests_request|]. intros resp.
  apply keeps_seq; [apply keeps_raise_for_status|].
  apply keeps_bind; [apply keeps_resp_json|]. intros []; intros w; reflexivity.
Qed.

Lemma keeps_get_vm_by_ip self ip : keeps f (get_vm_by_ip self ip).
Proof.
  apply keeps_bind; [apply keeps__headers|]. intros headers.
  apply keeps_bind; [apply keeps_requests_request|]. intros resp.
  apply keeps_seq; [apply keeps_raise_for_status|].
  apply keeps_bind; [apply keeps_resp_json|]. intros data.
  destruct (match data with BodyInventories l => l | _ => [] end); apply keeps_ret.
Qed.

Lemma keeps_start_vm self uuid : keeps f (start_vm self uuid).
Proof.
  apply keeps_bind; [apply keeps__headers|]. intros headers.
  apply keeps_bind; [apply keeps_requests_request|]. intros resp.
  apply keeps_raise_for_status.
Qed.

Lemma keeps_ensure_vm_running_loop fuel client ip settle deadline :
  keeps f (ensure_vm_running_loop fuel client ip settle deadline).
Proof.
  induction fuel as [|n IH]; cbn [ensure_vm_running_loop]; [intros w; reflexivity|].
  apply keeps_bind; [intros w; reflexivity|]. intros t.
  destruct (t <? deadline); [|apply keeps_ret].
  apply keeps_seq; [apply keeps_time_sleep|].
  apply keeps_bind; [apply keeps_get_vm_by_ip|]. intros [vm|]; [|exact IH].
  destruct (String.eqb _ _); [|exact IH].
  apply keeps_seq; [apply keeps_when, keeps_time_sleep|apply keeps_ret].
Qed.

Lemma keeps_ensure_vm_running client ip uuid st max_wait settle :
  keeps f (ensure_vm_running client ip uuid st max_wait settle).
Proof.
  unfold ensure_vm_running. destruct (String.eqb _ _).
  { apply keeps_when, keeps_time_sleep. }
  apply keeps_seq; [apply keeps_log|]. apply keeps_seq; [apply keeps_start_vm|].
  apply keeps_bind; [intros w; reflexivity|]. intros t.
  apply keeps_bind; [apply keeps_ensure_vm_running_loop|].
  intros []; [apply keeps_ret|apply keeps_die].
Qed.
End Http.

Section Processes.
Hypothesis f_proc : forall l w, f (set_proc_in l w) = f w.
Hypothesis f_files : forall l w, f (set_files l w) = f w.

Lemma keeps_run_cmd cmd env check : keeps f (run_cmd cmd env check).
Proof.
  apply keeps_bind.
  - intros w. unfold subprocess_run, bind, emit. cbn [proc_in set_trace].
    destruct (proc_in w) as [|[]]; cbn [snd]; rewrite ?f_files, ?f_proc; apply f_trace.
  - intros result. destruct (_ && _)%bool; [apply keeps_raise|apply keeps_ret].
Qed.

Lemma keeps_SSHRunner_run self ip remote_cmd retries interval :
  keeps f (SSHRunner_run self ip remote_cmd retries interval).
Proof.
  unfold SSHRunner_run. induction (py_range 1 (retries + 1)) as [|attempt rest IH];
    cbn [SSHRunner_run_loop]; [apply keeps_ret|].
  apply keeps_bind.
  - apply keeps_try_except.
    + apply keeps_seq; [apply keeps_run_cmd|apply keeps_ret].
    + intros exc. destruct (attempt <? retries); [|apply keeps_die].
      apply keeps_seq; [apply keeps_log|].
      apply keeps_seq; [apply keeps_time_sleep|apply keeps_ret].
  - intros []; [apply keeps_ret|exact IH].
Qed.

Lemma keeps_ssh_fstrim ip runner : keeps f (ssh_fstrim ip runner).
Proof. apply keeps_seq; [apply keeps_log|apply keeps_SSHRunner_run]. Qed.

Lemma keeps_ssh_shutdown ip runner : keeps f (ssh_shutdown ip runner).
Proof. apply keeps_seq; [apply keeps_log|apply keeps_SSHRunner_run]. Qed.

Lemma keeps_ensure_qemu_available path env : keeps f (ensure_qemu_available path env).
Proof.
  apply keeps_bind; [intros w; reflexivity|]. intros is_file.
  apply keeps_seq; [apply keeps_when, keeps_die|].
  apply keeps_bind; [intros w; reflexivity|]. intros x_ok.
  apply keeps_seq; [apply keeps_when, keeps_die|].
  apply keeps_seq; [apply keeps_run_cmd|apply keeps_ret].
Qed.

Lemma keeps_qemu_img_info json_loads path env image :
  keeps f (qemu_img_info json_loads path env image).
Proof.
  apply keeps_bind; [apply keeps_run_cmd|]. intros result.
  destruct (json_loads _); [apply keeps_ret|apply keeps_raise].
Qed.

Lemma keeps_convert_image path env src dst src_fmt dst_fmt :
  keeps f (convert_image path env src dst src_fmt dst_fmt).
Proof. apply keeps_seq; [apply keeps_run_cmd|apply keeps_ret]. Qed.
End Processes.
End Keeps.

(** ** The inventory client: hosts, sessions and the login *)

Lemma rstrip_slash_cons c r :
  rstrip_slash (String c r) =
  match rstrip_slash r with
  | EmptyString => if Ascii.eqb c "/" then EmptyString else String c EmptyString
  | r' => String c r'
  end.
Proof. reflexivity. Qed.

Lemma rstrip_slash_spec s :
  (exists k, s = rstrip_slash s +:+ slashes k) /\ ends_with_slash (rstrip_slash s) = false.
Proof.
  induction s as [|c r [[k Hk] Hend]]; [split; [by exists 0%nat|reflexivity]|].
  rewrite rstrip_slash_cons. destruct (rstrip_slash r) as [|a r'] eqn:E.
  - destruct (Ascii.eqb c "/") eqn:Ec.
    + apply Ascii.eqb_eq in Ec. subst c. split; [|reflexivity].
      exists (S k). rewrite Hk. reflexivity.
    + split; [|simpl; exact Ec]. exists k. rewrite Hk at 1. reflexivity.
  - split; [|exact Hend]. exists k. rewrite Hk at 1. reflexivity.
Qed.

Lemma login_cases sha self w :
  login sha self w =
  let w1 := set_trace (trace w ++ [login_request sha self]) w in
  match http_in w with
  | [] => (Raise "ConnectionError", w1)
  | HttpRaise ms exc :: rest => (Raise exc, answered ms rest w1)
  | HttpResponse ms resp :: rest =>
      if bad_status (status_code resp) then (Raise "HTTPError", answered ms rest w1)
      else match json_body resp with
           | None => (Raise "JSONDecodeError", answered ms rest w1)
           | Some (BodyInventory uuid) =>
               (Ret (with_session self uuid, uuid), answered ms rest w1)
           | Some _ => (Raise "KeyError", answered ms rest w1)
           end
  end.
Proof.
  unfold login, sha512_hex, bind at 1, requests_request, bind at 1, emit. cbv zeta.
  cbn [http_in set_trace].
  destruct (http_in w) as [|[ms exc|ms resp] rest]; try reflexivity.
  unfold bind at 1, raise_for_status. fold (bad_status (status_code resp)).
  destruct (bad_status (status_code resp)); [reflexivity|].
  unfold ret at 1, bind at 1, resp_json.
  destruct (json_body resp) as [[uuid|vms|]|]; reflexivity.
Qed.

Lemma _headers_no_session self w :
  truthy (session_uuid self) = false ->
  _headers self w = (Exit 1, printed [error_line "session uuid is missing, login first"] w).
Proof.
  intros Hs. unfold _headers, bind, when. rewrite Hs. cbn [negb]. rewrite die_run. reflexivity.
Qed.

Lemma get_vm_by_ip_no_session self ip w :
  truthy (session_uuid self) = false ->
  get_vm_by_ip self ip w
  = (Exit 1, printed [error_line "session uuid is missing, login first"] w).
Proof. intros Hs. unfold get_vm_by_ip, bind at 1. by rewrite _headers_no_session. Qed.

Lemma start_vm_no_session self uuid w :
  truthy (session_uuid self) = false ->
  start_vm self uuid w
  = (Exit 1, printed [error_line "session uuid is missing, login first"] w).
Proof. intros Hs. unfold start_vm, bind at 1. by rewrite _headers_no_session. Qed.

Lemma login_Ret_world sha self w client session w' :
  login sha self w = (Ret (client, session), w') ->
  exists ms st rest,
    http_in w = HttpResponse ms (mkResponse st (Some (BodyInventory session))) :: rest /\
    bad_status st = false /\
    client = with_session self session /\
    w' = answered ms rest (set_trace (trace w ++ [login_request sha self]) w).
Proof.
  rewrite login_cases. cbv zeta.
  destruct (http_in w) as [|[ms exc|ms [st body]] rest]; try discriminate.
  cbn [status_code json_body]. destruct (bad_status st) eqn:Est; [discriminate|].
  destruct body as [[uuid|vms|]|]; try discriminate.
  intros [= <- <- <-]. exists ms, st, rest. auto.
Qed.

Lemma get_vm_by_ip_Ret_world self ip w found w' :
  get_vm_by_ip self ip w = (Ret found, w') ->
  truthy (session_uuid self) = true /\
  exists ms resp body rest,
    http_in w = HttpResponse ms resp :: rest /\
    bad_status (status_code resp) = false /\
    json_body resp = Some body /\
    found = head (match body with BodyInventories l => l | _ => [] end) /\
    w' = answered ms rest (set_trace (trace w ++ [get_request self ip]) w).
Proof.
  intros Hrun. destruct (truthy (session_uuid self)) eqn:Hs.
  2:{ rewrite get_vm_by_ip_no_session in Hrun by exact Hs. discriminate. }
  split; [reflexivity|]. rewrite get_vm_by_ip_cases in Hrun by exact Hs. cbv zeta in Hrun.
  destruct (http_in w) as [|[ms exc|ms resp] rest]; try discriminate.
  destruct (bad_status (status_code resp)) eqn:Est; [discriminate|].
  destruct (json_body resp) as [body|] eqn:Ebody; [|discriminate].
  injection Hrun as <- <-. exists ms, resp, body, rest. repeat split; auto.
Qed.

(** X1: the client and the configuration store the host without its
    trailing slashes, however many there are, and with nothing else
    changed; a fresh client has no session. *)
Theorem host_loses_trailing_slashes (host username password : string) :
  let c := ZStackClient_init host username password in
  (exists k, host = c_host c +:+ slashes k) /\
  ends_with_slash (c_host c) = false /\
  session_uuid c = None /\
  (forall ssh_user ssh_pass workdir qemu_img lib_path min_free_bytes,
      cfg_host (Config_init host username password ssh_user ssh_pass workdir qemu_img
                            lib_path min_free_bytes) = c_host c).
Proof.
  cbn. destruct (rstrip_slash_spec host) as [Hk Hend]. repeat split; auto.
Qed.

(** X2: without a session ([None] or the empty string) neither the
    lookup nor the power-on sends a request: each prints the error line and
    ends the process with status 1, the world being otherwise untouched. *)
Theorem requests_need_a_session (self : ZStackClient) (target_ip vm_uuid : string)
    (w : World) :
  truthy (session_uuid self) = false ->
  get_vm_by_ip self target_ip w
  = (Exit 1, printed [error_line "session uuid is missing, login first"] w) /\
  start_vm self vm_uuid w
  = (Exit 1, printed [error_line "session uuid is missing, login first"] w).
Proof.
  intros Hs. split; [by apply get_vm_by_ip_no_session|by apply start_vm_no_session].
Qed.



(** X5: a lookup that is answered with an error status raises
    [HTTPError] whatever the body holds; answered with a JSON body that has
    no list of inventories it returns [None], without an error; answered
    with a body that is not JSON it raises.  In each case one GET request
    has been sent and one reply consumed. *)
Theorem get_vm_by_ip_reads_the_status_first (self : ZStackClient) (target_ip : string)
    (w : World) (ms : N) (resp : Response) (rest : list HttpReply) :
  truthy (session_uuid self) = true ->
  http_in w = HttpResponse ms resp :: rest ->
  snd (get_vm_by_ip self target_ip w)
  = answered ms rest (set_trace (trace w ++ [get_request self target_ip]) w) /\
  (bad_status (status_code resp) = true ->
   fst (get_vm_by_ip self target_ip w) = Raise "HTTPError") /\
  (bad_status (status_code resp) = false -> json_body resp = None ->
   fst (get_vm_by_ip self target_ip w) = Raise "JSONDecodeError") /\
  (bad_status (status_code resp) = false ->
   forall body, json_body resp = Some body ->
                match body with BodyInventories _ => False | _ => True end ->
                fst (get_vm_by_ip self target_ip w) = Ret None).
Proof.
  intros Hs Hin. rewrite get_vm_by_ip_cases by exact Hs. cbv zeta. rewrite Hin.
  destruct (bad_status (status_code resp)).
  { repeat split; try discriminate. }
  destruct (json_body resp) as [body|].
  - split; [reflexivity|]. split; [discriminate|]. split; [discriminate|].
    intros _ b [= <-] Hb. destruct body; [reflexivity|destruct Hb|reflexivity].
  - repeat split; try discriminate.
Qed.

(** ** A VM that is already running *)

Lemma lower_or_empty s : lower (or_str (Some s) "") = lower s.
Proof. destruct s; reflexivity. Qed.

Lemma ensure_vm_running_running client ip uuid st max_wait settle w :
  lower st = "running" ->
  ensure_vm_running client ip uuid st max_wait settle w
  = when (negb (settle =? 0)) (time_sleep settle) w.
Proof.
  intros Hst. unfold ensure_vm_running. rewrite lower_or_empty, Hst. reflexivity.
Qed.

Lemma ensure_vm_running_Ret client ip uuid st max_wait settle w w' :
  ensure_vm_running client ip uuid st max_wait settle w = (Ret tt, w') ->
  (lower st = "running" /\ trace w' = trace w ++ settle_events settle) \/
  (lower st <> "running" /\ truthy (session_uuid client) = true /\
   exists k : nat,
     trace w' = trace w ++ [start_request client uuid] ++ polls client ip (S k)
                ++ settle_events settle /\
     3 * Z.of_nat k < max_wait).
Proof.
  intros Hrun. destruct (String.eqb (lower st) "running") eqn:Eq.
  { apply String.eqb_eq in Eq. left. split; [exact Eq|].
    rewrite ensure_vm_running_running in Hrun by exact Eq.
    destruct (Z_lt_le_dec settle 0) as [Hneg|Hpos].
    - unfold when, time_sleep in Hrun. destruct (settle =? 0) eqn:E0; [lia|].
      cbn [negb] in Hrun. destruct (settle <? 0) eqn:E1; [discriminate|lia].
    - rewrite settle_run in Hrun by exact Hpos. injection Hrun as <-. reflexivity. }
  apply String.eqb_neq in Eq. right. split; [exact Eq|].
  unfold ensure_vm_running in Hrun. rewrite lower_or_empty in Hrun.
  apply String.eqb_neq in Eq. rewrite Eq in Hrun.
  unfold bind at 1 in Hrun. rewrite log_run in Hrun. unfold bind at 1 in Hrun.
  destruct (truthy (session_uuid client)) eqn:Hs.
  2:{ rewrite start_vm_no_session in Hrun by exact Hs. discriminate. }
  split; [reflexivity|].
  rewrite start_vm_cases in Hrun by exact Hs. cbv zeta in Hrun.
  cbn [http_in trace set_stdout] in Hrun.
  destruct (http_in w) as [|[ms exc|ms resp] rest] eqn:Ein; try discriminate.
  destruct (bad_status (status_code resp)) eqn:Est; [discriminate|].
  match type of Hrun with context [answered ms rest ?w0] =>
    set (w1 := answered ms rest w0) in Hrun end.
  assert (Htr1 : trace w1 = trace w ++ [start_request client uuid]) by reflexivity.
  clearbody w1.
  unfold bind at 1, time_time at 1 in Hrun. unfold bind at 1 in Hrun.
  destruct (ensure_vm_running_loop _ client ip settle _ w1) as [rl wl] eqn:El.
  assert (Hdiv : max_wait < 3 * (max_wait / 3 + 1)).
  { pose proof (Z.mul_succ_div_gt max_wait 3). lia. }
  apply ensure_vm_running_loop_spec in El; [|exact Hs|lia|lia].
  destruct El as (k & polled & tail & Htrace & Hk & Hmono & Hcases).
  destruct Hcases as [(Hr & Hh & Hl & Ht & Hsettle & init & last & Hp & Hi & Hlast)
                     |[(Hr & Hh & Hl & Ht & Hf & Hd)|([e Hr] & Ht)]]; subst rl.
  - injection Hrun as <-. subst polled tail. rewrite length_app in Hl. cbn in Hl.
    exists (length init). replace (S (length init)) with k by lia.
    split; [rewrite Htrace, Htr1, <- app_assoc; reflexivity|]. lia.
  - rewrite die_run in Hrun. discriminate.
  - discriminate.
Qed.

(** X6: when the state handed to [ensure_vm_running] is "running" in any
    letter case, no request is sent and nothing is printed: the function
    only sleeps the settle time, and does not even do that when the settle
    time is zero. *)
Theorem ensure_vm_running_when_running (client : ZStackClient)
    (target_ip vm_uuid initial_state : string) (max_wait settle_secs : Z) (w : World) :
  lower initial_state = "running" ->
  0 <= settle_secs ->
  exists w',
    ensure_vm_running client target_ip vm_uuid initial_state max_wait settle_secs w
    = (Ret tt, w') /\
    trace w' = trace w ++ settle_events settle_secs /\
    now w' = now w + 1000 * settle_secs /\
    http_in w' = http_in w /\ stdout w' = stdout w /\
    (settle_secs = 0 -> trace w' = trace w).
Proof.
  intros Hst Hsettle. rewrite ensure_vm_running_running by exact Hst.
  rewrite settle_run by exact Hsettle. eexists. split; [reflexivity|].
  cbn [trace now http_in stdout set_now set_trace].
  split; [reflexivity|]. split; [destruct (settle_secs =? 0) eqn:E; lia|].
  split; [reflexivity|]. split; [reflexivity|].
  intros ->. cbn. apply app_nil_r.
Qed.

(** ** Spawned commands, whatever the process answers *)

Lemma strip_or_empty s : (if nonempty s then strip s else "") = strip s.
Proof. destruct s; reflexivity. Qed.

Lemma run_cmd_run cmd env check w :
  run_cmd cmd env check w =
  (match head (proc_in w) with
   | None => Raise "OSError"
   | Some (ProcRaise exc) => Raise exc
   | Some (ProcDone rc out err _) =>
       if (check && negb (rc =? 0))%bool then Raise (failure_message cmd out err)
       else Ret (mkCompleted rc out err)
   end, spawned cmd env w).
Proof.
  unfold run_cmd, bind, subprocess_run, bind, emit, spawned. cbn [proc_in set_trace].
  destruct (proc_in w) as [|[exc|rc out err effect] rest]; cbn [head]; try reflexivity.
  cbn [cp_returncode cp_stdout cp_stderr].
  destruct (check && negb (rc =? 0))%bool; [|reflexivity].
  unfold raise, failure_message. rewrite !strip_or_empty. reflexivity.
Qed.

Lemma run_cmd_checked cmd env w :
  match attempt_error cmd (head (proc_in w)) with
  | Some exc => run_cmd cmd env true w = (Raise exc, spawned cmd env w)
  | None => exists out err, run_cmd cmd env true w = (Ret (mkCompleted 0 out err), spawned cmd env w)
  end.
Proof.
  rewrite run_cmd_run. destruct (head (proc_in w)) as [[exc|rc out err effect]|];
    cbn [attempt_error andb]; try reflexivity.
  destruct (rc =? 0) eqn:E; cbn [negb]; [|reflexivity].
  apply Z.eqb_eq in E. subst rc. eauto.
Qed.

Lemma proc_in_spawned cmd env w : proc_in (spawned cmd env w) = drop 1 (proc_in w).
Proof.
  unfold spawned. destruct (proc_in w) as [|[]] eqn:E;
    cbn [proc_in set_trace set_proc_in set_files]; rewrite ?E; reflexivity.
Qed.

Lemma trace_spawned cmd env w : trace (spawned cmd env w) = trace w ++ [ERun cmd env].
Proof. unfold spawned. destruct (proc_in w) as [|[]]; reflexivity. Qed.

Lemma now_spawned cmd env w : now (spawned cmd env w) = now w.
Proof. unfold spawned. destruct (proc_in w) as [|[]]; reflexivity. Qed.

Lemma stdout_spawned cmd env w : stdout (spawned cmd env w) = stdout w.
Proof. unfold spawned. destruct (proc_in w) as [|[]]; reflexivity. Qed.

Section Attempts.
Variables (self : SSHRunner) (ip remote_cmd : string) (retries retry_interval : Z).
Hypothesis Hinterval : 0 <= retry_interval.

Local Notation cmd := (ssh_command self ip remote_cmd).

Lemma SSHRunner_run_loop_cons attempt rest w :
  SSHRunner_run_loop self ip remote_cmd retries retry_interval (attempt :: rest) w =
  match attempt_error cmd (head (proc_in w)) with
  | None => (Ret tt, spawned cmd None w)
  | Some exc =>
      if attempt <? retries then
        SSHRunner_run_loop self ip remote_cmd retries retry_interval rest
          (slept retry_interval
             (printed [retry_line remote_cmd attempt retry_interval exc]
                      (spawned cmd None w)))
      else (Exit 1, printed [gave_up_line remote_cmd retries exc] (spawned cmd None w))
  end.
Proof.
  cbn [SSHRunner_run_loop]. unfold bind at 1, try_except, bind at 1.
  pose proof (run_cmd_checked cmd None w) as Hrun.
  destruct (attempt_error cmd (head (proc_in w))) as [exc|].
  - rewrite Hrun. destruct (attempt <? retries).
    + unfold bind at 1. rewrite log_run. unfold bind at 1.
      rewrite time_sleep_run by exact Hinterval. reflexivity.
    + rewrite die_run. reflexivity.
  - destruct Hrun as (out & err & ->). reflexivity.
Qed.

Lemma SSHRunner_run_loop_outcome (n : nat) : forall (attempt : Z) (w : World) r w',
  attempt + Z.of_nat n = retries ->
  SSHRunner_run_loop self ip remote_cmd retries retry_interval
                     (py_range attempt (retries + 1)) w = (r, w') ->
  exists k : nat,
    (k <= n)%nat /\
    (forall j, (j < k)%nat -> attempt_error cmd (proc_in w !! j) <> None) /\
    trace w' = trace w ++ retried cmd retry_interval k ++ [ERun cmd None] /\
    proc_in w' = drop (S k) (proc_in w) /\
    now w' = now w + 1000 * retry_interval * Z.of_nat k /\
    ((r = Ret tt /\ attempt_error cmd (proc_in w !! k) = None) \/
     (r = Exit 1 /\ k = n /\
      exists exc, attempt_error cmd (proc_in w !! k) = Some exc /\
                  List.last (stdout w') "" = gave_up_line remote_cmd retries exc)).
Proof.
  induction n as [|n IH]; intros attempt w r w' Hn Hrun;
    rewrite py_range_cons, SSHRunner_run_loop_cons in Hrun by lia;
    rewrite head_lookup in Hrun;
    destruct (attempt_error cmd (proc_in w !! 0%nat)) as [exc|] eqn:E0.
  - destruct (attempt <? retries) eqn:Elt; [lia|]. injection Hrun as <- <-.
    exists 0%nat. split; [lia|]. split; [intros j Hj; lia|].
    cbn [trace stdout printed set_stdout now proc_in].
    rewrite trace_spawned, proc_in_spawned, now_spawned.
    split; [reflexivity|]. split; [reflexivity|]. split; [lia|].
    right. split; [reflexivity|]. split; [reflexivity|].
    exists exc. split; [exact E0|]. apply last_last.
  - injection Hrun as <- <-. exists 0%nat. split; [lia|]. split; [intros j Hj; lia|].
    rewrite trace_spawned, proc_in_spawned, now_spawned.
    split; [reflexivity|]. split; [reflexivity|]. split; [lia|]. left. auto.
  - destruct (attempt <? retries) eqn:Elt; [|lia].
    apply IH in Hrun; [|lia].
    destruct Hrun as (k & Hk & Hfails & Htrace & Hproc & Hnow & Hcases).
    cbn [trace slept printed set_now set_trace set_stdout proc_in now] in *.
    rewrite trace_spawned in Htrace. rewrite proc_in_spawned in *. rewrite now_spawned in Hnow.
    exists (S k). split; [lia|]. split.
    { intros [|j] Hj; [rewrite E0; discriminate|].
      specialize (Hfails j ltac:(lia)). rewrite lookup_drop in Hfails. exact Hfails. }
    split; [rewrite Htrace, <- !app_assoc; reflexivity|].
    split; [rewrite Hproc, drop_drop; f_equal; lia|].
    split; [lia|].
    rewrite lookup_drop in Hcases. cbn [Nat.add] in Hcases.
    destruct Hcases as [[-> Hok]|(-> & -> & exc' & Hexc & Hlast)]; [left; auto|].
    right. split; [reflexivity|]. split; [reflexivity|]. eauto.
  - injection Hrun as <- <-. exists 0%nat. split; [lia|]. split; [intros j Hj; lia|].
    rewrite trace_spawned, proc_in_spawned, now_spawned.
    split; [reflexivity|]. split; [reflexivity|]. split; [lia|]. left. auto.
Qed.

Lemma SSHRunner_run_outcome w r w' :
  SSHRunner_run self ip remote_cmd retries retry_interval w = (r, w') ->
  (retries <= 0 /\ r = Ret tt /\ w' = w) \/
  (0 < retries /\
   exists k : nat,
     Z.of_nat k < retries /\
     (forall j, (j < k)%nat -> attempt_error cmd (proc_in w !! j) <> None) /\
     trace w' = trace w ++ retried cmd retry_interval k ++ [ERun cmd None] /\
     proc_in w' = drop (S k) (proc_in w) /\
     now w' = now w + 1000 * retry_interval * Z.of_nat k /\
     ((r = Ret tt /\ attempt_error cmd (proc_in w !! k) = None) \/
      (r = Exit 1 /\ Z.of_nat k + 1 = retries /\
       exists exc, attempt_error cmd (proc_in w !! k) = Some exc /\
                   List.last (stdout w') "" = gave_up_line remote_cmd retries exc))).
Proof.
  intros Hrun. unfold SSHRunner_run in Hrun.
  destruct (Z_le_gt_dec retries 0) as [Hle|Hgt].
  - left. unfold py_range in Hrun. replace (Z.to_nat (retries + 1 - 1)) with 0%nat in Hrun by lia.
    injection Hrun as <- <-. auto.
  - right. split; [lia|].
    apply (SSHRunner_run_loop_outcome (Z.to_nat (retries - 1))) in Hrun; [|lia].
    destruct Hrun as (k & Hk & Hfails & Htrace & Hproc & Hnow & Hcases).
    exists k. split; [lia|]. do 4 (split; [assumption|]).
    destruct Hcases as [?|(-> & -> & Hexc)]; [left; assumption|].
    right. split; [reflexivity|]. split; [lia|]. exact Hexc.
Qed.
End Attempts.

Lemma environ_spawned cmd env w : environ (spawned cmd env w) = environ w.
Proof. unfold spawned. destruct (proc_in w) as [|[]]; reflexivity. Qed.

Lemma free_in_spawned cmd env w : free_in (spawned cmd env w) = free_in w.
Proof. unfold spawned. destruct (proc_in w) as [|[]]; reflexivity. Qed.

(** ** The trim and the shutdown *)

Lemma ssh_fstrim_outcome ip runner w r w' :
  ssh_fstrim ip runner w = (r, w') ->
  let cmd := ssh_command runner ip "fstrim /" in
  exists k : nat,
    (k <= 2)%nat /\
    (forall j, (j < k)%nat -> attempt_error cmd (proc_in w !! j) <> None) /\
    trace w' = trace w ++ retried cmd 30 k ++ [ERun cmd None] /\
    proc_in w' = drop (S k) (proc_in w) /\
    now w' = now w + 30000 * Z.of_nat k /\
    ((r = Ret tt /\ attempt_error cmd (proc_in w !! k) = None) \/
     (r = Exit 1 /\ k = 2%nat /\
      exists exc, attempt_error cmd (proc_in w !! k) = Some exc /\
                  List.last (stdout w') "" = gave_up_line "fstrim /" 3 exc)).
Proof.
  intros Hrun cmd. unfold ssh_fstrim, bind in Hrun. rewrite log_run in Hrun.
  apply SSHRunner_run_outcome in Hrun; [|lia].
  destruct Hrun as [[? _]|(_ & k & Hk & Hfails & Htrace & Hproc & Hnow & Hcases)]; [lia|].
  cbn [trace proc_in now set_stdout] in *.
  exists k. split; [lia|]. do 3 (split; [assumption|]). split; [lia|].
  destruct Hcases as [?|(-> & Hlast & Hexc)]; [left; assumption|].
  right. split; [reflexivity|]. split; [lia|]. exact Hexc.
Qed.

Lemma ssh_shutdown_outcome ip runner w r w' :
  ssh_shutdown ip runner w = (r, w') ->
  let cmd := ssh_command runner ip "init 0" in
  trace w' = trace w ++ [ERun cmd None] /\
  proc_in w' = drop 1 (proc_in w) /\
  now w' = now w /\
  ((r = Ret tt /\ attempt_error cmd (head (proc_in w)) = None) \/
   (r = Exit 1 /\
    exists exc, attempt_error cmd (head (proc_in w)) = Some exc /\
                List.last (stdout w') "" = gave_up_line "init 0" 1 exc)).
Proof.
  intros Hrun cmd. unfold ssh_shutdown, bind in Hrun. rewrite log_run in Hrun.
  apply SSHRunner_run_outcome in Hrun; [|lia].
  destruct Hrun as [[? _]|(_ & k & Hk & Hfails & Htrace & Hproc & Hnow & Hcases)]; [lia|].
  cbn [trace proc_in now set_stdout] in *.
  assert (k = 0%nat) as -> by lia. rewrite head_lookup.
  split; [exact Htrace|]. split; [exact Hproc|]. split; [lia|].
  destruct Hcases as [?|(-> & _ & Hexc)]; [left; assumption|]. right. auto.
Qed.

(** ** The converter *)

Lemma ensure_qemu_available_run path env w :
  ensure_qemu_available path env w =
  match files w !! to_str path with
  | None => (Exit 1, printed [error_line ("qemu-img not found: " +:+ to_str path)] w)
  | Some f =>
      if f_exec f then
        (match attempt_error [to_str path; "--help"] (head (proc_in w)) with
         | Some exc => Raise exc
         | None => Ret tt
         end, spawned [to_str path; "--help"] (Some env) w)
      else (Exit 1, printed [error_line ("qemu-img not executable: " +:+ to_str path)] w)
  end.
Proof.
  unfold ensure_qemu_available, bind at 1, path_is_file, path_exists.
  destruct (files w !! to_str path) as [f|] eqn:Ef.
  2:{ rewrite bool_decide_eq_false_2 by (intros [? [=]]).
      cbn [negb when]. unfold bind at 1. rewrite die_run. reflexivity. }
  rewrite bool_decide_eq_true_2 by eauto. cbn [negb when].
  unfold bind at 1, ret at 1, bind at 1, os_access_x. rewrite Ef. cbn [from_option].
  destruct (f_exec f); cbn [negb when].
  2:{ unfold bind at 1. rewrite die_run. reflexivity. }
  unfold bind at 1, ret at 1, bind at 1.
  pose proof (run_cmd_checked [to_str path; "--help"] (Some env) w) as Hrun.
  destruct (attempt_error _ _) as [exc|]; [by rewrite Hrun|].
  destruct Hrun as (out & err & ->). reflexivity.
Qed.

Lemma convert_image_spawned path env src dst src_fmt dst_fmt w :
  let cmd := [to_str path; "convert"; "-f"; src_fmt; "-O"; dst_fmt; src; dst] in
  convert_image path env src dst src_fmt dst_fmt w =
  (match attempt_error cmd (head (proc_in w)) with
   | Some exc => Raise exc
   | None => Ret tt
   end, spawned cmd (Some env) w).
Proof.
  intros cmd. unfold convert_image, bind at 1. fold cmd.
  pose proof (run_cmd_checked cmd (Some env) w) as Hrun.
  destruct (attempt_error _ _) as [exc|]; [by rewrite Hrun|].
  destruct Hrun as (out & err & ->). reflexivity.
Qed.

Lemma qemu_img_info_Ret json_loads path env image w info w' :
  qemu_img_info json_loads path env image w = (Ret info, w') ->
  w' = spawned [to_str path; "info"; "--output"; "json"; image] (Some env) w /\
  exists out err effect rest,
    proc_in w = ProcDone 0 out err effect :: rest /\ json_loads out = Some info.
Proof.
  unfold qemu_img_info, bind at 1. rewrite run_cmd_run.
  destruct (proc_in w) as [|[exc|rc out err effect] rest]; cbn [head]; try discriminate.
  cbn [andb]. destruct (rc =? 0) eqn:Erc; cbn [negb]; [|discriminate].
  apply Z.eqb_eq in Erc. subst rc. cbn [cp_stdout].
  destruct (json_loads out) as [i|] eqn:Ej; [|discriminate].
  intros [= <- <-]. split; [reflexivity|]. eauto 10.
Qed.

Lemma ensure_free_space_Ret path required label w w' :
  ensure_free_space path required label w = (Ret tt, w') ->
  exists free rest, free_in w = free :: rest /\ required <= free /\ w' = set_free_in rest w.
Proof.
  destruct (free_in w) as [|free rest] eqn:E.
  { unfold ensure_free_space, bind, disk_usage_free. rewrite E. discriminate. }
  rewrite (ensure_free_space_run _ _ _ _ _ _ E).
  destruct (free <? required) eqn:Elt; [discriminate|]. intros [= <-].
  exists free, rest. split; [reflexivity|]. split; [lia|reflexivity].
Qed.

Lemma ensure_qemu_available_Ret path env w w' :
  ensure_qemu_available path env w = (Ret tt, w') ->
  w' = spawned [to_str path; "--help"] (Some env) w /\
  attempt_error [to_str path; "--help"] (head (proc_in w)) = None /\
  exists f, files w !! to_str path = Some f /\ f_exec f = true.
Proof.
  rewrite ensure_qemu_available_run.
  destruct (files w !! to_str path) as [f|]; [|discriminate].
  destruct (f_exec f) eqn:Ex; [|discriminate].
  destruct (attempt_error _ _) eqn:Ea; [discriminate|].
  intros [= <-]. eauto.
Qed.

Lemma build_qemu_env_run lib w :
  build_qemu_env lib w
  = (Ret (if truthy lib then augmented (show_opt lib) (environ w) else environ w), w).
Proof.
  unfold build_qemu_env, bind, os_environ_copy. destruct (truthy lib); [|reflexivity].
  unfold augmented, prepended. destruct (truthy (environ w !! "LD_LIBRARY_PATH")); reflexivity.
Qed.

(** ** Further properties of the spawned commands *)





(** X11: [build_qemu_env] changes no variable but [LD_LIBRARY_PATH]; with
    [None] or an empty library path it returns the environment as it is;
    and when [LD_LIBRARY_PATH] is unset or empty the variable becomes the
    library path alone, with no colon after it. *)
Theorem build_qemu_env_changes_one_variable (lib_path : option string) (w : World) :
  exists env,
    build_qemu_env lib_path w = (Ret env, w) /\
    (forall name, name <> "LD_LIBRARY_PATH" -> env !! name = environ w !! name) /\
    (truthy lib_path = false -> env = environ w) /\
    (truthy lib_path = true -> truthy (environ w !! "LD_LIBRARY_PATH") = false ->
     env !! "LD_LIBRARY_PATH" = lib_path).
Proof.
  rewrite build_qemu_env_run. eexists. split; [reflexivity|].
  destruct (truthy lib_path) eqn:Hlib.
  - split; [intros name Hname; unfold augmented; by rewrite lookup_insert_ne|].
    split; [discriminate|]. intros _ Hexisting. unfold augmented, prepended.
    rewrite Hexisting, lookup_insert_eq. destruct lib_path; [reflexivity|discriminate].
  - split; [reflexivity|]. split; [reflexivity|discriminate].
Qed.

(** X12: [md5_file] returns the digest of the whole file, read in chunks
    of one mebibyte and fed in order, for a file of any length, and leaves
    the world as it is; on a missing file it raises [FileNotFoundError]. *)
Theorem md5_file_digests_the_whole_file (path : Path) (w : World) :
  md5_file path w =
  match files w !! to_str path with
  | Some f => (Ret (MD5.hexdigest (f_data f)), w)
  | None => (Raise "FileNotFoundError", w)
  end /\
  (forall (fh : string) (md5 : hashlib.md5),
      md5_file_loop (S (String.length fh)) fh md5 w
      = (Ret (hashlib.update md5 fh), w)).
Proof.
  split.
  - destruct (files w !! to_str path) as [f|] eqn:Ef; [by apply md5_file_run|].
    unfold md5_file, bind, path_open_rb. rewrite Ef. reflexivity.
  - intros fh md5. apply md5_file_loop_run. lia.
Qed.

(** ** The stages of [main] *)

Lemma printed_app a b w : printed b (printed a w) = printed (a ++ b) w.
Proof. unfold printed. destruct w. cbn. rewrite app_assoc. reflexivity. Qed.

Lemma when_die_Ret (b : bool) msg w a w' :
  when b (die msg) w = (Ret a, w') -> b = false /\ w' = w.
Proof.
  destruct b; cbn [when]; [rewrite die_run; discriminate|]. intros [= _ <-]. auto.
Qed.

Lemma log_Ret msg w a w' :
  log msg w = (Ret a, w') -> w' = printed ["[export_vdi] " +:+ msg] w.
Proof. rewrite log_run. by intros [= _ <-]. Qed.

Lemma log_printed msg w : log msg w = (Ret tt, printed ["[export_vdi] " +:+ msg] w).
Proof. apply log_run. Qed.

Lemma die_printed {A} msg w : @die A msg w = (Exit 1, printed [error_line msg] w).
Proof. apply die_run. Qed.

Lemma require_command_run cmd w :
  require_command cmd w =
  if bool_decide (cmd ∈ commands w) then (Ret tt, w)
  else (Exit 1, printed [error_line ("missing required command: " +:+ cmd)] w).
Proof.
  unfold require_command, bind, shutil_which. destruct (bool_decide _); cbn [negb when];
    [reflexivity|apply die_printed].
Qed.

Lemma main_run WORKDIR sha512_hexdigest json_loads args w :
  main WORKDIR sha512_hexdigest json_loads args w =
  match main_prepare WORKDIR sha512_hexdigest json_loads args w with
  | (Ret job, w1) => main_export job w1
  | (Raise e, w1) => (Raise e, w1)
  | (Exit n, w1) => (Exit n, w1)
  | (OutOfFuel, w1) => (OutOfFuel, w1)
  end.
Proof. reflexivity. Qed.

Local Ltac project :=
  cbn [now environ commands files free_in http_in proc_in trace stdout printed answered
       slept set_now set_files set_free_in set_http_in set_proc_in set_trace set_stdout].

Local Ltac project_in H :=
  cbn [now environ commands files free_in http_in proc_in trace stdout printed answered
       slept set_now set_files set_free_in set_http_in set_proc_in set_trace set_stdout] in H.

(** Replaces the worlds of [H] by what they were made from. *)
Local Ltac unwind_in H :=
  repeat match goal with
         | Hw : ?x = _ |- _ =>
             is_var x;
             lazymatch type of x with World => idtac end;
             lazymatch type of H with context [x] => idtac end;
             rewrite Hw in H; project_in H
         end.

Local Ltac unwind :=
  repeat match goal with
         | Hw : ?x = _ |- _ =>
             is_var x;
             lazymatch type of x with World => idtac end;
             lazymatch goal with |- context [x] => idtac end;
             rewrite Hw; project
         end.

(** One [log] at the head of the run [H]. *)
Local Ltac log_step H :=
  unfold bind at 1 in H; rewrite log_printed in H; cbv beta iota in H;
  rewrite ?printed_app in H.

(** The observation [f] after the run [H] is the one before it. *)
Local Ltac kept f H K lem :=
  lazymatch type of H with
  | ?c ?w = (?r, ?w') =>
      assert (K : f w' = f w)
        by (apply (keeps_run f c w r w'); [apply lem; intros; reflexivity|exact H])
  end.

Section Stages.
Variables (WORKDIR : Path) (sha512_hexdigest : string -> string)
          (json_loads : string -> option ImageInfo).

Lemma main_prepare_Ret args w job w' :
  main_prepare WORKDIR sha512_hexdigest json_loads args w = (Ret job, w') ->
  exists session vm l0 w1 l1 w2 l2 w3 w4 w5 l5 w6 info w7 w8,
    let ip := a_ip args in
    let runner := mkRunner "root" (a_ssh_pass args) in
    let client0 := ZStackClient_init HOST USER_NAME USER_PASSWORD in
    let client := with_session client0 session in
    let path := strip (show_opt (get_root_install_path vm)) in
    let E := augmented (DEFAULT_LIB_PATH WORKDIR) (environ w5) in
    let size := default 0 (actual_size info) in
    (bool_decide ("ssh" ∈ commands w) = true /\
     bool_decide ("sshpass" ∈ commands w) = true) /\
    login sha512_hexdigest client0 (printed l0 w) = (Ret (client, session), w1) /\
    get_vm_by_ip client ip (printed l1 w1) = (Ret (Some vm), w2) /\
    (truthy (vm_uuid vm) = true /\ truthy (get_root_install_path vm) = true /\
     is_Some (files w2 !! to_str (of_str path))) /\
    ensure_vm_running client ip (show_opt (vm_uuid vm)) (or_str (vm_state vm) "") 180 20
                      (printed l2 w2) = (Ret tt, w3) /\
    ssh_fstrim ip runner w3 = (Ret tt, w4) /\
    ssh_shutdown ip runner w4 = (Ret tt, w5) /\
    ensure_qemu_available (DEFAULT_QEMU_IMG WORKDIR) E (printed l5 w5) = (Ret tt, w6) /\
    qemu_img_info json_loads (DEFAULT_QEMU_IMG WORKDIR) E path w6 = (Ret info, w7) /\
    ensure_free_space WORKDIR MIN_FREE_BYTES "pre-export check (>=50G)" w7 = (Ret tt, w8) /\
    (if size =? 0 then w' = w8
     else exists free rest, free_in w8 = free :: rest /\ size <= free /\
                            w' = set_free_in rest w8) /\
    job = mkJob (main_cfg WORKDIR args) path
                (or_str (a_product args) (or_str (vm_name vm) "vm_image")) E.
Proof.
  intros H. unfold main_prepare in H. cbv zeta in H.
  apply bind_Ret in H as (? & wa & Ha & H).
  assert (Hssh : bool_decide ("ssh" ∈ commands w) = true).
  { unfold require_command, bind, shutil_which in Ha.
    destruct (bool_decide _); [reflexivity|]. cbn [negb when] in Ha.
    rewrite die_run in Ha. discriminate. }
  apply require_command_Ret in Ha as ->.
  apply bind_Ret in H as (? & wa & Ha & H).
  assert (Hpass : bool_decide ("sshpass" ∈ commands w) = true).
  { unfold require_command, bind, shutil_which in Ha.
    destruct (bool_decide _); [reflexivity|]. cbn [negb when] in Ha.
    rewrite die_run in Ha. discriminate. }
  apply require_command_Ret in Ha as ->.
  do 3 (apply bind_Ret in H as (? & ? & Hlog & H); apply log_Ret in Hlog as ->).
  rewrite !printed_app in H.
  apply bind_Ret in H as ([client session] & w1 & Hlogin & H).
  pose proof (login_Ret_world _ _ _ _ _ _ Hlogin) as (_ & _ & _ & _ & _ & -> & _).
  do 2 (apply bind_Ret in H as (? & ? & Hlog & H); apply log_Ret in Hlog as ->).
  rewrite !printed_app in H.
  apply bind_Ret in H as (found & w2 & Hget & H).
  destruct found as [vm|]; [|rewrite die_run in H; discriminate].
  apply bind_Ret in H as (? & ? & Hwhen & H).
  apply when_die_Ret in Hwhen as [Hcond ->].
  apply orb_false_elim in Hcond as [Huuid Hpath].
  apply negb_false_iff in Huuid, Hpath.
  do 3 (apply bind_Ret in H as (? & ? & Hlog & H); apply log_Ret in Hlog as ->).
  rewrite !printed_app in H.
  apply bind_Ret in H as (local & ? & [= <- <-] & H).
  apply bind_Ret in H as (? & ? & Hwhen & H).
  apply when_die_Ret in Hwhen as [Hlocal ->].
  apply negb_false_iff, bool_decide_eq_true_1 in Hlocal. cbn [files printed set_stdout] in Hlocal.
  apply bind_Ret in H as (? & ? & Hlog & H); apply log_Ret in Hlog as ->.
  rewrite !printed_app in H.
  apply bind_Ret in H as ([] & w3 & Hvm & H).
  apply bind_Ret in H as ([] & w4 & Hfstrim & H).
  apply bind_Ret in H as ([] & w5 & Hshutdown & H).
  apply bind_Ret in H as (? & ? & Hlog & H); apply log_Ret in Hlog as ->.
  apply bind_Ret in H as (qemu_env & ? & Henv & H).
  rewrite build_qemu_env_run in Henv. cbn [cfg_lib_path Config_init] in Henv.
  rewrite DEFAULT_LIB_PATH_truthy in Henv. cbn [show_opt from_option id] in Henv.
  injection Henv as <- <-. cbn [environ printed set_stdout] in H.
  apply bind_Ret in H as ([] & w6 & Hqemu & H).
  apply bind_Ret in H as (info & w7 & Hinfo & H).
  apply bind_Ret in H as ([] & w8 & Hspace & H).
  apply bind_Ret in H as (too_small & w9 & Hsmall & H).
  apply bind_Ret in H as (? & ? & Hwhen & H).
  apply when_die_Ret in Hwhen as [-> ->].
  injection H as <- <-.
  eexists session, vm, _, w1, _, w2, _, w3, w4, w5, _, w6, info, w7, w8. cbv zeta.
  split; [split; assumption|]. split; [exact Hlogin|]. split; [exact Hget|].
  split; [repeat split; assumption|]. split; [exact Hvm|].
  split; [exact Hfstrim|]. split; [exact Hshutdown|]. split; [exact Hqemu|].
  split; [exact Hinfo|]. split; [exact Hspace|]. split; [|reflexivity].
  cbn [cfg_workdir Config_init] in Hsmall.
  destruct (default 0 (actual_size info) =? 0); [by injection Hsmall as <-|].
  apply bind_Ret in Hsmall as (free & ? & Hfree & Hret).
  unfold disk_usage_free in Hfree. destruct (free_in w8) as [|f rest] eqn:Ef; [discriminate|].
  injection Hfree as <- <-. injection Hret as Hlt <-.
  exists f, rest. split; [reflexivity|]. split; [lia|reflexivity].
Qed.
End Stages.

(** ** The export, step by step *)

Lemma output_paths (cfg : Config) (product : string) :
  let q := to_str (qcow2_path_of cfg product) in
  let v := to_str (vdi_path_of cfg product) in
  q <> v /\ q <> v +:+ ".md5" /\ v <> v +:+ ".md5" /\
  exists md5_path base,
    with_suffix (vdi_path_of cfg product) (suffix (vdi_path_of cfg product) +:+ ".md5")
    = inr md5_path /\
    to_str md5_path = v +:+ ".md5" /\
    name (vdi_path_of cfg product) = base +:+ ".vdi".
Proof.
  unfold vdi_path_of, qcow2_path_of.
  destruct (div_extension (cfg_workdir cfg) product) as (root & dir & base & Hdiv).
  rewrite (Hdiv _ extension_vdi), (Hdiv _ extension_qcow2). clear Hdiv.
  destruct (to_str_snoc root dir) as (pre & Hstr).
  cbv zeta. rewrite with_suffix_md5, !Hstr.
  split; [intros E; apply String.app_inj in E; apply String.app_inj in E; discriminate|].
  split.
  { rewrite !append_assoc. intros E. do 2 apply String.app_inj in E. discriminate. }
  split.
  { intros E. apply (f_equal String.length) in E. rewrite !length_append in E.
    simpl in E. lia. }
  eexists _, base. split; [reflexivity|]. split; [|apply last_last].
  rewrite Hstr, !append_assoc. reflexivity.
Qed.

Lemma path_stat_size_Ret p w size w' :
  path_stat_size p w = (Ret size, w') ->
  w' = w /\ exists f, files w !! to_str p = Some f /\ size = Z.of_nat (String.length (f_data f)).
Proof.
  unfold path_stat_size. destruct (files w !! to_str p) as [f|]; [|discriminate].
  intros [= <- <-]. eauto.
Qed.

Lemma convert_image_Ret path env src dst src_fmt dst_fmt w w' :
  convert_image path env src dst src_fmt dst_fmt w = (Ret tt, w') ->
  exists out err effect rest,
    proc_in w = ProcDone 0 out err effect :: rest /\
    w' = set_files (effect (files w))
           (set_proc_in rest
              (set_trace (trace w ++ [ERun [to_str path; "convert"; "-f"; src_fmt; "-O";
                                            dst_fmt; src; dst] (Some env)]) w)).
Proof.
  rewrite convert_image_spawned. cbv zeta. unfold spawned.
  destruct (proc_in w) as [|[exc|rc out err effect] rest]; cbn [head attempt_error];
    try discriminate.
  destruct (rc =? 0) eqn:E; [|discriminate]. apply Z.eqb_eq in E. subst rc.
  intros [= <-]. eauto 10.
Qed.

Lemma path_exists_Ret p w b w' :
  path_exists p w = (Ret b, w') ->
  w' = w /\ b = bool_decide (is_Some (files w !! to_str p)).
Proof. by intros [= <- <-]. Qed.

Lemma path_write_text_Ret p text w a w' :
  path_write_text p text w = (Ret a, w') ->
  w' = set_files (<[to_str p := mkFile text (from_option f_exec false (files w !! to_str p))]>
                    (files w)) w.
Proof. by intros [= _ <-]. Qed.

Lemma unlink_and_log_Ret p (ok_line : string) (warn_line : string -> string) w a w' :
  try_except (path_unlink p ;; log ok_line) (fun exc => log (warn_line exc)) w
  = (Ret a, w') ->
  files w' = delete (to_str p) (files w) /\
  proc_in w' = proc_in w /\ free_in w' = free_in w /\ trace w' = trace w /\
  ((is_Some (files w !! to_str p) /\ stdout w' = stdout w ++ ["[export_vdi] " +:+ ok_line]) \/
   (files w !! to_str p = None /\
    stdout w' = stdout w ++ ["[export_vdi] " +:+ warn_line "FileNotFoundError"])).
Proof.
  unfold try_except, bind, path_unlink.
  destruct (files w !! to_str p) as [f|] eqn:Ef; rewrite log_run; intros [= _ <-];
    cbn [files proc_in free_in trace stdout set_files set_stdout].
  - do 4 (split; [reflexivity|]). left. split; [eauto|reflexivity].
  - split; [symmetry; by apply delete_id|]. do 3 (split; [reflexivity|]).
    right. split; reflexivity.
Qed.

(** What a successful export read, spawned, wrote and printed. *)
Lemma main_export_Ret (job : Job) (w w' : World) :
  main_export job w = (Ret tt, w') ->
  let cfg := job_cfg job in
  let q := to_str (qcow2_path_of cfg (job_product_name job)) in
  let v := to_str (vdi_path_of cfg (job_product_name job)) in
  files w !! q = None /\ files w !! v = None /\
  exists out1 err1 effect1 out2 err2 effect2 procs free frees intermediate final x note,
    proc_in w = ProcDone 0 out1 err1 effect1 :: ProcDone 0 out2 err2 effect2 :: procs /\
    effect1 (files w) !! q = Some intermediate /\
    free_in w = free :: frees /\
    Z.max (Z.of_nat (String.length (f_data intermediate))) (cfg_min_free_bytes cfg) <= free /\
    effect2 (effect1 (files w)) !! v = Some final /\
    trace w' = trace w ++ [convert_event cfg (job_qemu_env job) (job_install_path job) q
                                         "qcow2" "qcow2";
                           convert_event cfg (job_qemu_env job) q v "qcow2" "vdi"] /\
    files w' = delete q (<[v +:+ ".md5" :=
                            mkFile (MD5.hexdigest (f_data final) +:+ "  "
                                    +:+ name (vdi_path_of cfg (job_product_name job)) +:+ nl) x]>
                           (effect2 (effect1 (files w)))) /\
    proc_in w' = procs /\ free_in w' = frees /\
    (note = "[export_vdi] removed intermediate qcow2: " +:+ q \/
     note = "[export_vdi] warn: failed to remove " +:+ q +:+ ": FileNotFoundError") /\
    exists lines, stdout w' = stdout w ++ lines ++ [note; "[export_vdi] flow completed"].
Proof.
  intros H. cbv zeta.
  destruct (output_paths (job_cfg job) (job_product_name job))
    as (Hqv & Hqm & Hvm & md5_path & base & Hsfx & Hmd5 & Hname).
  unfold main_export in H. cbv zeta in H. rewrite Hsfx in H. clear Hsfx.
  unfold convert_event.
  remember (to_str (qcow2_path_of (job_cfg job) (job_product_name job))) as q eqn:Eq.
  remember (to_str (vdi_path_of (job_cfg job) (job_product_name job))) as v eqn:Ev.
  remember (name (vdi_path_of (job_cfg job) (job_product_name job))) as vname eqn:Ename.
  symmetry in Eq, Ev. clear Ename Hname.
  (* the check of the output paths *)
  apply bind_Ret in H as (qe & wa & Ha & H).
  apply path_exists_Ret in Ha as [-> ->]. rewrite Eq in H.
  apply bind_Ret in H as (collision & wb & Hc & H).
  apply bind_Ret in H as (? & wc & Hwhen & H).
  apply when_die_Ret in Hwhen as [-> ->].
  assert (Hfresh : files w !! q = None /\ files w !! v = None /\ wb = w).
  { destruct (bool_decide (is_Some (files w !! q))) eqn:Eqe; [discriminate|].
    apply path_exists_Ret in Hc as [-> Hve]. rewrite Ev in Hve.
    symmetry in Hve. apply bool_decide_eq_false_1 in Eqe, Hve.
    rewrite <- !eq_None_not_Some in *. auto. }
  destruct Hfresh as (Hq0 & Hv0 & ->). clear Hc.
  split; [exact Hq0|]. split; [exact Hv0|].
  apply bind_Ret in H as (? & w1 & Hw1 & H). apply log_Ret in Hw1.
  (* the first conversion *)
  apply bind_Ret in H as ([] & w2 & Hconv1 & H).
  apply convert_image_Ret in Hconv1 as (out1 & err1 & effect1 & procs1 & Hproc1 & Hw2).
  apply bind_Ret in H as (qcow2_size & w3 & Hsize & H).
  apply path_stat_size_Ret in Hsize as (Hw3 & intermediate & Hinter & ->).
  rewrite Eq in Hinter.
  apply bind_Ret in H as (? & w4 & Hw4 & H). apply log_Ret in Hw4.
  apply bind_Ret in H as ([] & w5 & Hspace & H).
  apply ensure_free_space_Ret in Hspace as (free & frees & Hfree & Hmax & Hw5).
  apply bind_Ret in H as (? & w6 & Hw6 & H). apply log_Ret in Hw6.
  (* the second conversion *)
  apply bind_Ret in H as ([] & w7 & Hconv2 & H).
  apply convert_image_Ret in Hconv2 as (out2 & err2 & effect2 & procs & Hproc2 & Hw7).
  apply bind_Ret in H as (vdi_size & w8 & Hsize & H).
  apply path_stat_size_Ret in Hsize as (Hw8 & final & Hfinal & ->).
  rewrite Ev in Hfinal.
  apply bind_Ret in H as (? & w9 & Hw9 & H). apply log_Ret in Hw9.
  apply bind_Ret in H as (? & w10 & Hw10 & H). apply log_Ret in Hw10.
  (* the digest and the sidecar *)
  apply bind_Ret in H as (vdi_md5 & w11 & Hdigest & H).
  assert (Hfinal10 : files w10 !! v = Some final).
  { rewrite Hw10, Hw9. project. rewrite Hw8. exact Hfinal. }
  rewrite (md5_file_run _ _ final) in Hdigest by (rewrite Ev; exact Hfinal10).
  injection Hdigest as <- Hw11.
  apply bind_Ret in H as (? & w12 & [= <- Hw12] & H).
  apply bind_Ret in H as (? & w13 & Hw13 & H).
  apply path_write_text_Ret in Hw13. rewrite Hmd5 in Hw13.
  apply bind_Ret in H as (? & w14 & Hw14 & H). apply log_Ret in Hw14.
  (* the clean-up *)
  apply bind_Ret in H as (? & w15 & Hclean & H). apply log_Ret in H.
  apply (unlink_and_log_Ret _ _ (fun exc => "warn: failed to remove " +:+ q +:+ ": " +:+ exc))
    in Hclean as (Hfiles15 & Hproc15 & Hfree15 & Htrace15 & Hnote).
  rewrite Eq in Hfiles15, Hnote.
  symmetry in Hw11, Hw12.
  (* the worlds, unwound *)
  unwind_in Hproc1. unwind_in Hinter. unwind_in Hfree. unwind_in Hproc2. unwind_in Hfinal.
  subst procs1.
  assert (Hf14 : files w14 = <[v +:+ ".md5" :=
                     mkFile (MD5.hexdigest (f_data final) +:+ "  " +:+ vname +:+ nl)
                            (from_option f_exec false
                               (effect2 (effect1 (files w)) !! (v +:+ ".md5")))]>
                   (effect2 (effect1 (files w)))) by (unwind; reflexivity).
  assert (Hp14 : proc_in w14 = procs) by (unwind; reflexivity).
  assert (Hfr14 : free_in w14 = frees) by (unwind; reflexivity).
  assert (Ht14 : trace w14 = trace w ++
            [ERun [to_str (cfg_qemu_img (job_cfg job)); "convert"; "-f"; "qcow2"; "-O";
                   "qcow2"; job_install_path job; q] (Some (job_qemu_env job));
             ERun [to_str (cfg_qemu_img (job_cfg job)); "convert"; "-f"; "qcow2"; "-O";
                   "vdi"; q; v] (Some (job_qemu_env job))])
    by (unwind; rewrite <- app_assoc; reflexivity).
  assert (Hs14 : exists lines, length lines = 6%nat /\ stdout w14 = stdout w ++ lines).
  { unwind. eexists [_; _; _; _; _; _]. split; [reflexivity|].
    rewrite <- !app_assoc. reflexivity. }
  destruct Hs14 as (lines & _ & Hs14).
  clear Hw1 Hw2 Hw3 Hw4 Hw5 Hw6 Hw7 Hw8 Hw9 Hw10 Hw11 Hw12 Hw13 Hw14 Hfinal10.
  eexists out1, err1, effect1, out2, err2, effect2, procs, free, frees, intermediate, final, _.
  exists (List.last (stdout w15) "").
  split; [exact Hproc1|]. split; [exact Hinter|]. split; [exact Hfree|].
  split; [exact Hmax|]. split; [exact Hfinal|].
  rewrite H. project.
  split; [rewrite Htrace15; exact Ht14|].
  split; [rewrite Hfiles15, Hf14; reflexivity|].
  split; [rewrite Hproc15; exact Hp14|]. split; [rewrite Hfree15; exact Hfr14|].
  destruct Hnote as [[_ Hout]|[_ Hout]]; rewrite Hout, last_last, Hs14.
  - split; [left; reflexivity|]. exists lines. rewrite <- !app_assoc. reflexivity.
  - split; [right; reflexivity|]. exists lines. rewrite <- !app_assoc. reflexivity.
Qed.

(** ** The first half of [main], summed up *)

Section Summary.
Variables (WORKDIR : Path) (sha512_hexdigest : string -> string)
          (json_loads : string -> option ImageInfo).

Lemma main_prepare_summary args w job w' :
  main_prepare WORKDIR sha512_hexdigest json_loads args w = (Ret job, w') ->
  exists session vm polled k info,
    let env := augmented (DEFAULT_LIB_PATH WORKDIR) (environ w) in
    let path := strip (show_opt (get_root_install_path vm)) in
    let size := default 0 (actual_size info) in
    (exists ms0 st0 ms1 resp1 others rest,
        http_in w = HttpResponse ms0 (mkResponse st0 (Some (BodyInventory session)))
                    :: HttpResponse ms1 resp1 :: rest /\
        json_body resp1 = Some (BodyInventories (vm :: others))) /\
    (truthy session = true /\ truthy (vm_uuid vm) = true /\
     truthy (get_root_install_path vm) = true /\
     is_Some (files w !! to_str (of_str path))) /\
    ((k <= 2)%nat /\
     match polled with
     | None => lower (or_str (vm_state vm) "") = "running"
     | Some j => lower (or_str (vm_state vm) "") <> "running" /\ 3 * Z.of_nat j < 180
     end) /\
    trace w' = trace w ++ prepare_events WORKDIR sha512_hexdigest args session vm polled k env /\
    environ w' = environ w /\
    (exists out err effect,
        proc_in w !! (k + 3)%nat = Some (ProcDone 0 out err effect) /\
        json_loads out = Some info) /\
    proc_in w' = drop (k + 4) (proc_in w) /\
    (exists free frees,
        free_in w = free :: frees /\ MIN_FREE_BYTES <= free /\
        if size =? 0 then free_in w' = frees
        else exists free2, frees = free2 :: free_in w' /\ size <= free2) /\
    job = mkJob (main_cfg WORKDIR args) path
                (or_str (a_product args) (or_str (vm_name vm) "vm_image")) env.
Proof.
  intros H. apply main_prepare_Ret in H.
  destruct H as (session & vm & l0 & w1 & l1 & w2 & l2 & w3 & w4 & w5 & l5 & w6 & info & w7
                 & w8 & _ & Hlogin & Hget & (Huuid & Hpath & Hlocal) & Hvm & Hfstrim
                 & Hshutdown & Hqemu & Hinfo & Hspace & Hsize & Hjob).
  (* the login and the lookup *)
  apply login_Ret_world in Hlogin as (ms0 & st0 & rest0 & Hin0 & _ & _ & Hw1).
  apply get_vm_by_ip_Ret_world in Hget
    as (Hsession & ms1 & resp1 & body & rest & Hin1 & _ & Hbody & Hfound & Hw2).
  project_in Hin0. rewrite Hw1 in Hin1. project_in Hin1. subst rest0.
  assert (Hvms : exists others, body = BodyInventories (vm :: others)).
  { destruct body as [|[|first others]|]; try discriminate.
    injection Hfound as ->. eauto. }
  destruct Hvms as [others ->].
  assert (Ht2 : trace w2 = trace w ++
            [login_request sha512_hexdigest (ZStackClient_init HOST USER_NAME USER_PASSWORD);
             get_request (with_session (ZStackClient_init HOST USER_NAME USER_PASSWORD) session)
                         (a_ip args)]).
  { rewrite Hw2. project. rewrite Hw1. project. rewrite <- app_assoc. reflexivity. }
  assert (Hp2 : proc_in w2 = proc_in w) by (rewrite Hw2; project; rewrite Hw1; reflexivity).
  assert (Hf2 : free_in w2 = free_in w) by (rewrite Hw2; project; rewrite Hw1; reflexivity).
  assert (He2 : environ w2 = environ w) by (rewrite Hw2; project; rewrite Hw1; reflexivity).
  assert (Hfiles2 : files w2 = files w) by (rewrite Hw2; project; rewrite Hw1; reflexivity).
  rewrite Hfiles2 in Hlocal. clear Hw1 Hw2 Hfiles2.
  (* the waking of the VM *)
  kept proc_in Hvm Hp3 @keeps_ensure_vm_running. kept free_in Hvm Hf3 @keeps_ensure_vm_running.
  kept environ Hvm He3 @keeps_ensure_vm_running.
  apply ensure_vm_running_Ret in Hvm. project_in Hvm. project_in Hp3. project_in Hf3.
  project_in He3.
  assert (Hwake : exists polled,
             trace w3 = trace w2 ++ wake_events
                          (with_session (ZStackClient_init HOST USER_NAME USER_PASSWORD) session)
                          (a_ip args) (show_opt (vm_uuid vm)) polled /\
             match polled with
             | None => lower (or_str (vm_state vm) "") = "running"
             | Some j => lower (or_str (vm_state vm) "") <> "running" /\ 3 * Z.of_nat j < 180
             end).
  { destruct Hvm as [[Hst Ht]|(Hst & _ & j & Ht & Hj)].
    - exists None. auto.
    - exists (Some j). auto. }
  destruct Hwake as (polled & Ht3 & Hpolled). clear Hvm.
  (* the trim and the shutdown *)
  kept free_in Hfstrim Hf4 @keeps_ssh_fstrim. kept environ Hfstrim He4 @keeps_ssh_fstrim.
  apply ssh_fstrim_outcome in Hfstrim as (k & Hk & _ & Ht4 & Hp4 & _ & Hok4).
  kept free_in Hshutdown Hf5 @keeps_ssh_shutdown. kept environ Hshutdown He5 @keeps_ssh_shutdown.
  apply ssh_shutdown_outcome in Hshutdown as (Ht5 & Hp5 & _ & Hok5).
  (* the probes of the converter *)
  apply ensure_qemu_available_Ret in Hqemu as (Hw6 & _ & _).
  apply qemu_img_info_Ret in Hinfo as (Hw7 & out & err & effect & rest7 & Hp6 & Hjson).
  apply ensure_free_space_Ret in Hspace as (free & frees & Hfree7 & Hmin & Hw8).
  assert (Hp6' : proc_in w6 = drop (k + 3) (proc_in w)).
  { rewrite Hw6, proc_in_spawned. project. rewrite Hp5, Hp4, Hp3, Hp2, !drop_drop.
    f_equal. lia. }
  assert (Henv : environ w5 = environ w) by congruence.
  rewrite Henv in *.
  exists session, vm, polled, k, info. cbv zeta.
  split; [eauto 10|]. split; [auto|]. split; [auto|].
  assert (Ht8 : trace w8 = trace w ++ prepare_events WORKDIR sha512_hexdigest args session vm
                                         polled k
                                         (augmented (DEFAULT_LIB_PATH WORKDIR) (environ w))).
  { rewrite Hw8. project. rewrite Hw7, trace_spawned, Hw6, trace_spawned. project.
    rewrite Ht5, Ht4, Ht3, Ht2. unfold prepare_events, ssh_event.
    rewrite <- !app_assoc. reflexivity. }
  assert (He8 : environ w8 = environ w).
  { rewrite Hw8. project. rewrite Hw7, environ_spawned, Hw6, environ_spawned. project.
    exact Henv. }
  assert (Hp8 : proc_in w8 = drop (k + 4) (proc_in w)).
  { rewrite Hw8. project. rewrite Hw7, proc_in_spawned, Hp6', drop_drop. f_equal. lia. }
  assert (Hfree : free_in w = free :: frees).
  { rewrite Hw7, free_in_spawned, Hw6, free_in_spawned in Hfree7. project_in Hfree7.
    congruence. }
  assert (Hf8 : free_in w8 = frees) by (rewrite Hw8; reflexivity).
  assert (Hinfo : proc_in w !! (k + 3)%nat = Some (ProcDone 0 out err effect)).
  { rewrite Hp6' in Hp6. apply (f_equal (fun l => l !! 0%nat)) in Hp6.
    rewrite lookup_drop, Nat.add_0_r in Hp6. exact Hp6. }
  clear Hw6 Hw7 Hw8.
  destruct (default 0 (actual_size info) =? 0).
  - subst w'. split; [exact Ht8|]. split; [exact He8|]. split; [eauto|].
    split; [exact Hp8|]. split; [|exact Hjob]. exists free, frees. auto.
  - destruct Hsize as (free2 & frees2 & Hfree8 & Hle & ->). project.
    split; [exact Ht8|]. split; [exact He8|]. split; [eauto|].
    split; [exact Hp8|]. split; [|exact Hjob]. exists free, frees.
    split; [exact Hfree|]. split; [exact Hmin|]. exists free2.
    split; [congruence|exact Hle].
Qed.
End Summary.

(** ** The ways [main] stops before it touches the VM *)

Section Entry.
Variables (WORKDIR : Path) (sha512_hexdigest : string -> string)
          (json_loads : string -> option ImageInfo).

Local Notation client0 := (ZStackClient_init HOST USER_NAME USER_PASSWORD).

(** The run [H] of [main_prepare], taken to the lookup: the commands are
    there ([Hssh], [Hpass]) and the login is answered with a session
    ([Hin], [Hst0]).  The world at the lookup is [w1]. *)
Local Ltac enter H Hssh Hpass Hin Hst0 w1 Hw1 :=
  unfold main_prepare in H; cbv zeta in H; unfold log_stage in H;
  unfold bind at 1 in H; rewrite require_command_run, Hssh in H; cbv beta iota in H;
  unfold bind at 1 in H; rewrite require_command_run, Hpass in H; cbv beta iota in H;
  do 3 log_step H;
  unfold bind at 1 in H; rewrite login_cases in H; cbv zeta in H; project_in H;
  rewrite Hin in H; cbn [status_code json_body] in H; rewrite Hst0 in H;
  cbv beta iota in H;
  match type of H with bind _ _ ?W = _ => remember W as w1 eqn:Hw1 end;
  do 2 log_step H.

Lemma main_prepare_no_session args w r w' ms0 st0 session rest0 :
  bool_decide ("ssh" ∈ commands w) = true ->
  bool_decide ("sshpass" ∈ commands w) = true ->
  http_in w = HttpResponse ms0 (mkResponse st0 (Some (BodyInventory session))) :: rest0 ->
  bad_status st0 = false ->
  truthy session = false ->
  main_prepare WORKDIR sha512_hexdigest json_loads args w = (r, w') ->
  r = Exit 1 /\
  trace w' = trace w ++ [login_request sha512_hexdigest client0] /\
  http_in w' = rest0 /\ files w' = files w /\ proc_in w' = proc_in w /\
  exists lines,
    stdout w' = stdout w ++ lines
                ++ ["[export_vdi] login success, session uuid: " +:+ show_opt session;
                    "[export_vdi] ==== 获取 VM 信息 ====";
                    error_line "session uuid is missing, login first"].
Proof.
  intros Hssh Hpass Hin Hst0 Hsession H.
  enter H Hssh Hpass Hin Hst0 w1 Hw1.
  unfold bind at 1 in H. rewrite get_vm_by_ip_no_session in H by exact Hsession.
  injection H as <- <-. rewrite printed_app. project. rewrite Hw1. project.
  repeat (split; [reflexivity|]).
  eexists [_; _; _]. rewrite <- !app_assoc. reflexivity.
Qed.

Lemma main_prepare_not_found args w r w' ms0 st0 session ms1 resp1 body rest :
  bool_decide ("ssh" ∈ commands w) = true ->
  bool_decide ("sshpass" ∈ commands w) = true ->
  http_in w = HttpResponse ms0 (mkResponse st0 (Some (BodyInventory session)))
              :: HttpResponse ms1 resp1 :: rest ->
  bad_status st0 = false ->
  truthy session = true ->
  bad_status (status_code resp1) = false ->
  json_body resp1 = Some body ->
  match body with BodyInventories (_ :: _) => False | _ => True end ->
  main_prepare WORKDIR sha512_hexdigest json_loads args w = (r, w') ->
  r = Exit 1 /\
  trace w' = trace w ++ [login_request sha512_hexdigest client0;
                         get_request (with_session client0 session) (a_ip args)] /\
  http_in w' = rest /\ files w' = files w /\ proc_in w' = proc_in w /\
  List.last (stdout w') "" = error_line ("VM with IP " +:+ a_ip args +:+ " not found").
Proof.
  intros Hssh Hpass Hin Hst0 Hsession Hst1 Hbody Hnone H.
  enter H Hssh Hpass Hin Hst0 w1 Hw1.
  assert (Hin1 : http_in w1 = HttpResponse ms1 resp1 :: rest) by (rewrite Hw1; reflexivity).
  assert (Ht1 : trace w1 = trace w ++ [login_request sha512_hexdigest client0])
    by (rewrite Hw1; reflexivity).
  assert (Hf1 : files w1 = files w) by (rewrite Hw1; reflexivity).
  assert (Hp1 : proc_in w1 = proc_in w) by (rewrite Hw1; reflexivity).
  clear Hw1.
  unfold bind at 1 in H. rewrite get_vm_by_ip_cases in H by exact Hsession.
  cbv zeta in H. project_in H. rewrite Hin1, Hst1, Hbody in H. cbv beta iota in H.
  assert (Hhead : head (match body with BodyInventories l => l | _ => [] end) = None)
    by (destruct body as [|[|]|]; try reflexivity; destruct Hnone).
  rewrite Hhead, die_printed in H. injection H as <- <-. project.
  rewrite Ht1, Hf1, Hp1, <- app_assoc. repeat (split; [reflexivity|]). apply last_last.
Qed.

Lemma main_prepare_not_local args w r w' ms0 st0 session ms1 resp1 vm others rest :
  bool_decide ("ssh" ∈ commands w) = true ->
  bool_decide ("sshpass" ∈ commands w) = true ->
  http_in w = HttpResponse ms0 (mkResponse st0 (Some (BodyInventory session)))
              :: HttpResponse ms1 resp1 :: rest ->
  bad_status st0 = false ->
  truthy session = true ->
  bad_status (status_code resp1) = false ->
  json_body resp1 = Some (BodyInventories (vm :: others)) ->
  truthy (vm_uuid vm) = true ->
  truthy (get_root_install_path vm) = true ->
  files w !! to_str (of_str (strip (show_opt (get_root_install_path vm)))) = None ->
  main_prepare WORKDIR sha512_hexdigest json_loads args w = (r, w') ->
  r = Exit 1 /\
  trace w' = trace w ++ [login_request sha512_hexdigest client0;
                         get_request (with_session client0 session) (a_ip args)] /\
  http_in w' = rest /\ files w' = files w /\ proc_in w' = proc_in w /\
  List.last (stdout w') "" = error_line ("installPath not found locally: "
                                         +:+ strip (show_opt (get_root_install_path vm))).
Proof.
  intros Hssh Hpass Hin Hst0 Hsession Hst1 Hbody Huuid Hpath Hlocal H.
  enter H Hssh Hpass Hin Hst0 w1 Hw1.
  assert (Hin1 : http_in w1 = HttpResponse ms1 resp1 :: rest) by (rewrite Hw1; reflexivity).
  assert (Ht1 : trace w1 = trace w ++ [login_request sha512_hexdigest client0])
    by (rewrite Hw1; reflexivity).
  assert (Hf1 : files w1 = files w) by (rewrite Hw1; reflexivity).
  assert (Hp1 : proc_in w1 = proc_in w) by (rewrite Hw1; reflexivity).
  clear Hw1.
  unfold bind at 1 in H. rewrite get_vm_by_ip_cases in H by exact Hsession.
  cbv zeta in H. project_in H. rewrite Hin1, Hst1, Hbody in H. cbv beta iota in H.
  cbn [head] in H.
  match type of H with bind _ _ ?W = _ => remember W as w2 eqn:Hw2 end.
  assert (Hin2 : http_in w2 = rest) by (rewrite Hw2; reflexivity).
  assert (Ht2 : trace w2 = trace w ++ [login_request sha512_hexdigest client0;
                                       get_request (with_session client0 session) (a_ip args)])
    by (rewrite Hw2; project; rewrite Ht1, <- app_assoc; reflexivity).
  assert (Hf2 : files w2 = files w) by (rewrite Hw2; exact Hf1).
  assert (Hp2 : proc_in w2 = proc_in w) by (rewrite Hw2; exact Hp1).
  clear Hw2.
  unfold bind at 1 in H. rewrite Huuid, Hpath in H. cbn [negb orb when] in H.
  unfold ret at 1 in H. cbv beta iota in H.
  do 3 log_step H.
  unfold bind at 1, path_exists at 1 in H. project_in H. rewrite Hf2, Hlocal in H.
  rewrite bool_decide_eq_false_2 in H by (intros [? [=]]). cbv beta iota in H.
  unfold bind at 1 in H. cbn [negb when] in H. rewrite die_printed in H.
  injection H as <- <-. rewrite printed_app. project.
  rewrite Ht2, Hf2, Hp2, Hin2. repeat (split; [reflexivity|]).
  rewrite app_assoc. apply last_last.
Qed.
End Entry.

Section Refused.
Variables (WORKDIR : Path) (sha512_hexdigest : string -> string)
          (json_loads : string -> option ImageInfo).

Lemma main_prepare_login_refused args w r w' ms resp rest :
  bool_decide ("ssh" ∈ commands w) = true ->
  bool_decide ("sshpass" ∈ commands w) = true ->
  http_in w = HttpResponse ms resp :: rest ->
  bad_status (status_code resp) = true ->
  main_prepare WORKDIR sha512_hexdigest json_loads args w = (r, w') ->
  r = Raise "HTTPError" /\
  trace w' = trace w ++ [login_request sha512_hexdigest
                           (ZStackClient_init HOST USER_NAME USER_PASSWORD)] /\
  http_in w' = rest /\ files w' = files w /\ proc_in w' = proc_in w.
Proof.
  intros Hssh Hpass Hin Hst H.
  unfold main_prepare in H. cbv zeta in H. unfold log_stage in H.
  unfold bind at 1 in H. rewrite require_command_run, Hssh in H. cbv beta iota in H.
  unfold bind at 1 in H. rewrite require_command_run, Hpass in H. cbv beta iota in H.
  do 3 log_step H.
  unfold bind at 1 in H. rewrite login_cases in H. cbv zeta in H. project_in H.
  rewrite Hin, Hst in H. injection H as <- <-. project. auto.
Qed.
End Refused.

(** ** The ways the export stops *)

(** The run [H] of [main_export], taken past the check of the output
    paths [Hq0], [Hv0] to the first conversion. *)
Local Ltac start_export H Hq0 Hv0 :=
  unfold main_export in H; cbv zeta in H;
  unfold bind at 1, path_exists at 1 in H; rewrite Hq0 in H;
  rewrite bool_decide_eq_false_2 in H by (intros [? [=]]); cbv beta iota in H;
  unfold bind at 1, path_exists at 1 in H; rewrite Hv0 in H;
  rewrite bool_decide_eq_false_2 in H by (intros [? [=]]); cbv beta iota in H;
  unfold bind at 1 in H; cbn [when] in H; unfold ret at 1 in H; cbv beta iota in H;
  log_step H.

Lemma main_export_first_conversion_fails (job : Job) (w : World) r w' exc :
  let cfg := job_cfg job in
  let q := to_str (qcow2_path_of cfg (job_product_name job)) in
  let v := to_str (vdi_path_of cfg (job_product_name job)) in
  let cmd := [to_str (cfg_qemu_img cfg); "convert"; "-f"; "qcow2"; "-O"; "qcow2";
              job_install_path job; q] in
  files w !! q = None -> files w !! v = None ->
  attempt_error cmd (head (proc_in w)) = Some exc ->
  main_export job w = (r, w') ->
  r = Raise exc /\
  w' = spawned cmd (Some (job_qemu_env job)) (printed ["[export_vdi] exporting to qcow2"] w).
Proof.
  intros cfg q v cmd Hq0 Hv0 Hexc H. subst cmd q v cfg.
  start_export H Hq0 Hv0.
  unfold bind at 1 in H. rewrite convert_image_spawned in H. cbv zeta in H.
  project_in H. rewrite Hexc in H.
  injection H as <- <-. split; reflexivity.
Qed.

Lemma main_export_short_of_space (job : Job) (w : World) r w'
    out err effect procs intermediate free frees :
  let cfg := job_cfg job in
  let q := to_str (qcow2_path_of cfg (job_product_name job)) in
  let v := to_str (vdi_path_of cfg (job_product_name job)) in
  let required := Z.max (Z.of_nat (String.length (f_data intermediate)))
                        (cfg_min_free_bytes cfg) in
  files w !! q = None -> files w !! v = None ->
  proc_in w = ProcDone 0 out err effect :: procs ->
  effect (files w) !! q = Some intermediate ->
  free_in w = free :: frees ->
  free < required ->
  main_export job w = (r, w') ->
  r = Exit 1 /\
  files w' = effect (files w) /\
  trace w' = trace w ++ [convert_event cfg (job_qemu_env job) (job_install_path job) q
                                       "qcow2" "qcow2"] /\
  proc_in w' = procs /\ free_in w' = frees /\
  List.last (stdout w') "" = space_message "vdi conversion stage" required free.
Proof.
  intros cfg q v required Hq0 Hv0 Hproc Hinter Hfree Hlt H. subst required q v cfg.
  start_export H Hq0 Hv0.
  unfold bind at 1 in H. rewrite convert_image_spawned in H. cbv zeta in H.
  project_in H. rewrite Hproc in H. cbn [head attempt_error Z.eqb] in H.
  cbv beta iota in H.
  match type of H with bind _ _ ?W = _ => remember W as w1 eqn:Hw1 end.
  assert (Hf1 : files w1 = effect (files w))
    by (rewrite Hw1; unfold spawned; project; rewrite Hproc; reflexivity).
  assert (Ht1 : trace w1 = trace w ++ [convert_event (job_cfg job) (job_qemu_env job)
                                         (job_install_path job)
                                         (to_str (qcow2_path_of (job_cfg job)
                                                                (job_product_name job)))
                                         "qcow2" "qcow2"])
    by (rewrite Hw1, trace_spawned; reflexivity).
  assert (Hp1 : proc_in w1 = procs)
    by (rewrite Hw1, proc_in_spawned; project; rewrite Hproc; reflexivity).
  assert (Hfr1 : free_in w1 = free :: frees)
    by (rewrite Hw1, free_in_spawned; exact Hfree).
  clear Hw1.
  unfold bind at 1, path_stat_size at 1 in H. rewrite Hf1, Hinter in H.
  cbv beta iota in H. log_step H.
  unfold bind at 1 in H.
  rewrite (ensure_free_space_run _ _ _ _ free frees) in H by exact Hfr1.
  match type of H with context [free <? ?x] => destruct (free <? x) eqn:E; [|lia] end.
  injection H as <- <-. project.
  rewrite Hf1, Ht1, Hp1. repeat (split; [reflexivity|]). apply last_last.
Qed.

(** ** Further properties of [main] *)

Lemma div_plain (W : Path) (name ext : string) :
  has_slash name = false -> extension ext ->
  div W (name +:+ ext) = mkPath (p_root W) (p_parts W ++ [name +:+ ext]).
Proof.
  intros Hname (Hs & Hstart & Hk). unfold div, of_str. cbn [p_root p_parts].
  rewrite starts_with_slash_append by exact Hstart.
  assert (Hroot : starts_with_slash name = false).
  { destruct name as [|c name]; [reflexivity|]. simpl in *.
    destruct (Ascii.eqb c "/"); [discriminate|reflexivity]. }
  rewrite Hroot, split_slash_append, split_slash_no_slash by assumption.
  cbn [removelast List.last app List.filter]. rewrite Hk. reflexivity.
Qed.

Lemma prefix_before_first {A} (p : A -> bool) (P X B : list A) (c : A) (rest : list A) :
  P ++ X = B ++ c :: rest -> Forall (fun e => p e = false) P -> p c = true ->
  exists B', B = P ++ B'.
Proof.
  revert B. induction P as [|x P IH]; intros B Heq Hall Hc; [by exists B|].
  apply Forall_cons in Hall as [Hx Hall].
  destruct B as [|b B]; cbn in Heq; injection Heq as -> Heq; [congruence|].
  destruct (IH B Heq Hall Hc) as [B' ->]. by exists B'.
Qed.

(** X13: [main] asks for [ssh] and then for [sshpass] before anything
    else: when one is not found it ends with status 1 and names the first
    that is missing, no request having been sent, no process spawned and
    no file touched. *)
Theorem main_requires_ssh_commands
    (WORKDIR : Path) (sha512_hexdigest : string -> string)
    (json_loads : string -> option ImageInfo) (args : Args) (w : World) (cmd : string) :
  List.find (fun c => negb (bool_decide (c ∈ commands w))) ["ssh"; "sshpass"] = Some cmd ->
  main WORKDIR sha512_hexdigest json_loads args w
  = (Exit 1, printed [error_line ("missing required command: " +:+ cmd)] w).
Proof.
  intros Hfind. rewrite main_run. unfold main_prepare. cbv zeta.
  unfold bind at 1. rewrite require_command_run. cbn [List.find] in Hfind.
  destruct (bool_decide ("ssh" ∈ commands w)); cbn [negb] in Hfind.
  2:{ injection Hfind as <-. reflexivity. }
  cbv beta iota. unfold bind at 1. rewrite require_command_run.
  destruct (bool_decide ("sshpass" ∈ commands w)); cbn [negb] in Hfind; [discriminate|].
  injection Hfind as <-. reflexivity.
Qed.

(** X14: when the login is answered with an error status, [main] does
    not exit by itself: the [HTTPError] of the login goes up uncaught,
    after that one request and nothing else. *)
Theorem main_raises_when_the_login_is_refused
    (WORKDIR : Path) (sha512_hexdigest : string -> string)
    (json_loads : string -> option ImageInfo) (args : Args) (w : World)
    (ms : N) (resp : Response) (rest : list HttpReply) :
  bool_decide ("ssh" ∈ commands w) = true ->
  bool_decide ("sshpass" ∈ commands w) = true ->
  http_in w = HttpResponse ms resp :: rest ->
  bad_status (status_code resp) = true ->
  exists w',
    main WORKDIR sha512_hexdigest json_loads args w = (Raise "HTTPError", w') /\
    trace w' = trace w ++ [login_request sha512_hexdigest
                             (ZStackClient_init HOST USER_NAME USER_PASSWORD)] /\
    files w' = files w /\ proc_in w' = proc_in w.
Proof.
  intros Hssh Hpass Hin Hst. rewrite main_run.
  destruct (main_prepare WORKDIR sha512_hexdigest json_loads args w) as [r w'] eqn:Hrun.
  apply (main_prepare_login_refused _ _ _ _ _ _ _ _ _ _ Hssh Hpass Hin Hst) in Hrun
    as (-> & Ht & _ & Hf & Hp).
  exists w'. auto.
Qed.

(** X15: when the login is answered with a good status but without a
    usable session uuid (null or empty), [main] reports the login as a
    success and then ends with status 1 at the lookup, on the message that
    the session is missing: the login is the only request it has sent. *)
Theorem main_stops_without_a_session
    (WORKDIR : Path) (sha512_hexdigest : string -> string)
    (json_loads : string -> option ImageInfo) (args : Args) (w : World)
    (ms0 : N) (st0 : Z) (session : option string) (rest0 : list HttpReply) :
  bool_decide ("ssh" ∈ commands w) = true ->
  bool_decide ("sshpass" ∈ commands w) = true ->
  http_in w = HttpResponse ms0 (mkResponse st0 (Some (BodyInventory session))) :: rest0 ->
  bad_status st0 = false ->
  truthy session = false ->
  exists w',
    main WORKDIR sha512_hexdigest json_loads args w = (Exit 1, w') /\
    trace w' = trace w ++ [login_request sha512_hexdigest
                             (ZStackClient_init HOST USER_NAME USER_PASSWORD)] /\
    files w' = files w /\ proc_in w' = proc_in w /\
    exists lines,
      stdout w' = stdout w ++ lines
                  ++ ["[export_vdi] login success, session uuid: " +:+ show_opt session;
                      "[export_vdi] ==== 获取 VM 信息 ====";
                      error_line "session uuid is missing, login first"].
Proof.
  intros Hssh Hpass Hin Hst0 Hsession. rewrite main_run.
  destruct (main_prepare WORKDIR sha512_hexdigest json_loads args w) as [r w'] eqn:Hrun.
  apply (main_prepare_no_session _ _ _ _ _ _ _ _ _ _ _ Hssh Hpass Hin Hst0 Hsession) in Hrun
    as (-> & Ht & _ & Hf & Hp & Hout).
  exists w'. auto.
Qed.

(** X16: when the lookup is answered without any record (an empty list
    of inventories, or a body without that list), [main] ends with status
    1 and the message that no VM has the address; it has sent the login
    and the lookup and nothing else, spawned no process and touched no
    file. *)
Theorem main_stops_when_no_vm_is_found
    (WORKDIR : Path) (sha512_hexdigest : string -> string)
    (json_loads : string -> option ImageInfo) (args : Args) (w : World)
    (ms0 : N) (st0 : Z) (session : option string)
    (ms1 : N) (resp1 : Response) (body : Body) (rest : list HttpReply) :
  bool_decide ("ssh" ∈ commands w) = true ->
  bool_decide ("sshpass" ∈ commands w) = true ->
  http_in w = HttpResponse ms0 (mkResponse st0 (Some (BodyInventory session)))
              :: HttpResponse ms1 resp1 :: rest ->
  bad_status st0 = false ->
  truthy session = true ->
  bad_status (status_code resp1) = false ->
  json_body resp1 = Some body ->
  match body with BodyInventories (_ :: _) => False | _ => True end ->
  exists w',
    main WORKDIR sha512_hexdigest json_loads args w = (Exit 1, w') /\
    List.last (stdout w') "" = error_line ("VM with IP " +:+ a_ip args +:+ " not found") /\
    trace w' = trace w ++ [login_request sha512_hexdigest
                             (ZStackClient_init HOST USER_NAME USER_PASSWORD);
                           get_request (with_session
                                          (ZStackClient_init HOST USER_NAME USER_PASSWORD)
                                          session) (a_ip args)] /\
    files w' = files w /\ proc_in w' = proc_in w.
Proof.
  intros Hssh Hpass Hin Hst0 Hsession Hst1 Hbody Hnone. rewrite main_run.
  destruct (main_prepare WORKDIR sha512_hexdigest json_loads args w) as [r w'] eqn:Hrun.
  apply (main_prepare_not_found _ _ _ _ _ _ _ _ _ _ _ _ _ _ Hssh Hpass Hin Hst0 Hsession
           Hst1 Hbody Hnone) in Hrun as (-> & Ht & _ & Hf & Hp & Hout).
  exists w'. auto.
Qed.


(** X18: the product name is the product argument when it is given and
    not empty, otherwise the name of the located VM when it has one; it is
    never empty.  For a name without a slash the two output paths are the
    components of the working directory followed by the name with its
    extension. *)
Theorem product_name_is_the_argument_first
    (WORKDIR : Path) (sha512_hexdigest : string -> string)
    (json_loads : string -> option ImageInfo)
    (args : Args) (w : World) (job : Job) (w1 : World) :
  main_prepare WORKDIR sha512_hexdigest json_loads args w = (Ret job, w1) ->
  exists reply0 ms resp rest vm others,
    http_in w = reply0 :: HttpResponse ms resp :: rest /\
    json_body resp = Some (BodyInventories (vm :: others)) /\
    let product := job_product_name job in
    nonempty product = true /\
    (truthy (a_product args) = true -> a_product args = Some product) /\
    (truthy (a_product args) = false -> truthy (vm_name vm) = true ->
     vm_name vm = Some product) /\
    (has_slash product = false ->
     qcow2_path_of (job_cfg job) product
     = mkPath (p_root WORKDIR) (p_parts WORKDIR ++ [product +:+ ".qcow2"]) /\
     vdi_path_of (job_cfg job) product
     = mkPath (p_root WORKDIR) (p_parts WORKDIR ++ [product +:+ ".vdi"])).
Proof.
  intros Hrun. apply main_prepare_located in Hrun
    as (reply0 & ms & resp & rest & vm & others & Hin & Hbody & _ & _ & ->).
  exists reply0, ms, resp, rest, vm, others. split; [exact Hin|]. split; [exact Hbody|].
  cbn [job_product_name job_cfg]. cbv zeta.
  split; [destruct (a_product args) as [[|]|], (vm_name vm) as [[|]|]; reflexivity|].
  split; [destruct (a_product args) as [[|]|]; try discriminate; reflexivity|].
  split.
  { destruct (a_product args) as [[|]|], (vm_name vm) as [[|]|]; try discriminate;
      reflexivity. }
  intros Hslash. unfold qcow2_path_of, vdi_path_of. cbn [cfg_workdir main_cfg Config_init].
  rewrite !div_plain by (first [exact Hslash|apply extension_qcow2|apply extension_vdi]).
  split; reflexivity.
Qed.

(** X19: the export is reached only with room on the disk: the first
    free-space reading of the run is at least 50 GiB, and when the
    converter reports a non-zero actual size for the source image, read
    from the output of its [info] run, a second reading is taken and is
    at least that size.  With no actual size, or zero, the second reading
    is not taken. *)
Theorem export_needs_free_space
    (WORKDIR : Path) (sha512_hexdigest : string -> string)
    (json_loads : string -> option ImageInfo)
    (args : Args) (w : World) (job : Job) (w1 : World) :
  main_prepare WORKDIR sha512_hexdigest json_loads args w = (Ret job, w1) ->
  exists (free : Z) (frees : list Z) (info : ImageInfo) (n : nat) out err effect,
    free_in w = free :: frees /\
    50 * 1024 * 1024 * 1024 <= free /\
    proc_in w !! n = Some (ProcDone 0 out err effect) /\
    json_loads out = Some info /\
    match actual_size info with
    | None => free_in w1 = frees
    | Some size =>
        if size =? 0 then free_in w1 = frees
        else exists free2, frees = free2 :: free_in w1 /\ size <= free2
    end.
Proof.
  intros Hrun. apply main_prepare_summary in Hrun
    as (session & vm & polled & k & info & _ & _ & _ & _ & _
        & (out & err & effect & Hproc & Hjson) & _
        & (free & frees & Hfree & Hmin & Hsize) & _).
  exists free, frees, info, (k + 3)%nat, out, err, effect.
  split; [exact Hfree|]. split; [exact Hmin|]. split; [exact Hproc|]. split; [exact Hjson|].
  destruct (actual_size info) as [size|]; exact Hsize.
Qed.

(** ** Further properties of the whole run *)

Lemma runs_main_export_any env0 (job : Job) :
  runs env0 (fun _ => True) (main_export job) anything.
Proof.
  pose proof (fun cmd env => runs_run_cmd env0 (fun _ => True) cmd env true I) as Hcmd.
  assert (Hquiet : forall A (c : M A),
             (forall w, environ (snd (c w)) = environ w /\ trace (snd (c w)) = trace w) ->
             runs env0 (fun _ => True) c anything)
    by (intros A c Hc; apply runs_quiet; [exact Hc|intros; exact I]).
  unfold main_export. cbv zeta.
  eapply runs_bind with (Q := anything); [by apply Hquiet|]. intros qcow2_exists _.
  eapply runs_bind with (Q := anything);
    [destruct qcow2_exists; [by apply runs_ret|by apply Hquiet]|].
  intros collision _.
  apply runs_seq; [apply runs_when, runs_die|].
  apply runs_seq; [apply runs_log|].
  apply runs_seq; [apply runs_seq; [apply Hcmd|by apply runs_ret]|].
  eapply runs_bind with (Q := anything); [apply runs_path_stat_size|]. intros qcow2_size _.
  apply runs_seq; [apply runs_log|].
  apply runs_seq; [apply runs_ensure_free_space|].
  apply runs_seq; [apply runs_log|].
  apply runs_seq; [apply runs_seq; [apply Hcmd|by apply runs_ret]|].
  eapply runs_bind with (Q := anything); [apply runs_path_stat_size|]. intros vdi_size _.
  do 2 (apply runs_seq; [apply runs_log|]).
  eapply runs_bind with (Q := anything); [apply runs_md5_file|]. intros vdi_md5 _.
  eapply runs_bind with (Q := anything);
    [destruct (with_suffix _ _); [apply runs_raise|by apply runs_ret]|].
  intros md5_path _.
  apply runs_seq; [by apply Hquiet|].
  apply runs_seq; [apply runs_log|].
  apply runs_seq; [|apply runs_log].
  apply runs_try_except; [|intros exc; apply runs_log].
  apply runs_seq; [|apply runs_log].
  apply Hquiet. intros w0. unfold path_unlink. destruct (files w0 !! _); split; reflexivity.
Qed.

Lemma main_export_extends (job : Job) (w : World) r w' :
  main_export job w = (r, w') -> exists evs, trace w' = trace w ++ evs.
Proof.
  intros Hrun.
  destruct (runs_main_export_any (environ w) job w r w' eq_refl Hrun)
    as (_ & (evs & Ht & _) & _).
  eauto.
Qed.

(** X20: no conversion is spawned before the preparation is complete.
    In every run of [main], however it ends, the events before a
    conversion begin with those of the whole first half: the login and
    the lookup, the waking of the VM with its settle sleep, the trim with
    at most two failed attempts before it, the one shutdown, and the two
    probes of the converter, in this order. *)
Theorem conversion_follows_preparation
    (WORKDIR : Path) (sha512_hexdigest : string -> string)
    (json_loads : string -> option ImageInfo)
    (args : Args) (w : World) (r : Res unit) (w' : World)
    (before : list Event) (c : Event) (after : list Event) :
  main WORKDIR sha512_hexdigest json_loads args w = (r, w') ->
  trace w' = trace w ++ before ++ c :: after ->
  is_convert c = true ->
  exists session vm polled (k : nat) more,
    (k <= 2)%nat /\
    before = prepare_events WORKDIR sha512_hexdigest args session vm polled k
                            (augmented (DEFAULT_LIB_PATH WORKDIR) (environ w))
             ++ more.
Proof.
  intros Hrun Htrace Hc. rewrite main_run in Hrun.
  destruct (main_prepare WORKDIR sha512_hexdigest json_loads args w) as [r0 w1] eqn:Hprep.
  destruct (not_convert_main_prepare WORKDIR sha512_hexdigest json_loads (environ w) args
              w r0 w1 eq_refl Hprep) as (_ & (evs & Ht1 & Hall) & _).
  assert (Hstop : w' = w1 -> False).
  { intros ->. rewrite Ht1 in Htrace. apply app_inv_head in Htrace. subst evs.
    apply Forall_app in Hall as [_ Hall]. apply Forall_cons in Hall as [Hc' _]. congruence. }
  destruct r0 as [job|e|n|]; try (injection Hrun as _ <-; by destruct Hstop).
  apply main_prepare_summary in Hprep
    as (session & vm & polled & k & info & _ & _ & (Hk & _) & Ht & _).
  apply main_export_extends in Hrun as (evs2 & Ht2).
  rewrite Ht in Ht1. apply app_inv_head in Ht1. subst evs.
  rewrite Ht2, Ht, <- app_assoc in Htrace. apply app_inv_head in Htrace.
  apply (prefix_before_first is_convert) in Htrace as [more ->]; [|exact Hall|exact Hc].
  exists session, vm, polled, k, more. auto.
Qed.




(** X24: when the free space read after the first conversion is below
    the larger of the size of the intermediate image and 50 GiB, [main]
    ends with status 1 and the message of the stage, the second conversion
    is not spawned, and the intermediate image stays where the first
    conversion wrote it: nothing removes it. *)
Theorem short_space_leaves_the_intermediate_image
    (WORKDIR : Path) (sha512_hexdigest : string -> string)
    (json_loads : string -> option ImageInfo)
    (args : Args) (w0 : World) (job : Job) (w : World)
    (out err : string) (effect : gmap string File -> gmap string File)
    (procs : list ProcReply) (intermediate : File) (free : Z) (frees : list Z) :
  let cfg := job_cfg job in
  let q := to_str (qcow2_path_of cfg (job_product_name job)) in
  let v := to_str (vdi_path_of cfg (job_product_name job)) in
  let required := Z.max (Z.of_nat (String.length (f_data intermediate)))
                        (cfg_min_free_bytes cfg) in
  main_prepare WORKDIR sha512_hexdigest json_loads args w0 = (Ret job, w) ->
  files w !! q = None -> files w !! v = None ->
  proc_in w = ProcDone 0 out err effect :: procs ->
  effect (files w) !! q = Some intermediate ->
  free_in w = free :: frees ->
  free < required ->
  exists w',
    main WORKDIR sha512_hexdigest json_loads args w0 = (Exit 1, w') /\
    files w' = effect (files w) /\
    files w' !! q = Some intermediate /\
    trace w' = trace w ++ [convert_event cfg (job_qemu_env job) (job_install_path job) q
                                         "qcow2" "qcow2"] /\
    List.last (stdout w') "" = space_message "vdi conversion stage" required free.
Proof.
  intros cfg q v required Hprep Hq0 Hv0 Hproc Hinter Hfree Hlt. rewrite main_run, Hprep.
  destruct (main_export job w) as [r w'] eqn:Hrun.
  apply (main_export_short_of_space job w r w' out err effect procs intermediate free frees
           Hq0 Hv0 Hproc Hinter Hfree Hlt) in Hrun as (-> & Hf & Ht & _ & _ & Hlast).
  exists w'. split; [reflexivity|]. split; [exact Hf|]. split; [by rewrite Hf|].
  split; [exact Ht|exact Hlast].
Qed.

(** ** The claims on concrete runs *)

Import Scenario.

Local Notation run_main w := (main workdir sha512 json_loads args w).
Local Notation run_prepare w := (main_prepare workdir sha512 json_loads args w).
Local Notation run_polling :=
  (ensure_vm_running client "10.0.0.5" "u-1" "Stopped" 180 20 world_polling).

Lemma get_root_install_path_first_root_witness :
  get_root_install_path vm_running = Some "/data/pool/vm1.img".
Proof.
  apply (proj1 (proj2 (get_root_install_path_first_root vm_running))
           [mkVolume (Some "Data") (Some "/data/pool/data1.img")]
           (mkVolume (Some "Root") (Some "/data/pool/vm1.img"))
           [mkVolume (Some "Root") (Some "/data/pool/vm1-old.img")]).
  - reflexivity.
  - repeat constructor. simpl. discriminate.
  - reflexivity.
Defined.


Lemma main_aborts_on_existing_output_witness :
  fst (run_main world_collision) = Exit 1.
Proof.
  assert (Hprep : run_prepare world_collision = (Ret job, snd (run_prepare world_collision)))
    by (apply (run_result (run_prepare world_collision) (Ret job)); vm_compute; reflexivity).
  destruct (main_aborts_on_existing_output workdir sha512 json_loads args
              world_collision job (snd (run_prepare world_collision)) Hprep)
    as (w' & Hmain & _).
  - right. exists (mkFile "old" false). vm_compute. reflexivity.
  - rewrite Hmain. reflexivity.
Defined.


Lemma SSHRunner_run_sleeps_between_failures_witness :
  fst (SSHRunner_run runner "10.0.0.5" "fstrim /" 3 30 world_retry) = Ret tt /\
  sleeps (retried (ssh_command runner "10.0.0.5" "fstrim /") 30 2
          ++ [ERun (ssh_command runner "10.0.0.5" "fstrim /") None]) = [30; 30].
Proof.
  assert (Hfails : Forall (fun p => proc_fails p = true)
                          [ProcDone 255 "" "timed out" id; ProcRaise "OSError"])
    by (repeat constructor).
  assert (Hinterval : 0 <= 30) by lia.
  destruct (proj1 (SSHRunner_run_sleeps_between_failures runner "10.0.0.5" "fstrim /"
                     3 30 world_retry
                     [ProcDone 255 "" "timed out" id; ProcRaise "OSError"]
                     (ProcDone 0 "" "" id) [] Hinterval eq_refl Hfails))
    as (Hr & _ & Hs).
  - simpl. lia.
  - reflexivity.
  - split; [exact Hr|exact Hs].
Defined.

Lemma get_vm_by_ip_first_or_none_witness :
  fst (get_vm_by_ip client "10.0.0.5" world_lookup) = Ret (Some vm_stopped).
Proof.
  apply (proj2 (proj2 (get_vm_by_ip_first_or_none client "10.0.0.5" world_lookup 5 200
                         [vm_stopped; vm_running] [] eq_refl eq_refl eq_refl))
           vm_stopped [vm_running]).
  reflexivity.
Defined.


Lemma md5_sidecar_records_digest_witness :
  exists sidecar : File,
    files (snd (run_main world)) !! "/opt/export/myvm.vdi.md5" = Some sidecar /\
    f_data sidecar = "900150983cd24fb0d6963f7d28e17f72  myvm.vdi" +:+ nl.
Proof.
  assert (Hrun : run_main world = (Ret tt, snd (run_main world)))
    by (apply (run_result (run_main world) (Ret tt)); vm_compute; reflexivity).
  destruct (md5_sidecar_records_digest workdir sha512 json_loads args world
              (snd (run_main world)) Hrun)
    as (job' & w1 & final & sidecar & Hprep & Hfinal & Hside & Hdata & _).
  assert (E : run_prepare world = (Ret job, snd (run_prepare world)))
    by (apply (run_result (run_prepare world) (Ret job)); vm_compute; reflexivity).
  pose proof (eq_trans (eq_sym Hprep) E) as Heq.
  apply (f_equal fst) in Heq. cbn [fst] in Heq.
  assert (Hjob : job' = job) by (injection Heq; exact (fun x => x)).
  clear Heq E Hprep. subst job'.
  exists sidecar. split; [exact Hside|].
  assert (E : files (snd (run_main world)) !! "/opt/export/myvm.vdi"
              = Some (mkFile "abc" false)) by (vm_compute; reflexivity).
  assert (Hp : to_str (vdi_path_of (job_cfg job) (job_product_name job))
               = "/opt/export/myvm.vdi") by (vm_compute; reflexivity).
  rewrite Hp in Hfinal. pose proof (eq_trans (eq_sym Hfinal) E) as Hf.
  assert (Hf' : final = mkFile "abc" false) by (injection Hf; exact (fun x => x)).
  rewrite Hdata, Hf'. vm_compute. reflexivity.
Defined.

Lemma converter_env_prepends_bundled_libs_witness :
  In (ERun ["/opt/export/bin/qemu-img"; "--help"]
           (Some (<["LD_LIBRARY_PATH" := "/opt/export/lib:/opt/qemu-lib:/usr/lib"]>
                    (environ world))))
     (trace (snd (run_main world))) /\
  environ (snd (run_main world)) = environ world.
Proof.
  assert (Hin : In (ERun (to_str (DEFAULT_QEMU_IMG workdir) :: ["--help"])
                         (Some (<["LD_LIBRARY_PATH" := "/opt/export/lib:/opt/qemu-lib:/usr/lib"]>
                                  (environ world))))
                   (trace (snd (run_main world)))).
  { vm_compute. do 12 right. left. reflexivity. }
  assert (Htrace : trace (snd (run_main world))
                   = trace world ++ trace (snd (run_main world))) by reflexivity.
  split; [exact Hin|].
  exact (proj2 (proj2 (proj2 (converter_env_prepends_bundled_libs workdir sha512 json_loads))
                  args world (trace (snd (run_main world))) ["--help"] _ Htrace Hin)).
Defined.


(** ** The further properties on concrete runs *)

Import Incidents.

Local Notation client0 := (ZStackClient_init HOST USER_NAME USER_PASSWORD).

Lemma requests_need_a_session_witness :
  fst (get_vm_by_ip client0 "10.0.0.5" world) = Exit 1.
Proof.
  rewrite (proj1 (requests_need_a_session client0 "10.0.0.5" "u-1" world eq_refl)).
  reflexivity.
Defined.



Lemma get_vm_by_ip_reads_the_status_first_witness :
  fst (get_vm_by_ip client "10.0.0.5" world_refused_lookup) = Raise "HTTPError".
Proof.
  apply (proj1 (proj2 (get_vm_by_ip_reads_the_status_first client "10.0.0.5"
                         world_refused_lookup 5
                         (mkResponse 503 (Some (BodyInventories [vm_running]))) []
                         eq_refl eq_refl))).
  reflexivity.
Defined.

Lemma ensure_vm_running_when_running_witness :
  exists w',
    ensure_vm_running client "10.0.0.5" "u-1" "RUNNING" 180 20 world = (Ret tt, w') /\
    trace w' = trace world ++ [ESleep 20].
Proof.
  assert (Hstate : lower "RUNNING" = "running") by (vm_compute; reflexivity).
  assert (Hsettle : 0 <= 20) by lia.
  destruct (ensure_vm_running_when_running client "10.0.0.5" "u-1" "RUNNING" 180 20 world
              Hstate Hsettle) as (w' & Hrun & Htrace & _).
  exists w'. split; [exact Hrun|exact Htrace].
Defined.


Lemma main_requires_ssh_commands_witness :
  run_main world_no_sshpass
  = (Exit 1, printed [error_line "missing required command: sshpass"] world_no_sshpass).
Proof.
  apply (main_requires_ssh_commands workdir sha512 json_loads args world_no_sshpass "sshpass").
  vm_compute. reflexivity.
Defined.

Lemma main_stops_without_a_session_witness :
  exists w', run_main world_null_session = (Exit 1, w').
Proof.
  assert (Hssh : bool_decide ("ssh" ∈ commands world_null_session) = true)
    by (vm_compute; reflexivity).
  assert (Hpass : bool_decide ("sshpass" ∈ commands world_null_session) = true)
    by (vm_compute; reflexivity).
  destruct (main_stops_without_a_session workdir sha512 json_loads args world_null_session
              5 200 None [] Hssh Hpass eq_refl eq_refl eq_refl) as (w' & Hrun & _).
  exists w'. exact Hrun.
Defined.

Lemma main_raises_when_the_login_is_refused_witness :
  exists w', run_main world_refused_login = (Raise "HTTPError", w').
Proof.
  assert (Hssh : bool_decide ("ssh" ∈ commands world_refused_login) = true)
    by (vm_compute; reflexivity).
  assert (Hpass : bool_decide ("sshpass" ∈ commands world_refused_login) = true)
    by (vm_compute; reflexivity).
  destruct (main_raises_when_the_login_is_refused workdir sha512 json_loads args
              world_refused_login 5 (mkResponse 401 None) [] Hssh Hpass eq_refl eq_refl)
    as (w' & Hrun & _).
  exists w'. exact Hrun.
Defined.

Lemma main_stops_when_no_vm_is_found_witness :
  exists w',
    run_main world_empty_lookup = (Exit 1, w') /\
    List.last (stdout w') "" = error_line ("VM with IP " +:+ "10.0.0.5" +:+ " not found").
Proof.
  assert (Hssh : bool_decide ("ssh" ∈ commands world_empty_lookup) = true)
    by (vm_compute; reflexivity).
  assert (Hpass : bool_decide ("sshpass" ∈ commands world_empty_lookup) = true)
    by (vm_compute; reflexivity).
  destruct (main_stops_when_no_vm_is_found workdir sha512 json_loads args world_empty_lookup
              5 200 (Some "session-1") 5 (mkResponse 200 (Some (BodyInventories [])))
              (BodyInventories []) [] Hssh Hpass eq_refl eq_refl eq_refl eq_refl eq_refl I)
    as (w' & Hrun & Hlast & _).
  exists w'. split; [exact Hrun|exact Hlast].
Defined.


Lemma product_name_is_the_argument_first_witness :
  qcow2_path_of (job_cfg job) (job_product_name job)
  = mkPath true ["opt"; "export"; "myvm.qcow2"].
Proof.
  assert (Hprep : run_prepare world = (Ret job, snd (run_prepare world)))
    by (apply (run_result (run_prepare world) (Ret job)); vm_compute; reflexivity).
  destruct (product_name_is_the_argument_first workdir sha512 json_loads args world job
              (snd (run_prepare world)) Hprep)
    as (_ & _ & _ & _ & _ & _ & _ & _ & _ & _ & _ & Hpaths).
  exact (proj1 (Hpaths eq_refl)).
Defined.

Lemma export_needs_free_space_witness :
  exists free : Z, 50 * 1024 * 1024 * 1024 <= free /\ head (free_in world) = Some free.
Proof.
  assert (Hprep : run_prepare world = (Ret job, snd (run_prepare world)))
    by (apply (run_result (run_prepare world) (Ret job)); vm_compute; reflexivity).
  destruct (export_needs_free_space workdir sha512 json_loads args world job
              (snd (run_prepare world)) Hprep)
    as (free & frees & _ & _ & _ & _ & _ & Hfree & Hmin & _).
  exists free. split; [exact Hmin|]. rewrite Hfree. reflexivity.
Defined.

Lemma conversion_follows_preparation_witness :
  exists session vm polled (k : nat) more,
    take 14 (trace (snd (run_main world)))
    = prepare_events workdir sha512 args session vm polled k
                     (augmented (DEFAULT_LIB_PATH workdir) (environ world)) ++ more.
Proof.
  assert (Htrace : trace (snd (run_main world))
                   = trace world ++ take 14 (trace (snd (run_main world)))
                     ++ nth 14 (trace (snd (run_main world))) (ESleep 0)
                     :: drop 15 (trace (snd (run_main world))))
    by (vm_compute; reflexivity).
  assert (Hconvert : is_convert (nth 14 (trace (snd (run_main world))) (ESleep 0)) = true)
    by (vm_compute; reflexivity).
  destruct (conversion_follows_preparation workdir sha512 json_loads args world _ _ _ _ _
              (surjective_pairing _) Htrace Hconvert)
    as (session & vm & polled & k & more & _ & Hbefore).
  exists session, vm, polled, k, more. exact Hbefore.
Defined.




Lemma short_space_leaves_the_intermediate_image_witness :
  exists w',
    run_main world_short = (Exit 1, w') /\
    files w' !! to_str (qcow2_path_of (job_cfg job) (job_product_name job))
    = Some (mkFile "QCOW" false).
Proof.
  assert (Hprep : run_prepare world_short = (Ret job, snd (run_prepare world_short)))
    by (apply (run_result (run_prepare world_short) (Ret job)); vm_compute; reflexivity).
  assert (Hq : files (snd (run_prepare world_short))
                 !! to_str (qcow2_path_of (job_cfg job) (job_product_name job)) = None)
    by (vm_compute; reflexivity).
  assert (Hv : files (snd (run_prepare world_short))
                 !! to_str (vdi_path_of (job_cfg job) (job_product_name job)) = None)
    by (vm_compute; reflexivity).
  assert (Hproc : proc_in (snd (run_prepare world_short))
                  = ProcDone 0 "" ""
                      (fun f => <["/opt/export/myvm.qcow2" := mkFile "QCOW" false]> f)
                    :: drop 6 processes)
    by (vm_compute; reflexivity).
  assert (Hinter : (fun f => <["/opt/export/myvm.qcow2" := mkFile "QCOW" false]> f)
                     (files (snd (run_prepare world_short)))
                     !! to_str (qcow2_path_of (job_cfg job) (job_product_name job))
                   = Some (mkFile "QCOW" false))
    by (vm_compute; reflexivity).
  assert (Hfree : free_in (snd (run_prepare world_short)) = [10])
    by (vm_compute; reflexivity).
  assert (Hlt : 10 < Z.max (Z.of_nat (String.length (f_data (mkFile "QCOW" false))))
                           (cfg_min_free_bytes (job_cfg job)))
    by (vm_compute; reflexivity).
  destruct (short_space_leaves_the_intermediate_image workdir sha512 json_loads args
              world_short job (snd (run_prepare world_short)) "" ""
              (fun f => <["/opt/export/myvm.qcow2" := mkFile "QCOW" false]> f)
              (drop 6 processes) (mkFile "QCOW" false) 10 [] Hprep Hq Hv Hproc Hinter
              Hfree Hlt)
    as (w' & Hrun & _ & Hkept & _).
  exists w'. split; [exact Hrun|exact Hkept].
Defined.
